(** * The download engine of libalpm (lib/libalpm/dload.c)

    A shallow embedding of the download engine: the payload record, the
    progress and header sinks that libcurl calls back, the transfer
    configurator, the single-transfer driver, the parallel driver with its
    mirror failover, and the entry point [alpm_fetch_pkgurl].

    Conventions of the embedding.
    - [off_t], [curl_off_t] and [long] are [Z].  Signed overflow is undefined
      in C; the sizes the engine adds are byte counts of files.
    - The [double] byte counts that libcurl reports are integral, so they are
      [Z] too, and the epsilon comparison [DOUBLE_EQ] is equality on them.
    - An [int] used as a truth value is a [bool]; a [char *] that may be
      [NULL] is an [option string].
    - [size_t] is 64 bits wide and its arithmetic wraps around.
    - Allocation ([MALLOC], [STRDUP], [get_fullpath]) succeeds, except in
      [curl_multi_retry_next_server], whose out-of-memory exit is kept
      because the completion check branches on it.
    - Everything outside the process is explicit: the files on disk, the
      interrupt flag, [handle->pm_errno], the calls of the front end's
      download callback, the log and the multi handle are fields of [world];
      what libcurl and the operating system answer is an argument of the
      function that asks. *)

From Stdlib Require Import ZArith String Ascii List Bool Lia.
From stdpp Require Import base option gmap strings list pretty.

Local Open Scope string_scope.
Local Open Scope list_scope.
Local Open Scope Z_scope.

(** ** Strings as the C library sees them *)

Module CString.

(** [strrchr s c]: the suffix of [s] that starts at the last [c]. *)
Fixpoint strrchr (s : string) (c : ascii) : option string :=
  match s with
  | EmptyString => None
  | String a s' =>
      match strrchr s' c with
      | Some r => Some r
      | None => if Ascii.eqb a c then Some s else None
      end
  end.

(** [strstr s needle]: the suffix of [s] that starts at the first
    occurrence of [needle]. *)
Fixpoint strstr (s needle : string) : option string :=
  if String.prefix needle s then Some s
  else match s with
       | EmptyString => None
       | String _ s' => strstr s' needle
       end.

(** [strcspn s reject]: the length of the longest prefix of [s] free of
    the characters of [reject]. *)
Fixpoint strcspn (s : string) (reject : list ascii) : nat :=
  match s with
  | EmptyString => O
  | String a s' =>
      if existsb (Ascii.eqb a) reject then O else S (strcspn s' reject)
  end.

(** The [n] first characters, and what follows them. *)
Fixpoint take (n : nat) (s : string) : string :=
  match n, s with
  | S n', String a s' => String a (take n' s')
  | _, _ => EmptyString
  end.

Fixpoint drop (n : nat) (s : string) : string :=
  match n, s with
  | S n', String _ s' => drop n' s'
  | _, _ => s
  end.

Definition strlen (s : string) : Z := Z.of_nat (String.length s).

Definition slash : ascii := "/"%char.

End CString.

(** ** Enumerations *)

(** The error kinds of [alpm_errno_t] that dload.c sets. *)
Inductive alpm_errno_t : Type :=
| ALPM_ERR_OK
| ALPM_ERR_MEMORY
| ALPM_ERR_SYSTEM
| ALPM_ERR_WRONG_ARGS
| ALPM_ERR_SERVER_BAD_URL
| ALPM_ERR_SERVER_NONE
| ALPM_ERR_RETRIEVE
| ALPM_ERR_LIBCURL
| ALPM_ERR_EXTERNAL_DOWNLOAD.

Inductive alpm_loglevel_t : Type :=
| ALPM_LOG_ERROR
| ALPM_LOG_WARNING
| ALPM_LOG_DEBUG.

(** The results of a transfer that dload.c tells apart; every other
    [CURLcode] takes the [default:] branch of its switches. *)
Inductive CURLcode : Type :=
| CURLE_OK
| CURLE_COULDNT_RESOLVE_HOST
| CURLE_ABORTED_BY_CALLBACK
| CURLE_FILESIZE_EXCEEDED
| CURLE_other (code : Z).

(** [enum { ABORT_SIGINT = 1, ABORT_OVER_MAXFILESIZE }] *)
Definition ABORT_SIGINT : Z := 1.
Definition ABORT_OVER_MAXFILESIZE : Z := 2.

(** The events handed to the front end's download callback, with the data
    of their [alpm_download_event_*_t] argument. *)
Inductive alpm_download_event : Type :=
| ALPM_DOWNLOAD_INIT (optional : bool)
| ALPM_DOWNLOAD_PROGRESS (downloaded total : Z)
| ALPM_DOWNLOAD_COMPLETED (total : Z) (result : Z).

(** The options dload.c sets on an easy handle. *)
Inductive curlopt : Type :=
| CURLOPT_URL (url : option string)
| CURLOPT_ERRORBUFFER (set : bool)
| CURLOPT_CONNECTTIMEOUT (seconds : Z)
| CURLOPT_MAXREDIRS (n : Z)
| CURLOPT_FILETIME (on : Z)
| CURLOPT_NOPROGRESS (on : Z)
| CURLOPT_FOLLOWLOCATION (on : Z)
| CURLOPT_XFERINFOFUNCTION
| CURLOPT_XFERINFODATA
| CURLOPT_LOW_SPEED_LIMIT (bytes : Z)
| CURLOPT_LOW_SPEED_TIME (seconds : Z)
| CURLOPT_HEADERFUNCTION
| CURLOPT_HEADERDATA
| CURLOPT_NETRC_OPTIONAL
| CURLOPT_TCP_KEEPALIVE (on : Z)
| CURLOPT_TCP_KEEPIDLE (seconds : Z)
| CURLOPT_TCP_KEEPINTVL (seconds : Z)
| CURLOPT_HTTPAUTH_ANY
| CURLOPT_PRIVATE
| CURLOPT_MAXFILESIZE_LARGE (bytes : Z)
| CURLOPT_USERAGENT (agent : string)
| CURLOPT_TIMECONDITION_IFMODSINCE
| CURLOPT_TIMEVALUE (mtime : Z)
| CURLOPT_RESUME_FROM_LARGE (offset : Z)
| CURLOPT_WRITEDATA (path : option string).

(** ** The data model *)

#[local] Set Primitive Projections.

(** What [stat] reports of a file. *)
Record stat : Type := mk_stat {
  st_size : Z;
  st_mtime : Z
}.

(** An open [FILE *]: the path it was opened on, the position of the next
    write, and whether it was opened for appending.  The stream is
    identified with the file of that path. *)
Record FILE : Type := mk_FILE {
  f_path : string;
  f_pos : Z;
  f_append : bool
}.

(** [struct dload_payload].  The declaration lives in dload.h; the fields
    are those dload.c reads and writes.  The back pointer [handle] is the
    [alpm_handle] argument of the functions below. *)
Record dload_payload : Type := mk_payload {
  (** const char *: the fopen mode, NULL in a zeroed payload *)
  tempfile_openmode : option string;
  remote_name : option string;
  tempfile_name : option string;
  destfile_name : option string;
  content_disp_name : option string;
  fileurl : option string;
  filepath : option string;
  (** alpm_list_t *: the cursor, i.e. the mirrors not yet given up *)
  servers : list string;
  respcode : Z;
  initial_size : Z;
  max_size : Z;
  prevprogress : Z;
  force : bool;
  allow_resume : bool;
  errors_ok : bool;
  unlink_on_fail : bool;
  trust_remote_name : bool;
  signature : bool;
  (** CURL *: the easy handle, seen as the options set on it *)
  curl : option (list curlopt);
  error_buffer : string;
  (** FILE *: the stream of the temp file (parallel driver only) *)
  localf : option FILE
}.

Definition set_tempfile_openmode (v : option string) (x : dload_payload) : dload_payload :=
  {| tempfile_openmode := v; remote_name := remote_name x;
     tempfile_name := tempfile_name x; destfile_name := destfile_name x;
     content_disp_name := content_disp_name x; fileurl := fileurl x;
     filepath := filepath x; servers := servers x; respcode := respcode x;
     initial_size := initial_size x; max_size := max_size x;
     prevprogress := prevprogress x; force := force x;
     allow_resume := allow_resume x; errors_ok := errors_ok x;
     unlink_on_fail := unlink_on_fail x;
     trust_remote_name := trust_remote_name x; signature := signature x;
     curl := curl x; error_buffer := error_buffer x; localf := localf x |}.

Definition set_remote_name (v : option string) (x : dload_payload) : dload_payload :=
  {| tempfile_openmode := tempfile_openmode x; remote_name := v;
     tempfile_name := tempfile_name x; destfile_name := destfile_name x;
     content_disp_name := content_disp_name x; fileurl := fileurl x;
     filepath := filepath x; servers := servers x; respcode := respcode x;
     initial_size := initial_size x; max_size := max_size x;
     prevprogress := prevprogress x; force := force x;
     allow_resume := allow_resume x; errors_ok := errors_ok x;
     unlink_on_fail := unlink_on_fail x;
     trust_remote_name := trust_remote_name x; signature := signature x;
     curl := curl x; error_buffer := error_buffer x; localf := localf x |}.

Definition set_tempfile_name (v : option string) (x : dload_payload) : dload_payload :=
  {| tempfile_openmode := tempfile_openmode x; remote_name := remote_name x;
     tempfile_name := v; destfile_name := destfile_name x;
     content_disp_name := content_disp_name x; fileurl := fileurl x;
     filepath := filepath x; servers := servers x; respcode := respcode x;
     initial_size := initial_size x; max_size := max_size x;
     prevprogress := prevprogress x; force := force x;
     allow_resume := allow_resume x; errors_ok := errors_ok x;
     unlink_on_fail := unlink_on_fail x;
     trust_remote_name := trust_remote_name x; signature := signature x;
     curl := curl x; error_buffer := error_buffer x; localf := localf x |}.

Definition set_destfile_name (v : option string) (x : dload_payload) : dload_payload :=
  {| tempfile_openmode := tempfile_openmode x; remote_name := remote_name x;
     tempfile_name := tempfile_name x; destfile_name := v;
     content_disp_name := content_disp_name x; fileurl := fileurl x;
     filepath := filepath x; servers := servers x; respcode := respcode x;
     initial_size := initial_size x; max_size := max_size x;
     prevprogress := prevprogress x; force := force x;
     allow_resume := allow_resume x; errors_ok := errors_ok x;
     unlink_on_fail := unlink_on_fail x;
     trust_remote_name := trust_remote_name x; signature := signature x;
     curl := curl x; error_buffer := error_buffer x; localf := localf x |}.

Definition set_content_disp_name (v : option string) (x : dload_payload) : dload_payload :=
  {| tempfile_openmode := tempfile_openmode x; remote_name := remote_name x;
     tempfile_name := tempfile_name x; destfile_name := destfile_name x;
     content_disp_name := v; fileurl := fileurl x; filepath := filepath x;
     servers := servers x; respcode := respcode x;
     initial_size := initial_size x; max_size := max_size x;
     prevprogress := prevprogress x; force := force x;
     allow_resume := allow_resume x; errors_ok := errors_ok x;
     unlink_on_fail := unlink_on_fail x;
     trust_remote_name := trust_remote_name x; signature := signature x;
     curl := curl x; error_buffer := error_buffer x; localf := localf x |}.

Definition set_fileurl (v : option string) (x : dload_payload) : dload_payload :=
  {| tempfile_openmode := tempfile_openmode x; remote_name := remote_name x;
     tempfile_name := tempfile_name x; destfile_name := destfile_name x;
     content_disp_name := content_disp_name x; fileurl := v;
     filepath := filepath x; servers := servers x; respcode := respcode x;
     initial_size := initial_size x; max_size := max_size x;
     prevprogress := prevprogress x; force := force x;
     allow_resume := allow_resume x; errors_ok := errors_ok x;
     unlink_on_fail := unlink_on_fail x;
     trust_remote_name := trust_remote_name x; signature := signature x;
     curl := curl x; error_buffer := error_buffer x; localf := localf x |}.

Definition set_filepath (v : option string) (x : dload_payload) : dload_payload :=
  {| tempfile_openmode := tempfile_openmode x; remote_name := remote_name x;
     tempfile_name := tempfile_name x; destfile_name := destfile_name x;
     content_disp_name := content_disp_name x; fileurl := fileurl x;
     filepath := v; servers := servers x; respcode := respcode x;
     initial_size := initial_size x; max_size := max_size x;
     prevprogress := prevprogress x; force := force x;
     allow_resume := allow_resume x; errors_ok := errors_ok x;
     unlink_on_fail := unlink_on_fail x;
     trust_remote_name := trust_remote_name x; signature := signature x;
     curl := curl x; error_buffer := error_buffer x; localf := localf x |}.

Definition set_servers (v : list string) (x : dload_payload) : dload_payload :=
  {| tempfile_openmode := tempfile_openmode x; remote_name := remote_name x;
     tempfile_name := tempfile_name x; destfile_name := destfile_name x;
     content_disp_name := content_disp_name x; fileurl := fileurl x;
     filepath := filepath x; servers := v; respcode := respcode x;
     initial_size := initial_size x; max_size := max_size x;
     prevprogress := prevprogress x; force := force x;
     allow_resume := allow_resume x; errors_ok := errors_ok x;
     unlink_on_fail := unlink_on_fail x;
     trust_remote_name := trust_remote_name x; signature := signature x;
     curl := curl x; error_buffer := error_buffer x; localf := localf x |}.

Definition set_respcode (v : Z) (x : dload_payload) : dload_payload :=
  {| tempfile_openmode := tempfile_openmode x; remote_name := remote_name x;
     tempfile_name := tempfile_name x; destfile_name := destfile_name x;
     content_disp_name := content_disp_name x; fileurl := fileurl x;
     filepath := filepath x; servers := servers x; respcode := v;
     initial_size := initial_size x; max_size := max_size x;
     prevprogress := prevprogress x; force := force x;
     allow_resume := allow_resume x; errors_ok := errors_ok x;
     unlink_on_fail := unlink_on_fail x;
     trust_remote_name := trust_remote_name x; signature := signature x;
     curl := curl x; error_buffer := error_buffer x; localf := localf x |}.

Definition set_initial_size (v : Z) (x : dload_payload) : dload_payload :=
  {| tempfile_openmode := tempfile_openmode x; remote_name := remote_name x;
     tempfile_name := tempfile_name x; destfile_name := destfile_name x;
     content_disp_name := content_disp_name x; fileurl := fileurl x;
     filepath := filepath x; servers := servers x; respcode := respcode x;
     initial_size := v; max_size := max_size x;
     prevprogress := prevprogress x; force := force x;
     allow_resume := allow_resume x; errors_ok := errors_ok x;
     unlink_on_fail := unlink_on_fail x;
     trust_remote_name := trust_remote_name x; signature := signature x;
     curl := curl x; error_buffer := error_buffer x; localf := localf x |}.

Definition set_prevprogress (v : Z) (x : dload_payload) : dload_payload :=
  {| tempfile_openmode := tempfile_openmode x; remote_name := remote_name x;
     tempfile_name := tempfile_name x; destfile_name := destfile_name x;
     content_disp_name := content_disp_name x; fileurl := fileurl x;
     filepath := filepath x; servers := servers x; respcode := respcode x;
     initial_size := initial_size x; max_size := max_size x;
     prevprogress := v; force := force x; allow_resume := allow_resume x;
     errors_ok := errors_ok x; unlink_on_fail := unlink_on_fail x;
     trust_remote_name := trust_remote_name x; signature := signature x;
     curl := curl x; error_buffer := error_buffer x; localf := localf x |}.

Definition set_unlink_on_fail (v : bool) (x : dload_payload) : dload_payload :=
  {| tempfile_openmode := tempfile_openmode x; remote_name := remote_name x;
     tempfile_name := tempfile_name x; destfile_name := destfile_name x;
     content_disp_name := content_disp_name x; fileurl := fileurl x;
     filepath := filepath x; servers := servers x; respcode := respcode x;
     initial_size := initial_size x; max_size := max_size x;
     prevprogress := prevprogress x; force := force x;
     allow_resume := allow_resume x; errors_ok := errors_ok x;
     unlink_on_fail := v; trust_remote_name := trust_remote_name x;
     signature := signature x; curl := curl x;
     error_buffer := error_buffer x; localf := localf x |}.

Definition set_curl (v : option (list curlopt)) (x : dload_payload) : dload_payload :=
  {| tempfile_openmode := tempfile_openmode x; remote_name := remote_name x;
     tempfile_name := tempfile_name x; destfile_name := destfile_name x;
     content_disp_name := content_disp_name x; fileurl := fileurl x;
     filepath := filepath x; servers := servers x; respcode := respcode x;
     initial_size := initial_size x; max_size := max_size x;
     prevprogress := prevprogress x; force := force x;
     allow_resume := allow_resume x; errors_ok := errors_ok x;
     unlink_on_fail := unlink_on_fail x;
     trust_remote_name := trust_remote_name x; signature := signature x;
     curl := v; error_buffer := error_buffer x; localf := localf x |}.

Definition set_error_buffer (v : string) (x : dload_payload) : dload_payload :=
  {| tempfile_openmode := tempfile_openmode x; remote_name := remote_name x;
     tempfile_name := tempfile_name x; destfile_name := destfile_name x;
     content_disp_name := content_disp_name x; fileurl := fileurl x;
     filepath := filepath x; servers := servers x; respcode := respcode x;
     initial_size := initial_size x; max_size := max_size x;
     prevprogress := prevprogress x; force := force x;
     allow_resume := allow_resume x; errors_ok := errors_ok x;
     unlink_on_fail := unlink_on_fail x;
     trust_remote_name := trust_remote_name x; signature := signature x;
     curl := curl x; error_buffer := v; localf := localf x |}.

Definition set_localf (v : option FILE) (x : dload_payload) : dload_payload :=
  {| tempfile_openmode := tempfile_openmode x; remote_name := remote_name x;
     tempfile_name := tempfile_name x; destfile_name := destfile_name x;
     content_disp_name := content_disp_name x; fileurl := fileurl x;
     filepath := filepath x; servers := servers x; respcode := respcode x;
     initial_size := initial_size x; max_size := max_size x;
     prevprogress := prevprogress x; force := force x;
     allow_resume := allow_resume x; errors_ok := errors_ok x;
     unlink_on_fail := unlink_on_fail x;
     trust_remote_name := trust_remote_name x; signature := signature x;
     curl := curl x; error_buffer := error_buffer x; localf := v |}.

(** The zeroed payload, [(struct dload_payload){0}]. *)
Definition payload_zero : dload_payload :=
  {| tempfile_openmode := None; remote_name := None; tempfile_name := None;
     destfile_name := None; content_disp_name := None; fileurl := None;
     filepath := None; servers := []; respcode := 0; initial_size := 0;
     max_size := 0; prevprogress := 0; force := false; allow_resume := false;
     errors_ok := false; unlink_on_fail := false; trust_remote_name := false;
     signature := false; curl := None; error_buffer := ""; localf := None |}.

(** The state outside the payload that the engine reads and writes. *)
Record world : Type := mk_world {
  (** the files on disk *)
  w_fs : gmap string stat;
  (** the file-scope static of dload.c *)
  dload_interrupted : Z;
  (** handle->pm_errno *)
  pm_errno : alpm_errno_t;
  (** calls of handle->dlcb, oldest first *)
  dlcb_calls : list (option string * alpm_download_event);
  (** calls of _alpm_log, oldest first *)
  alpm_log : list (alpm_loglevel_t * string);
  (** handle->curlm: the easy handles in the multi handle *)
  curlm : list nat;
  (** raise(SIGINT) was called *)
  sigint_raised : bool
}.

Definition set_w_fs (v : gmap string stat) (x : world) : world :=
  {| w_fs := v; dload_interrupted := dload_interrupted x;
     pm_errno := pm_errno x; dlcb_calls := dlcb_calls x;
     alpm_log := alpm_log x; curlm := curlm x;
     sigint_raised := sigint_raised x |}.

Definition set_dload_interrupted (v : Z) (x : world) : world :=
  {| w_fs := w_fs x; dload_interrupted := v; pm_errno := pm_errno x;
     dlcb_calls := dlcb_calls x; alpm_log := alpm_log x; curlm := curlm x;
     sigint_raised := sigint_raised x |}.

Definition set_pm_errno (v : alpm_errno_t) (x : world) : world :=
  {| w_fs := w_fs x; dload_interrupted := dload_interrupted x; pm_errno := v;
     dlcb_calls := dlcb_calls x; alpm_log := alpm_log x; curlm := curlm x;
     sigint_raised := sigint_raised x |}.

Definition set_dlcb_calls (v : list (option string * alpm_download_event)) (x : world) : world :=
  {| w_fs := w_fs x; dload_interrupted := dload_interrupted x;
     pm_errno := pm_errno x; dlcb_calls := v; alpm_log := alpm_log x;
     curlm := curlm x; sigint_raised := sigint_raised x |}.

Definition set_alpm_log (v : list (alpm_loglevel_t * string)) (x : world) : world :=
  {| w_fs := w_fs x; dload_interrupted := dload_interrupted x;
     pm_errno := pm_errno x; dlcb_calls := dlcb_calls x; alpm_log := v;
     curlm := curlm x; sigint_raised := sigint_raised x |}.

Definition set_curlm (v : list nat) (x : world) : world :=
  {| w_fs := w_fs x; dload_interrupted := dload_interrupted x;
     pm_errno := pm_errno x; dlcb_calls := dlcb_calls x;
     alpm_log := alpm_log x; curlm := v; sigint_raised := sigint_raised x |}.

Definition set_sigint_raised (v : bool) (x : world) : world :=
  {| w_fs := w_fs x; dload_interrupted := dload_interrupted x;
     pm_errno := pm_errno x; dlcb_calls := dlcb_calls x;
     alpm_log := alpm_log x; curlm := curlm x; sigint_raised := v |}.
(** The fields of [alpm_handle_t] that the engine only reads.  [dlcb] says
    whether the front end registered a download callback; its calls are
    recorded in [dlcb_calls].  [fetchcb] is the front end's own downloader,
    which acts on the files on disk and returns 0, 1 or -1. *)
Record alpm_handle : Type := mk_handle {
  dlcb : bool;
  fetchcb : option (string -> string -> bool -> gmap string stat ->
                    Z * gmap string stat);
  siglevel : Z;
  disable_dl_timeout : bool;
  parallel_downloads : Z
}.

(** [_alpm_log(handle, level, fmt, ...)]: the level and the format. *)
Definition _alpm_log (level : alpm_loglevel_t) (fmt : string) (w : world)
  : world :=
  set_alpm_log (alpm_log w ++ [(level, fmt)]) w.

(** [handle->dlcb(name, event, &data)], for a front end that registered a
    callback: the call is recorded.  The progress sink tests the pointer
    before it calls; the two drivers do not, and a call through a [NULL]
    pointer ends the process, which the model does not follow.  The
    properties of the single-transfer driver that rest on such a call are
    therefore stated for a handle with [dlcb h = true]; the completion
    check of the parallel driver is reached only after the
    [DOWNLOAD_INIT] call went through the same pointer. *)
Definition call_dlcb (name : option string) (ev : alpm_download_event)
    (w : world) : world :=
  set_dlcb_calls (dlcb_calls w ++ [(name, ev)]) w.

(** ** URL utilities *)

Definition get_filename (url : string) : string :=
  match CString.strrchr url CString.slash with
  | Some (String _ filename) => filename
  | _ => url
  end.

Definition get_fullpath (path filename suffix : string) : string :=
  path +:+ filename +:+ suffix.

(** ** The progress sink *)

(** [dload_progress_cb]: the value returned to libcurl (non-zero asks it to
    abort the transfer), the payload and the world after the call. *)
Definition dload_progress_cb (h : alpm_handle) (dltotal dlnow : Z)
    (payload : dload_payload) (w : world) : Z * dload_payload * world :=
  (* do not print signature files progress bar *)
  if signature payload then (0, payload, w)
  (* avoid displaying progress bar for redirects with a body *)
  else if 300 <=? respcode payload then (0, payload, w)
  (* SIGINT sent, abort by alerting curl *)
  else if negb (dload_interrupted w =? 0) then (1, payload, w)
  (* bogus values : stop here *)
  else if (dlnow <? 0) || (dltotal <=? 0) || (dltotal <? dlnow)
  then (0, payload, w)
  else
    let current_size := initial_size payload + dlnow in
    (* is our filesize still under any set limit? *)
    if negb (max_size payload =? 0) && (max_size payload <? current_size)
    then (1, payload, set_dload_interrupted ABORT_OVER_MAXFILESIZE w)
    (* none of what follows matters if the front end has no callback *)
    else if negb (dlcb h) then (0, payload, w)
    else
      let total_size := initial_size payload + dltotal in
      if prevprogress payload =? total_size then (0, payload, w)
      else
        (0, set_prevprogress current_size payload,
         call_dlcb (remote_name payload)
           (ALPM_DOWNLOAD_PROGRESS dlnow dltotal) w).

(** ** Resetting a payload *)

Definition _alpm_dload_payload_reset (payload : dload_payload)
  : dload_payload :=
  payload_zero.

Definition _alpm_dload_payload_reset_for_retry (payload : dload_payload)
  : dload_payload :=
  let payload := set_fileurl None payload in
  let payload := set_filepath None payload in
  let payload :=
    set_initial_size (initial_size payload + prevprogress payload) payload in
  let payload := set_prevprogress 0 payload in
  set_unlink_on_fail false payload.
(** ** Files and streams *)

Module Fs.

(** [stat(path, &st) == 0]; a [NULL] path fails. *)
Definition stat_of (fs : gmap string stat) (path : option string)
  : option stat :=
  match path with
  | Some name => fs !! name
  | None => None
  end.

Definition unlink (path : option string) (fs : gmap string stat)
  : gmap string stat :=
  match path with
  | Some name => delete name fs
  | None => fs
  end.

(** [rename(old, new)]: fails when [old] does not exist, or when the
    system refuses ([ok = false]); replaces [new] otherwise. *)
Definition rename (ok : bool) (old new : option string)
    (fs : gmap string stat) : option (gmap string stat) :=
  match old, new with
  | Some o, Some n =>
      match fs !! o with
      | Some st => if ok then Some (<[n := st]> (delete o fs)) else None
      | None => None
      end
  | _, _ => None
  end.

Definition utimes (path : option string) (seconds : Z)
    (fs : gmap string stat) : gmap string stat :=
  match path with
  | Some name => alter (fun st => mk_stat (st_size st) seconds) name fs
  | None => fs
  end.

(** [fopen(path, mode)] at time [now]: ["wb"] creates the file or
    truncates it, ["ab"] creates it when missing and writes at its end. *)
Definition fopen (ok : bool) (now : Z) (path mode : option string)
    (fs : gmap string stat) : option (FILE * gmap string stat) :=
  match path, mode with
  | Some name, Some m =>
      if negb ok then None
      else if String.eqb m "wb"
      then Some (mk_FILE name 0 false, <[name := mk_stat 0 now]> fs)
      else if String.eqb m "ab"
      then match fs !! name with
           | Some st => Some (mk_FILE name (st_size st) true, fs)
           | None =>
               Some (mk_FILE name 0 true, <[name := mk_stat 0 now]> fs)
           end
      else None
  | _, _ => None
  end.

(** [fwrite] of [n] bytes at time [now]. *)
Definition write (now n : Z) (f : FILE) (fs : gmap string stat)
  : FILE * gmap string stat :=
  match fs !! f_path f with
  | Some st =>
      let at_ := if f_append f then st_size st else f_pos f in
      (mk_FILE (f_path f) (at_ + n) (f_append f),
       <[f_path f := mk_stat (Z.max (st_size st) (at_ + n)) now]> fs)
  | None => (mk_FILE (f_path f) (f_pos f + n) (f_append f), fs)
  end.

(** [ftruncate(fileno(f), 0)] *)
Definition ftruncate0 (f : FILE) (fs : gmap string stat)
  : gmap string stat :=
  alter (fun st => mk_stat 0 (st_mtime st)) (f_path f) fs.

(** [fseek(f, 0, SEEK_SET)] *)
Definition rewind (f : FILE) : FILE := mk_FILE (f_path f) 0 (f_append f).

End Fs.

Definition set_fs (f : gmap string stat -> gmap string stat) (w : world)
  : world :=
  set_w_fs (f (w_fs w)) w.

(** [RET_ERR] and [GOTO_ERR] (handle.h) record the error kind on the handle
    before they return or jump. *)
Definition set_errno (err : alpm_errno_t) (w : world) : world :=
  set_pm_errno err w.

Definition utimes_long (path : option string) (seconds : Z) (w : world)
  : world :=
  if seconds =? -1 then w else set_fs (Fs.utimes path seconds) w.

(** [curl_easy_setopt] on the payload's easy handle. *)
Definition curl_easy_setopt (o : curlopt) (payload : dload_payload)
  : dload_payload :=
  set_curl
    (match curl payload with
     | Some opts => Some (opts ++ [o])
     | None => None
     end) payload.

(** Subtraction on [size_t]: below 0 it wraps around. *)
Definition SIZE_BITS : Z := 64.

Definition size_t_sub (a b : Z) : Z := (a - b) mod 2 ^ SIZE_BITS.

(** [curl_gethost]: [Some host] when it returns 0 with [host] in the
    buffer, [None] when it returns 1.  [buf_len] is a [size_t]: with
    [buf_len = 0] the bound [buf_len - 1] is the largest [size_t], and no
    host is refused for its length. *)
Definition curl_gethost (url : string) (buf_len : Z) : option string :=
  let found :=
    if String.prefix "file://" url then Some "disk"
    else
      match CString.strstr url "//" with
      | None => None
      | Some s =>
          (* jump over the found // *)
          let p := CString.drop 2 s in
          let hostlen := CString.strcspn p [CString.slash] in
          let host := CString.take hostlen p in
          (* there might be a user:pass@ on the URL. hide it. *)
          match CString.strrchr (CString.drop 1 host) "@"%char with
          | Some (String _ after) => Some after
          | _ => Some host
          end
      end in
  match found with
  | Some host =>
      (* buffer overflow imminent *)
      if size_t_sub buf_len 1 <? CString.strlen host then None
      else Some host
  | None => None
  end.

Definition HOSTNAME_SIZE : Z := 256.

(** ** The header sink *)

Definition ascii_lower (c : ascii) : ascii :=
  let n := nat_of_ascii c in
  if (Nat.leb 65 n && Nat.leb n 90)%bool then ascii_of_nat (n + 32) else c.

(** Modelled from the spec: [_alpm_raw_ncmp] is defined in util.c.  The
    header sink looks for a line that "case-insensitively starts with"
    the name of the header, so the comparison is taken to be 0 exactly
    when the [max] first characters agree up to case. *)
Fixpoint _alpm_raw_ncmp (first second : string) (max : nat) : Z :=
  match max with
  | O => 0
  | S max' =>
      match first, second with
      | EmptyString, EmptyString => 0
      | String a first', String b second' =>
          if Ascii.eqb (ascii_lower a) (ascii_lower b)
          then _alpm_raw_ncmp first' second' max'
          else 1
      | _, _ => 1
      end
  end.

Definition starts_with_quote (s : string) : bool :=
  match s with
  | String c _ => Ascii.eqb c "034"%char
  | EmptyString => false
  end.

(** The file name of a [Content-Disposition] header, as the sink cuts it
    out of the text that follows [filename=].  When that text is a lone
    quote the length handed to [strndup] wraps around, and the copy runs
    to the end of the data. *)
Definition content_disposition_value (fptr : string) : string :=
  let n := CString.strcspn fptr [";"%char; "013"%char; "010"%char] in
  (* remove quotes *)
  if starts_with_quote fptr && starts_with_quote (CString.drop (n - 1) fptr)
  then
    match n with
    | 1%nat => CString.drop 1 fptr
    | _ => CString.take (n - 2) (CString.drop 1 fptr)
    end
  else CString.take n fptr.

(** [dload_parseheader_cb] on the header line [ptr], when the handle
    reports [code] as its response code.  It returns [realsize], which
    lets the transfer go on. *)
Definition dload_parseheader_cb (ptr : string) (code : Z)
    (payload : dload_payload) : dload_payload :=
  let cd_header := "Content-Disposition:" in
  let fn_key := "filename=" in
  let payload :=
    if _alpm_raw_ncmp cd_header ptr (String.length cd_header) =? 0
    then
      match CString.strstr ptr fn_key with
      | Some found =>
          let fptr := CString.drop (String.length fn_key) found in
          set_content_disp_name (Some (content_disposition_value fptr))
            payload
      | None => payload
      end
    else payload in
  if respcode payload =? code then payload else set_respcode code payload.

(** ** What the system and libcurl answer *)

(** The answers of the operating system during one call of a driver. *)
Record sys_env : Type := mk_sys_env {
  (** [getenv("HTTP_USER_AGENT")] *)
  env_useragent : option string;
  (** the time of the clock, for the files the call creates or writes *)
  env_now : Z;
  (** the six characters [mkstemp] picks, [None] when it fails *)
  env_mkstemp : option string;
  env_fchmod_ok : bool;
  env_fdopen_ok : bool;
  env_fopen_ok : bool;
  env_rename_ok : bool;
  env_ftruncate_ok : bool;
  (** the [MALLOC] of [curl_multi_retry_next_server] *)
  env_malloc_ok : bool
}.

(** What [curl_easy_getinfo] reports once a transfer is over. *)
Record transfer_info : Type := mk_info {
  CURLINFO_FILETIME : Z;
  CURLINFO_CONTENT_LENGTH_DOWNLOAD : Z;
  CURLINFO_SIZE_DOWNLOAD : Z;
  CURLINFO_CONDITION_UNMET : Z;
  CURLINFO_EFFECTIVE_URL : string
}.

(** What libcurl does to the engine while a transfer runs: it hands a
    header line to the header sink, reports byte counters to the progress
    sink, or writes body bytes to the stream set with [CURLOPT_WRITEDATA]. *)
Inductive curl_callback : Type :=
| curl_header (ptr : string) (code : Z)
| curl_progress (dltotal dlnow : Z)
| curl_write (n : Z).

(** During a blocking transfer the user may also press the interrupt key,
    which runs [inthandler]. *)
Inductive transfer_step : Type :=
| libcurl (cb : curl_callback)
| SIGINT.

(** ** The transfer configurator *)

Definition curl_set_handle_opts (h : alpm_handle) (useragent : option string)
    (payload : dload_payload) (w : world) : dload_payload * world :=
  (* curl_easy_reset, then the options in the order the code sets them *)
  let opts :=
    [CURLOPT_URL (fileurl payload); CURLOPT_ERRORBUFFER true;
     CURLOPT_CONNECTTIMEOUT 10; CURLOPT_MAXREDIRS 10; CURLOPT_FILETIME 1;
     CURLOPT_NOPROGRESS 0; CURLOPT_FOLLOWLOCATION 1;
     CURLOPT_XFERINFOFUNCTION; CURLOPT_XFERINFODATA] in
  let opts :=
    if negb (disable_dl_timeout h)
    then opts ++ [CURLOPT_LOW_SPEED_LIMIT 1; CURLOPT_LOW_SPEED_TIME 10]
    else opts in
  let opts :=
    opts ++ [CURLOPT_HEADERFUNCTION; CURLOPT_HEADERDATA;
             CURLOPT_NETRC_OPTIONAL; CURLOPT_TCP_KEEPALIVE 1;
             CURLOPT_TCP_KEEPIDLE 60; CURLOPT_TCP_KEEPINTVL 60;
             CURLOPT_HTTPAUTH_ANY; CURLOPT_PRIVATE] in
  let w := _alpm_log ALPM_LOG_DEBUG "%s: url is %s\n" w in
  let '(opts, w) :=
    if negb (max_size payload =? 0)
    then (opts ++ [CURLOPT_MAXFILESIZE_LARGE (max_size payload)],
          _alpm_log ALPM_LOG_DEBUG "%s: maxsize %jd\n" w)
    else (opts, w) in
  let opts :=
    match useragent with
    | Some agent => opts ++ [CURLOPT_USERAGENT agent]
    | None => opts
    end in
  match
    (if negb (allow_resume payload) && negb (force payload)
     then Fs.stat_of (w_fs w) (destfile_name payload) else None)
  with
  | Some st =>
      (* start from scratch, but only download if our local is out of date. *)
      let opts :=
        opts ++ [CURLOPT_TIMECONDITION_IFMODSINCE;
                 CURLOPT_TIMEVALUE (st_mtime st)] in
      (set_curl (Some opts) payload,
       _alpm_log ALPM_LOG_DEBUG "%s: using time condition %ld\n" w)
  | None =>
      match Fs.stat_of (w_fs w) (tempfile_name payload) with
      | Some st =>
          if allow_resume payload then
            (* a previous partial download exists, resume from end of file. *)
            let payload := set_tempfile_openmode (Some "ab") payload in
            let opts := opts ++ [CURLOPT_RESUME_FROM_LARGE (st_size st)] in
            let w :=
              _alpm_log ALPM_LOG_DEBUG
                "%s: tempfile found, attempting continuation from %jd bytes\n"
                w in
            (set_initial_size (st_size st) (set_curl (Some opts) payload), w)
          else (set_curl (Some opts) payload, w)
      | None => (set_curl (Some opts) payload, w)
      end
  end.

(** ** The tempfile manager *)

(** [strrchr(path, '/') + 1]; the callers hand it paths that have a slash. *)
Definition after_last_slash (path : string) : string :=
  match CString.strrchr path CString.slash with
  | Some (String _ name) => name
  | _ => ""
  end.

(** [create_tempfile]: the stream, or [None] for [NULL]. *)
Definition create_tempfile (env : sys_env) (localpath : string)
    (payload : dload_payload) (w : world)
  : option FILE * dload_payload * world :=
  (* create a random filename, which is opened with O_EXCL *)
  let template := localpath +:+ "alpmtmp.XXXXXX" in
  let randpath :=
    match env_mkstemp env with
    | Some chars => localpath +:+ "alpmtmp." +:+ chars
    | None => template
    end in
  let w :=
    match env_mkstemp env with
    | Some _ => set_fs (insert randpath (mk_stat 0 (env_now env))) w
    | None => w
    end in
  if match env_mkstemp env with
     | Some _ => negb (env_fchmod_ok env) || negb (env_fdopen_ok env)
     | None => true
     end
  then
    let w := set_fs (Fs.unlink (Some randpath)) w in
    let w :=
      _alpm_log ALPM_LOG_ERROR
        "failed to create temporary file for download\n" w in
    (None, payload, w)
  else
    (* fp now points to our alpmtmp.XXXXXX *)
    let payload := set_tempfile_name (Some randpath) payload in
    let payload := set_remote_name (Some (after_last_slash randpath)) payload in
    (Some (mk_FILE randpath 0
             (match tempfile_openmode payload with
              | Some m => String.eqb m "ab"
              | None => false
              end)),
     payload, w).

(** ** Running a transfer *)

(** One callback of libcurl on the payload of the transfer. [stream] is the
    stream set with [CURLOPT_WRITEDATA].  The result is [false] when the
    progress sink asks libcurl to abort. *)
Definition run_callback (h : alpm_handle) (now : Z) (cb : curl_callback)
    (stream : option FILE) (payload : dload_payload) (w : world)
  : bool * option FILE * dload_payload * world :=
  match cb with
  | curl_header ptr code =>
      (true, stream, dload_parseheader_cb ptr code payload, w)
  | curl_progress dltotal dlnow =>
      let '(r, payload, w) := dload_progress_cb h dltotal dlnow payload w in
      (r =? 0, stream, payload, w)
  | curl_write n =>
      match stream with
      | Some f =>
          let '(f, fs) := Fs.write now n f (w_fs w) in
          (true, Some f, payload, set_w_fs fs w)
      | None => (true, stream, payload, w)
      end
  end.

(** [curl_easy_perform]: libcurl runs the steps of the transfer in order
    and returns [result], unless the progress sink asks for an abort, which
    ends the transfer with [CURLE_ABORTED_BY_CALLBACK]. *)
Fixpoint curl_easy_perform (h : alpm_handle) (now : Z)
    (steps : list transfer_step) (result : CURLcode)
    (stream : option FILE) (payload : dload_payload) (w : world)
  : CURLcode * option FILE * dload_payload * world :=
  match steps with
  | [] => (result, stream, payload, w)
  | SIGINT :: steps =>
      curl_easy_perform h now steps result stream payload
        (set_dload_interrupted ABORT_SIGINT w)
  | libcurl cb :: steps =>
      let '(go_on, stream, payload, w) :=
        run_callback h now cb stream payload w in
      if go_on then curl_easy_perform h now steps result stream payload w
      else (CURLE_ABORTED_BY_CALLBACK, stream, payload, w)
  end.

(** A transfer as libcurl carries it out: the steps it takes, the code it
    ends with when no callback aborts it, and what [curl_easy_getinfo]
    reports afterwards. *)
Record transfer : Type := mk_transfer {
  t_steps : list transfer_step;
  t_result : CURLcode;
  t_info : transfer_info
}.

(** ** Naming the artifact after the server's word *)

(** The [if(payload->trust_remote_name)] block that both drivers run after
    a successful transfer. *)
Definition trust_remote_name_block (localpath effective_url : string)
    (payload : dload_payload) : dload_payload :=
  if trust_remote_name payload then
    match content_disp_name payload with
    | Some name =>
        (* content-disposition header has a better name for our file *)
        set_destfile_name
          (Some (get_fullpath localpath (get_filename name) "")) payload
    | None =>
        match CString.strrchr effective_url CString.slash with
        | Some (String _ effective_filename as tail) =>
            if 2 <? CString.strlen tail then
              if match destfile_name payload with
                 | None => true
                 | Some dest =>
                     negb (String.eqb effective_filename
                             (after_last_slash dest))
                 end
              then
                set_destfile_name
                  (Some (get_fullpath localpath effective_filename ""))
                  payload
              else payload
            else payload
        | _ => payload
        end
    end
  else payload.

(** ** The single-transfer driver *)

(** The local variables of [curl_download_internal] that its [cleanup:]
    label reads. *)
Record dl_locals : Type := mk_locals {
  l_ret : Z;
  l_localf : option FILE;
  l_remote_time : Z;
  l_bytes_dl : Z;
  l_final_url : option string
}.

Definition has_filename (name : option string) : bool :=
  match name with
  | Some n => (0 <? CString.strlen n) && negb (String.eqb n ".sig")
  | None => false
  end.

Definition size_is_zero (f : option FILE) (w : world) : bool :=
  match f with
  | Some file =>
      match w_fs w !! f_path file with
      | Some st => st_size st =? 0
      | None => false
      end
  | None => false
  end.

(** The driver is cut at the points where it may leave its straight path:
    it returns at once, it jumps to [cleanup:] with its local variables, or
    it goes on with the stream it holds. *)
Inductive dl_stage : Type :=
| dl_return (ret : Z) (payload : dload_payload) (w : world)
| dl_cleanup (l : dl_locals) (payload : dload_payload) (w : world)
| dl_next (localf : option FILE) (payload : dload_payload) (w : world).

(** From the entry of [curl_download_internal] to the choice of the file
    names. [uninit] is the value [bytes_dl] happens to hold before it is
    assigned. *)
Definition curl_download_names (env : sys_env) (uninit : Z)
    (localpath : string) (payload : dload_payload) (w : world) : dl_stage :=
  let w := set_errno ALPM_ERR_OK w in
  (* curl_easy_init *)
  let payload := set_curl (Some []) payload in
  (* make sure these are NULL *)
  let payload := set_tempfile_name None payload in
  let payload := set_destfile_name None payload in
  let payload := set_content_disp_name None payload in
  let payload := set_tempfile_openmode (Some "wb") payload in
  let url := default "" (fileurl payload) in
  let payload :=
    match remote_name payload with
    | Some _ => payload
    | None => set_remote_name (Some (get_filename url)) payload
    end in
  match curl_gethost url HOSTNAME_SIZE with
  | None =>
      let w := _alpm_log ALPM_LOG_ERROR "url '%s' is invalid\n" w in
      dl_return (-1) payload (set_errno ALPM_ERR_SERVER_BAD_URL w)
  | Some hostname =>
      if has_filename (remote_name payload) then
        let name := default "" (remote_name payload) in
        let payload :=
          set_destfile_name (Some (get_fullpath localpath name "")) payload in
        let payload :=
          set_tempfile_name (Some (get_fullpath localpath name ".part"))
            payload in
        dl_next None payload w
      else
        (* URL doesn't contain a filename, so make a tempfile. We can't
           support resuming this kind of download; partial transfers will be
           destroyed *)
        let payload := set_unlink_on_fail true payload in
        let '(localf, payload, w) :=
          create_tempfile env localpath payload w in
        match localf with
        | Some _ => dl_next localf payload w
        | None => dl_cleanup (mk_locals (-1) None (-1) uninit None) payload w
        end
  end.

(** From the configuration of the transfer to the [DOWNLOAD_INIT] event:
    [dl_next] holds the stream that the transfer will write to. *)
Definition curl_download_open (h : alpm_handle) (env : sys_env) (uninit : Z)
    (localf : option FILE) (payload : dload_payload) (w : world) : dl_stage :=
  let '(payload, w) :=
    curl_set_handle_opts h (env_useragent env) payload w in
  if (max_size payload =? initial_size payload)
     && negb (max_size payload =? 0)
  then
    (* .part file is complete *)
    dl_cleanup (mk_locals 0 localf (-1) uninit None) payload w
  else
    let opened :=
      match localf with
      | Some f => Some (f, w_fs w)
      | None =>
          Fs.fopen (env_fopen_ok env) (env_now env) (tempfile_name payload)
            (tempfile_openmode payload) (w_fs w)
      end in
    match opened with
    | None =>
        let w := _alpm_log ALPM_LOG_ERROR "could not open file %s: %s\n" w in
        dl_cleanup (mk_locals (-1) None (-1) uninit None) payload
          (set_errno ALPM_ERR_RETRIEVE w)
    | Some (f, fs) =>
        let w := set_w_fs fs w in
        let w :=
          _alpm_log ALPM_LOG_DEBUG
            "opened tempfile for download: %s (%s)\n" w in
        let payload :=
          curl_easy_setopt (CURLOPT_WRITEDATA (Some (f_path f))) payload in
        (* the signal handlers are installed here *)
        let w := set_dload_interrupted 0 w in
        let w :=
          call_dlcb (remote_name payload) (ALPM_DOWNLOAD_INIT false) w in
        dl_next (Some f) payload w
    end.

(** From the return of [curl_easy_perform], with the code [curlerr], to
    the jump to [cleanup:]. *)
Definition curl_download_finish (info : transfer_info) (uninit : Z)
    (want_url : bool) (localpath : string) (curlerr : CURLcode)
    (localf : option FILE) (payload : dload_payload) (w : world)
  : dl_locals * dload_payload * world :=
  let w :=
    _alpm_log ALPM_LOG_DEBUG "curl returned error %d from transfer\n" w in
  let payload := curl_easy_setopt (CURLOPT_NOPROGRESS 1) payload in
  let payload := curl_easy_setopt (CURLOPT_ERRORBUFFER false) payload in
  let failed := mk_locals (-1) localf (-1) uninit None in
  (* was it a success? *)
  match curlerr with
  | CURLE_OK =>
      let w := _alpm_log ALPM_LOG_DEBUG "response code: %ld\n" w in
      if 400 <=? respcode payload then
        let payload := set_unlink_on_fail true payload in
        let w :=
          if negb (errors_ok payload) then
            _alpm_log ALPM_LOG_ERROR
              "failed retrieving file '%s' from %s : %s\n"
              (set_errno ALPM_ERR_RETRIEVE w)
          else w in
        (failed, payload, w)
      else
        (* retrieve info about the state of the transfer *)
        let remote_time := CURLINFO_FILETIME info in
        let remote_size := CURLINFO_CONTENT_LENGTH_DOWNLOAD info in
        let bytes_dl := CURLINFO_SIZE_DOWNLOAD info in
        let timecond := CURLINFO_CONDITION_UNMET info in
        let effective_url := CURLINFO_EFFECTIVE_URL info in
        let final_url := if want_url then Some effective_url else None in
        if (timecond =? 1) && (bytes_dl =? 0) then
          (* time condition was met and we didn't download anything. we
             need to clean up the 0 byte .part file that's left behind. *)
          let w := _alpm_log ALPM_LOG_DEBUG "file met time condition\n" w in
          let w := set_fs (Fs.unlink (tempfile_name payload)) w in
          (mk_locals 1 localf remote_time bytes_dl final_url, payload, w)
        else if negb (remote_size =? -1) && negb (bytes_dl =? -1)
                && negb (bytes_dl =? remote_size) then
          let w :=
            _alpm_log ALPM_LOG_ERROR
              "%s appears to be truncated: %jd/%jd bytes\n" w in
          (mk_locals (-1) localf remote_time bytes_dl final_url, payload,
           set_errno ALPM_ERR_RETRIEVE w)
        else
          let payload :=
            trust_remote_name_block localpath effective_url payload in
          (mk_locals 0 localf remote_time bytes_dl final_url, payload, w)
  | CURLE_ABORTED_BY_CALLBACK =>
      (* handle the interrupt accordingly *)
      if dload_interrupted w =? ABORT_OVER_MAXFILESIZE then
        let payload := set_unlink_on_fail true payload in
        let w := set_errno ALPM_ERR_LIBCURL w in
        let w :=
          _alpm_log ALPM_LOG_ERROR
            "failed retrieving file '%s' from %s : expected download size exceeded\n"
            w in
        (failed, payload, w)
      else (failed, payload, w)
  | CURLE_COULDNT_RESOLVE_HOST =>
      let payload := set_unlink_on_fail true payload in
      let w := set_errno ALPM_ERR_SERVER_BAD_URL w in
      let w :=
        _alpm_log ALPM_LOG_ERROR
          "failed retrieving file '%s' from %s : %s\n" w in
      (failed, payload, w)
  | _ =>
      (* delete zero length downloads *)
      let payload :=
        if size_is_zero localf w then set_unlink_on_fail true payload
        else payload in
      let w :=
        if negb (errors_ok payload) then
          _alpm_log ALPM_LOG_ERROR
            "failed retrieving file '%s' from %s : %s\n"
            (set_errno ALPM_ERR_LIBCURL w)
        else
          _alpm_log ALPM_LOG_DEBUG
            "failed retrieving file '%s' from %s : %s\n" w in
      (failed, payload, w)
  end.

(** From the [cleanup:] label to the return: the value returned, the name
    stored through [final_file], the payload and the world. *)
Definition curl_download_cleanup (env : sys_env) (want_file : bool)
    (l : dl_locals) (payload : dload_payload) (w : world)
  : Z * option string * dload_payload * world :=
  let w :=
    match l_localf l with
    | Some _ => utimes_long (tempfile_name payload) (l_remote_time l) w
    | None => w
    end in
  let '(ret, final_file, w) :=
    if l_ret l =? 0 then
      let '(ret, realname, w) :=
        match destfile_name payload with
        | Some dest =>
            match Fs.rename (env_rename_ok env) (tempfile_name payload)
                    (destfile_name payload) (w_fs w) with
            | Some fs => (0, Some dest, set_w_fs fs w)
            | None =>
                (-1, Some dest,
                 _alpm_log ALPM_LOG_ERROR "could not rename %s to %s (%s)\n" w)
            end
        | None => (0, tempfile_name payload, w)
        end in
      (ret,
       if negb (ret =? -1) && want_file
       then Some (after_last_slash (default "" realname)) else None,
       w)
    else (l_ret l, None, w) in
  let w :=
    if ((ret =? -1) || negb (dload_interrupted w =? 0))
       && unlink_on_fail payload
       && match tempfile_name payload with Some _ => true | None => false end
    then set_fs (Fs.unlink (tempfile_name payload)) w
    else w in
  (* curl_easy_cleanup *)
  let payload := set_curl None payload in
  (* the old signal handlers are back; if we were interrupted, trip the
     old handler *)
  let w :=
    if dload_interrupted w =? ABORT_SIGINT then set_sigint_raised true w
    else w in
  let w :=
    call_dlcb (remote_name payload)
      (ALPM_DOWNLOAD_COMPLETED (l_bytes_dl l) ret) w in
  (ret, final_file, payload, w).

(** What [curl_download_internal] stores through [final_url]: the pointer
    that libcurl gave for [CURLINFO_EFFECTIVE_URL], which points into the
    memory of the easy handle.  The driver frees that handle with
    [curl_easy_cleanup] at its [cleanup:] label, before it returns, so the
    pointer the caller holds is a pointer to freed memory; [held] is the
    string that was there while the handle lived. *)
Record freed_url : Type := mk_freed_url {
  held : string
}.

(** [curl_download_internal]: the value returned, what is stored through
    [final_file] and [final_url] when the caller asks for them, the payload
    and the world.  When the interrupt is raised again the result is the one
    of a process that survives it. *)
Definition curl_download_internal (h : alpm_handle) (env : sys_env)
    (t : transfer) (uninit : Z) (want_file want_url : bool)
    (localpath : string) (payload : dload_payload) (w : world)
  : Z * option string * option freed_url * dload_payload * world :=
  let cleanup (l : dl_locals) (payload : dload_payload) (w : world) :=
    let '(ret, final_file, payload, w) :=
      curl_download_cleanup env want_file l payload w in
    (ret, final_file, option_map mk_freed_url (l_final_url l), payload, w) in
  match curl_download_names env uninit localpath payload w with
  | dl_return ret payload w => (ret, None, None, payload, w)
  | dl_cleanup l payload w => cleanup l payload w
  | dl_next localf payload w =>
      match curl_download_open h env uninit localf payload w with
      | dl_return ret payload w => (ret, None, None, payload, w)
      | dl_cleanup l payload w => cleanup l payload w
      | dl_next localf payload w =>
          (* perform transfer *)
          let '(curlerr, localf, payload, w) :=
            curl_easy_perform h (env_now env) (t_steps t) (t_result t)
              localf payload w in
          let '(l, payload, w) :=
            curl_download_finish (t_info t) uninit want_url localpath
              curlerr localf payload w in
          cleanup l payload w
      end
  end.

(** [_alpm_download], built with libcurl. *)
Definition _alpm_download (h : alpm_handle) (env : sys_env) (t : transfer)
    (uninit : Z) (want_file want_url : bool) (localpath : string)
    (payload : dload_payload) (w : world)
  : Z * option string * option freed_url * dload_payload * world :=
  match fetchcb h with
  | None =>
      curl_download_internal h env t uninit want_file want_url localpath
        payload w
  | Some cb =>
      let '(ret, fs) :=
        cb (default "" (fileurl payload)) localpath (force payload) (w_fs w) in
      let w := set_w_fs fs w in
      if (ret =? -1) && negb (errors_ok payload)
      then (-1, None, None, payload, set_errno ALPM_ERR_EXTERNAL_DOWNLOAD w)
      else (ret, None, None, payload, w)
  end.

(** ** The parallel driver *)

(** The multi handle holds the easy handles of the transfers under way.  An
    easy handle is named by the position of its payload in the list of
    payloads, which is what [CURLINFO_PRIVATE] lets the driver recover. *)
Definition curl_multi_add_handle (id : nat) (w : world) : world :=
  set_curlm (id :: curlm w) w.

Definition curl_multi_remove_handle (id : nat) (w : world) : world :=
  set_curlm (filter (fun x => x ≠ id) (curlm w)) w.

(** [curl_multi_retry_next_server]: 0 if retry was successful, -1 otherwise *)
Definition curl_multi_retry_next_server (env : sys_env) (id : nat)
    (payload : dload_payload) (w : world) : Z * dload_payload * world :=
  let payload := set_servers (tail (servers payload)) payload in
  match servers payload with
  | [] =>
      (-1, payload,
       _alpm_log ALPM_LOG_DEBUG "%s: no more servers to retry\n" w)
  | server :: _ =>
      (* regenerate a new fileurl *)
      if negb (env_malloc_ok env)
      then (-1, set_fileurl None payload, set_errno ALPM_ERR_MEMORY w)
      else
        let payload :=
          set_fileurl
            (Some (server +:+ "/" +:+ default "" (filepath payload)))
            payload in
        let truncated :=
          if unlink_on_fail payload then
            (* we keep the file for a new retry but remove its data if any *)
            match localf payload with
            | Some f =>
                if env_ftruncate_ok env
                then Some (set_localf (Some (Fs.rewind f)) payload,
                           set_fs (Fs.ftruncate0 f) w)
                else None
            | None => None
            end
          else Some (payload, w) in
        match truncated with
        | None => (-1, payload, set_errno ALPM_ERR_SYSTEM w)
        | Some (payload, w) =>
            (* Set curl with the new URL *)
            let payload :=
              curl_easy_setopt (CURLOPT_URL (fileurl payload)) payload in
            let w := curl_multi_remove_handle id w in
            let w := curl_multi_add_handle id w in
            (0, payload, w)
        end
  end.

(** The local variables of [curl_multi_check_finished_download] that its
    [cleanup:] label reads. *)
Record finished_locals : Type := mk_finished {
  fl_ret : Z;
  fl_remote_time : Z;
  fl_bytes_dl : Z
}.

(** From the [cleanup:] label of [curl_multi_check_finished_download] to
    its return. *)
Definition curl_multi_finished_cleanup (env : sys_env) (id : nat)
    (l : finished_locals) (payload : dload_payload) (w : world)
  : Z * dload_payload * world :=
  let payload := curl_easy_setopt (CURLOPT_NOPROGRESS 1) payload in
  let payload := curl_easy_setopt (CURLOPT_ERRORBUFFER false) payload in
  let w :=
    match localf payload with
    | Some _ => utimes_long (tempfile_name payload) (fl_remote_time l) w
    | None => w
    end in
  let '(ret, w) :=
    if fl_ret l =? 0 then
      match destfile_name payload with
      | Some _ =>
          match Fs.rename (env_rename_ok env) (tempfile_name payload)
                  (destfile_name payload) (w_fs w) with
          | Some fs => (0, set_w_fs fs w)
          | None =>
              (-1,
               _alpm_log ALPM_LOG_ERROR "could not rename %s to %s (%s)\n" w)
          end
      | None => (0, w)
      end
    else (fl_ret l, w) in
  let w :=
    if ((ret =? -1) || negb (dload_interrupted w =? 0))
       && unlink_on_fail payload
       && match tempfile_name payload with Some _ => true | None => false end
    then set_fs (Fs.unlink (tempfile_name payload)) w
    else w in
  let w :=
    if negb (signature payload)
    then call_dlcb (remote_name payload)
           (ALPM_DOWNLOAD_COMPLETED (fl_bytes_dl l) ret) w
    else w in
  let w := curl_multi_remove_handle id w in
  (* curl_easy_cleanup *)
  let payload := set_curl None payload in
  let payload := set_fileurl None payload in
  let ret := if (ret =? -1) && errors_ok payload then -2 else ret in
  (ret, payload, w).

(** A mirror gave up: try the next one and keep the slot busy (2), or go to
    [cleanup:] with the failure. *)
Definition retry_or_cleanup (env : sys_env) (id : nat)
    (payload : dload_payload) (w : world) : Z * dload_payload * world :=
  let '(r, payload, w) := curl_multi_retry_next_server env id payload w in
  if r =? 0 then (2, payload, w)
  else curl_multi_finished_cleanup env id (mk_finished (-1) (-1) 0) payload w.

(** [curl_multi_check_finished_download] for the message of the easy
    handle [id], whose transfer ended with [curlerr]:
    2 if download retry happened, 1 if the file is up-to-date, 0 if the
    payload is completed successfully, -1 if an error happened for a
    required file, -2 if an error happened for an optional file. *)
Definition curl_multi_check_finished_download (env : sys_env) (id : nat)
    (curlerr : CURLcode) (info : transfer_info) (localpath : string)
    (payload : dload_payload) (w : world) : Z * dload_payload * world :=
  let w :=
    _alpm_log ALPM_LOG_DEBUG "%s: curl returned result %d from transfer\n" w in
  let failed := mk_finished (-1) (-1) 0 in
  (* was it a success? *)
  match curlerr with
  | CURLE_OK =>
      let w := _alpm_log ALPM_LOG_DEBUG "%s: response code %ld\n" w in
      if 400 <=? respcode payload then
        let payload := set_unlink_on_fail true payload in
        let '(payload, w) :=
          if negb (errors_ok payload) then
            (set_error_buffer
               ("The requested URL returned error: "
                +:+ pretty (respcode payload)) payload,
             _alpm_log ALPM_LOG_ERROR
               "failed retrieving file '%s' from %s : %s\n"
               (set_errno ALPM_ERR_RETRIEVE w))
          else (payload, w) in
        retry_or_cleanup env id payload w
      else
        (* retrieve info about the state of the transfer *)
        let remote_time := CURLINFO_FILETIME info in
        let remote_size := CURLINFO_CONTENT_LENGTH_DOWNLOAD info in
        let bytes_dl := CURLINFO_SIZE_DOWNLOAD info in
        let timecond := CURLINFO_CONDITION_UNMET info in
        let effective_url := CURLINFO_EFFECTIVE_URL info in
        if (timecond =? 1) && (bytes_dl =? 0) then
          (* time condition was met and we didn't download anything. we need
             to clean up the 0 byte .part file that's left behind. *)
          let w :=
            _alpm_log ALPM_LOG_DEBUG "%s: file met time condition\n" w in
          let w := set_fs (Fs.unlink (tempfile_name payload)) w in
          curl_multi_finished_cleanup env id
            (mk_finished 1 remote_time bytes_dl) payload w
        else if negb (remote_size =? -1) && negb (bytes_dl =? -1)
                && negb (bytes_dl =? remote_size) then
          let w :=
            _alpm_log ALPM_LOG_ERROR
              "%s appears to be truncated: %jd/%jd bytes\n" w in
          curl_multi_finished_cleanup env id
            (mk_finished (-1) remote_time bytes_dl) payload
            (set_errno ALPM_ERR_RETRIEVE w)
        else
          let payload :=
            trust_remote_name_block localpath effective_url payload in
          curl_multi_finished_cleanup env id
            (mk_finished 0 remote_time bytes_dl) payload w
  | CURLE_ABORTED_BY_CALLBACK =>
      (* handle the interrupt accordingly *)
      if dload_interrupted w =? ABORT_OVER_MAXFILESIZE then
        let payload := set_unlink_on_fail true payload in
        let w := set_errno ALPM_ERR_LIBCURL w in
        let w :=
          _alpm_log ALPM_LOG_ERROR
            "failed retrieving file '%s' from %s : expected download size exceeded\n"
            w in
        curl_multi_finished_cleanup env id failed payload w
      else curl_multi_finished_cleanup env id failed payload w
  | CURLE_COULDNT_RESOLVE_HOST =>
      let payload := set_unlink_on_fail true payload in
      let w := set_errno ALPM_ERR_SERVER_BAD_URL w in
      let w :=
        _alpm_log ALPM_LOG_ERROR
          "failed retrieving file '%s' from %s : %s\n" w in
      retry_or_cleanup env id payload w
  | _ =>
      (* delete zero length downloads *)
      let payload :=
        if size_is_zero (localf payload) w
        then set_unlink_on_fail true payload else payload in
      let w :=
        if negb (errors_ok payload) then
          _alpm_log ALPM_LOG_ERROR
            "failed retrieving file '%s' from %s : %s\n"
            (set_errno ALPM_ERR_LIBCURL w)
        else
          _alpm_log ALPM_LOG_DEBUG
            "failed retrieving file '%s' from %s : %s\n" w in
      retry_or_cleanup env id payload w
  end.

(** The [cleanup:] label of [curl_multi_add_payload]. *)
Definition curl_multi_add_cleanup (ret : Z) (payload : dload_payload)
    (w : world) : Z * dload_payload * world :=
  let payload := set_fileurl None payload in
  let payload := set_tempfile_name None payload in
  let payload := set_destfile_name None payload in
  let payload := set_content_disp_name None payload in
  (* curl_easy_cleanup *)
  (ret, payload, w).

(** From the entry of [curl_multi_add_payload] to the choice of the file
    names: the result of the function when it ends there ([inl]), or the
    payload and the world it goes on with ([inr]). *)
Definition curl_multi_add_names (env : sys_env) (localpath : string)
    (payload : dload_payload) (w : world)
  : (Z * dload_payload * world) + (dload_payload * world) :=
  match servers payload with
  | [] => inl (-1, payload, set_errno ALPM_ERR_SERVER_NONE w)
  | server :: _ =>
      (* curl_easy_init *)
      let payload := set_curl (Some []) payload in
      let url := server +:+ "/" +:+ default "" (filepath payload) in
      let payload := set_fileurl (Some url) payload in
      let payload := set_tempfile_openmode (Some "wb") payload in
      let payload :=
        match remote_name payload with
        | Some _ => payload
        | None => set_remote_name (Some (get_filename url)) payload
        end in
      match curl_gethost url HOSTNAME_SIZE with
      | None =>
          let w := _alpm_log ALPM_LOG_ERROR "url '%s' is invalid\n" w in
          inl (curl_multi_add_cleanup (-1) payload
                 (set_errno ALPM_ERR_SERVER_BAD_URL w))
      | Some hostname =>
          if match remote_name payload with
             | Some n => 0 <? CString.strlen n
             | None => false
             end
          then
            let name := default "" (remote_name payload) in
            let payload :=
              set_destfile_name (Some (get_fullpath localpath name ""))
                payload in
            let payload :=
              set_tempfile_name (Some (get_fullpath localpath name ".part"))
                payload in
            inr (payload, w)
          else
            (* URL doesn't contain a filename, so make a tempfile. We can't
               support resuming this kind of download; partial transfers
               will be destroyed *)
            let payload := set_unlink_on_fail true payload in
            let '(f, payload, w) := create_tempfile env localpath payload w in
            let payload := set_localf f payload in
            match f with
            | Some _ => inr (payload, w)
            | None => inl (curl_multi_add_cleanup (-1) payload w)
            end
      end
  end.

(** [curl_multi_add_payload] for the payload at position [id]:
    0 if a new download transaction has been successfully started, -1 if an
    error happened while starting a new download. *)
Definition curl_multi_add_payload (h : alpm_handle) (env : sys_env)
    (id : nat) (localpath : string) (payload : dload_payload) (w : world)
  : Z * dload_payload * world :=
  match curl_multi_add_names env localpath payload w with
  | inl result => result
  | inr (payload, w) =>
      let '(payload, w) :=
        curl_set_handle_opts h (env_useragent env) payload w in
      if (max_size payload =? initial_size payload)
         && negb (max_size payload =? 0)
      then
        (* .part file is complete *)
        curl_multi_add_cleanup 0 payload w
      else
        let opened :=
          match localf payload with
          | Some f => Some (f, w_fs w)
          | None =>
              Fs.fopen (env_fopen_ok env) (env_now env)
                (tempfile_name payload) (tempfile_openmode payload) (w_fs w)
          end in
        match opened with
        | None =>
            let w :=
              _alpm_log ALPM_LOG_ERROR "could not open file %s: %s\n" w in
            curl_multi_add_cleanup (-1) payload
              (set_errno ALPM_ERR_RETRIEVE w)
        | Some (f, fs) =>
            let payload := set_localf (Some f) payload in
            let w := set_w_fs fs w in
            let w :=
              _alpm_log ALPM_LOG_DEBUG
                "%s: opened tempfile for download: %s (%s)\n" w in
            let payload :=
              curl_easy_setopt (CURLOPT_WRITEDATA (Some (f_path f)))
                payload in
            (0, payload, curl_multi_add_handle id w)
        end
  end.

(** A message of [curl_multi_info_read]. *)
Record CURLMsg : Type := mk_msg {
  (** [msg->msg == CURLMSG_DONE] *)
  msg_done : bool;
  easy_handle : nat;
  msg_result : CURLcode;
  (** what [curl_easy_getinfo] reports on that handle *)
  msg_info : transfer_info
}.

(** What the world answers during one turn of the loop of
    [curl_multi_download_internal]: the system's answers while the driver
    works on each payload, the callbacks libcurl makes on the transfers
    under way during [curl_multi_perform], what that call returns, and the
    messages it leaves. *)
Record multi_round : Type := mk_round {
  round_env : nat -> sys_env;
  round_callbacks : list (nat * curl_callback);
  round_mc_ok : bool;
  round_still_running : Z;
  round_msgs : list CURLMsg
}.

(** The variables of the loop: the payloads (the list handed to the
    driver, each payload living at its position), the position of the next
    payload to start ([payloads == NULL] is a position past the end),
    [still_running], [err], and the world. *)
Record multi_state : Type := mk_multi {
  ms_payloads : list dload_payload;
  ms_next : nat;
  ms_still_running : Z;
  ms_err : Z;
  ms_world : world
}.

(** The [for] loop that starts downloads while a slot is free. *)
Fixpoint start_downloads (fuel : nat) (h : alpm_handle) (r : multi_round)
    (localpath : string) (st : multi_state) : multi_state :=
  match fuel with
  | O => st
  | S fuel =>
      if ms_still_running st <? parallel_downloads h then
        match ms_payloads st !! ms_next st with
        | Some payload =>
            let id := ms_next st in
            let '(ret, payload, w) :=
              curl_multi_add_payload h (round_env r id) id localpath payload
                (ms_world st) in
            let payloads := <[id := payload]> (ms_payloads st) in
            let st :=
              if ret =? 0 then
                let w :=
                  if negb (signature payload)
                  then call_dlcb (remote_name payload)
                         (ALPM_DOWNLOAD_INIT (errors_ok payload)) w
                  else w in
                mk_multi payloads (S id) (ms_still_running st + 1)
                  (ms_err st) w
              else
                (* the payload failed to start, do not start any new
                   downloads just wait until active one complete. *)
                let w :=
                  _alpm_log ALPM_LOG_ERROR
                    "failed to setup a download payload for %s\n" w in
                mk_multi payloads (length payloads)
                  (ms_still_running st + 1) (-1) w in
            start_downloads fuel h r localpath st
        | None => st
        end
      else st
  end.

(** One callback made during [curl_multi_perform]. *)
Definition multi_callback (h : alpm_handle) (r : multi_round)
    (st : multi_state) (c : nat * curl_callback) : multi_state :=
  let '(id, cb) := c in
  match ms_payloads st !! id with
  | Some payload =>
      let '(_, f, payload, w) :=
        run_callback h (env_now (round_env r id)) cb (localf payload)
          payload (ms_world st) in
      mk_multi (<[id := set_localf f payload]> (ms_payloads st))
        (ms_next st) (ms_still_running st) (ms_err st) w
  | None => st
  end.

(** The body of the [while] loop that reads the messages. *)
Definition multi_message (r : multi_round) (localpath : string)
    (st : multi_state) (msg : CURLMsg) : multi_state :=
  if msg_done msg then
    let id := easy_handle msg in
    match ms_payloads st !! id with
    | Some payload =>
        let '(ret, payload, w) :=
          curl_multi_check_finished_download (round_env r id) id
            (msg_result msg) (msg_info msg) localpath payload (ms_world st) in
        let payloads := <[id := payload]> (ms_payloads st) in
        if ret =? -1 then
          (* if current payload failed to download then stop adding new
             payloads but wait for the current ones *)
          mk_multi payloads (length payloads) (ms_still_running st) (-1) w
        else if ret =? 2 then
          (* in case of a retry increase the counter of active requests to
             avoid exiting the loop early *)
          mk_multi payloads (ms_next st) (ms_still_running st + 1)
            (ms_err st) w
        else
          mk_multi payloads (ms_next st) (ms_still_running st) (ms_err st) w
    | None => st
    end
  else
    mk_multi (ms_payloads st) (ms_next st) (ms_still_running st) (ms_err st)
      (_alpm_log ALPM_LOG_ERROR "curl transfer error: %d\n" (ms_world st)).

(** One turn of the outer loop. *)
Definition multi_turn (h : alpm_handle) (localpath : string)
    (st : multi_state) (r : multi_round) : multi_state :=
  let st := start_downloads (length (ms_payloads st)) h r localpath st in
  (* curl_multi_perform *)
  let st := fold_left (multi_callback h r) (round_callbacks r) st in
  let st :=
    mk_multi (ms_payloads st) (ms_next st) (round_still_running r)
      (ms_err st) (ms_world st) in
  let st :=
    if round_mc_ok r then st
    else
      mk_multi (ms_payloads st) (length (ms_payloads st))
        (ms_still_running st) (-1)
        (_alpm_log ALPM_LOG_ERROR "curl returned error %d from transfer\n"
           (ms_world st)) in
  fold_left (multi_message r localpath) (round_msgs r) st.

Definition multi_busy (st : multi_state) : bool :=
  negb (ms_still_running st =? 0)
  || (ms_next st <? length (ms_payloads st))%nat.

(** The outer loop, for as many turns as [rounds] describes: the state it
    reaches, and whether the loop has come to its end there. *)
Fixpoint multi_loop (h : alpm_handle) (localpath : string)
    (rounds : list multi_round) (st : multi_state) : multi_state * bool :=
  if multi_busy st then
    match rounds with
    | [] => (st, false)
    | r :: rounds => multi_loop h localpath rounds (multi_turn h localpath st r)
    end
  else (st, true).

(** [curl_multi_download_internal]: [err], the payloads and the world when
    the loop ends within [rounds]. *)
Definition curl_multi_download_internal (h : alpm_handle)
    (rounds : list multi_round) (payloads : list dload_payload)
    (localpath : string) (w : world)
  : option (Z * list dload_payload * world) :=
  match multi_loop h localpath rounds (mk_multi payloads O 0 0 w) with
  | (st, true) =>
      Some (ms_err st, ms_payloads st,
            _alpm_log ALPM_LOG_DEBUG
              "curl_multi_download_internal return code is %d\n"
              (ms_world st))
  | (_, false) => None
  end.

(** ** Fetching a package by its URL *)

(** The answers that one call of [_alpm_download] gets, and what the
    caller finds afterwards in memory that the easy handle of the call
    owned: [d_freed s] is what a read of the freed block that held [s]
    gives.  Such a read is undefined in C; the model takes its mildest
    outcome, a read that gives some string, and lets the environment say
    which: [s] itself when nothing has reused the block, anything else
    when the allocator has. *)
Record download_answers : Type := mk_answers {
  d_env : sys_env;
  d_transfer : transfer;
  d_uninit : Z;
  d_freed : string -> string
}.

Section FetchPkgurl.

(** The two bits of the signature level that [alpm_fetch_pkgurl] tests
    (alpm.h), and the cache directory resolver (util.c):
    [_alpm_filecache_setup] gives the directory to download to,
    [_alpm_filecache_find] the path of a file name of the cache, or
    [NULL]. *)
Variables ALPM_SIG_PACKAGE ALPM_SIG_PACKAGE_OPTIONAL : Z.
Variable _alpm_filecache_setup : world -> string * world.
Variable _alpm_filecache_find : world -> option string -> option string.

Definition filecache_find_url (w : world) (url : string) : option string :=
  match CString.strrchr url CString.slash with
  | Some (String _ filebase) =>
      if String.eqb filebase "" then None
      else _alpm_filecache_find w (Some filebase)
  | _ => None
  end.

(** The payload of the package download. *)
Definition pkgurl_payload (url : string) : dload_payload :=
  {| tempfile_openmode := None; remote_name := None; tempfile_name := None;
     destfile_name := None; content_disp_name := None;
     fileurl := Some url; filepath := None; servers := []; respcode := 0;
     initial_size := 0; max_size := 0; prevprogress := 0; force := false;
     allow_resume := true; errors_ok := false; unlink_on_fail := false;
     trust_remote_name := true; signature := false; curl := None;
     error_buffer := ""; localf := None |}.

(** The payload of the signature download, built in the payload that
    [_alpm_dload_payload_reset] has zeroed. *)
Definition sig_payload (h : alpm_handle) (sig_url : string)
  : dload_payload :=
  {| tempfile_openmode := None; remote_name := None; tempfile_name := None;
     destfile_name := None; content_disp_name := None;
     fileurl := Some sig_url; filepath := None; servers := [];
     respcode := 0; initial_size := 0;
     (* set hard upper limit of 16KiB *)
     max_size := 16 * 1024;
     prevprogress := 0; force := true; allow_resume := false;
     errors_ok :=
       negb (Z.land (siglevel h) ALPM_SIG_PACKAGE_OPTIONAL =? 0);
     unlink_on_fail := false; trust_remote_name := true; signature := true;
     curl := None; error_buffer := ""; localf := None |}.

(** [alpm_fetch_pkgurl] on a handle and a URL that are not [NULL]: the
    path returned ([None] for [NULL]), the payloads it handed to
    [_alpm_download], in order, and the world. *)
Definition alpm_fetch_pkgurl (h : alpm_handle) (pkg sig : download_answers)
    (url : string) (w : world)
  : option string * list dload_payload * world :=
  (* find a valid cache dir to download to *)
  let '(cachedir, w) := _alpm_filecache_setup w in
  (* attempt to find the file in our pkgcache *)
  let filepath := filecache_find_url w url in
  let '(ret, final_file, final_pkg_url, downloads, w) :=
    match filepath with
    | None =>
        (* download the file *)
        let payload := pkgurl_payload url in
        let '(ret, final_file, final_pkg_url, _, w) :=
          _alpm_download h (d_env pkg) (d_transfer pkg) (d_uninit pkg)
            true true cachedir payload w in
        (ret, final_file, final_pkg_url, [payload], w)
    | Some _ => (0, None, None, [], w)
    end in
  if match filepath with None => ret =? -1 | Some _ => false end then
    (None, downloads,
     _alpm_log ALPM_LOG_WARNING "failed to download %s\n" w)
  else
    let w :=
      match filepath with
      | None => _alpm_log ALPM_LOG_DEBUG "successfully downloaded %s\n" w
      | Some _ => w
      end in
    (* attempt to download the signature *)
    let '(downloads, w) :=
      match final_pkg_url with
      | Some ptr =>
          if (ret =? 0)
             && negb (Z.land (siglevel h) ALPM_SIG_PACKAGE =? 0)
          then
            (* [strlen] and [snprintf] read [final_pkg_url], whose memory
               [curl_easy_cleanup] has freed *)
            let pkg_url := d_freed pkg (held ptr) in
            let sig_url := pkg_url +:+ ".sig" in
            match filecache_find_url w sig_url with
            | None =>
                let payload := sig_payload h sig_url in
                let '(ret, _, _, payload', w) :=
                  _alpm_download h (d_env sig) (d_transfer sig)
                    (d_uninit sig) true false cachedir payload w in
                let w :=
                  if (ret =? -1) && negb (errors_ok payload') then
                    (* Warn now, but don't return NULL. We will fail later
                       during package load time. *)
                    _alpm_log ALPM_LOG_WARNING "failed to download %s\n" w
                  else if ret =? 0 then
                    _alpm_log ALPM_LOG_DEBUG
                      "successfully downloaded %s\n" w
                  else w in
                (downloads ++ [payload], w)
            | Some _ => (downloads, w)
            end
          else (downloads, w)
      | None => (downloads, w)
      end in
    (* we should be able to find the file the second time around *)
    let filepath :=
      match filepath with
      | None => _alpm_filecache_find w final_file
      | Some _ => filepath
      end in
    (filepath, downloads, w).

End FetchPkgurl.


(** ** Downloading many payloads *)

(** The loop of [_alpm_multi_download] over the mirrors of one payload
    when the front end has its own downloader: whether a mirror answered
    something else than -1, and the files on disk afterwards. *)
Fixpoint fetchcb_servers
    (cb : string -> string -> bool -> gmap string stat ->
          Z * gmap string stat)
    (localpath filepath : string) (force : bool) (servers : list string)
    (fs : gmap string stat) : bool * gmap string stat :=
  match servers with
  | [] => (false, fs)
  | server :: servers =>
      let fileurl := server +:+ "/" +:+ filepath in
      let '(ret, fs) := cb fileurl localpath force fs in
      if negb (ret =? -1) then (true, fs)
      else fetchcb_servers cb localpath filepath force servers fs
  end.

(** The loop of [_alpm_multi_download] over the payloads, in the same
    case. *)
Fixpoint fetchcb_payloads
    (cb : string -> string -> bool -> gmap string stat ->
          Z * gmap string stat)
    (localpath : string) (payloads : list dload_payload) (w : world)
  : Z * world :=
  match payloads with
  | [] => (0, w)
  | payload :: payloads =>
      let '(success, fs) :=
        fetchcb_servers cb localpath (default "" (filepath payload))
          (force payload) (servers payload) (w_fs w) in
      let w := set_w_fs fs w in
      if negb success && negb (errors_ok payload)
      then (-1, set_errno ALPM_ERR_EXTERNAL_DOWNLOAD w)
      else fetchcb_payloads cb localpath payloads w
  end.

(** [_alpm_multi_download], built with libcurl: the value returned, the
    payloads and the world, when the call comes to its end. *)
Definition _alpm_multi_download (h : alpm_handle) (rounds : list multi_round)
    (payloads : list dload_payload) (localpath : string) (w : world)
  : option (Z * list dload_payload * world) :=
  match fetchcb h with
  | None => curl_multi_download_internal h rounds payloads localpath w
  | Some cb =>
      let '(ret, w) := fetchcb_payloads cb localpath payloads w in
      Some (ret, payloads, w)
  end.

(** * Properties of the engine *)

(** ** Tactics and concrete values *)

(** Case analysis on the integer tests of a goal. *)
Ltac z_cases :=
  repeat match goal with
    | |- context [?a <=? ?b] => destruct (Z.leb_spec a b)
    | |- context [?a <? ?b] => destruct (Z.ltb_spec a b)
    | |- context [?a =? ?b] => destruct (Z.eqb_spec a b)
    end.

(** Projections of updated records, and the tests on them. *)
Ltac record_simpl :=
  lazy beta iota zeta delta
    [set_tempfile_openmode set_remote_name set_tempfile_name
     set_destfile_name set_content_disp_name set_fileurl set_filepath
     set_servers set_respcode set_initial_size set_prevprogress
     set_unlink_on_fail set_curl set_error_buffer set_localf
     set_w_fs set_dload_interrupted set_pm_errno
     set_dlcb_calls set_alpm_log set_curlm set_sigint_raised
     set_fs set_errno _alpm_log call_dlcb curl_easy_setopt
     curl_multi_add_handle curl_multi_remove_handle
     fst snd negb andb orb] in *;
  cbn [app] in *.

(** A world where nothing has happened yet, and a handle whose front end
    registered a download callback. *)
Definition world_zero : world :=
  {| w_fs := ∅; dload_interrupted := 0; pm_errno := ALPM_ERR_OK;
     dlcb_calls := []; alpm_log := []; curlm := []; sigint_raised := false |}.

Definition handle_dlcb : alpm_handle :=
  {| dlcb := true; fetchcb := None; siglevel := 0;
     disable_dl_timeout := false; parallel_downloads := 5 |}.

(** A payload limited to 1024 bytes. *)
Definition payload_1k : dload_payload :=
  {| tempfile_openmode := Some "wb"; remote_name := Some "core.db";
     tempfile_name := Some "/cache/core.db.part";
     destfile_name := Some "/cache/core.db"; content_disp_name := None;
     fileurl := Some "http://m/core.db"; filepath := Some "core.db";
     servers := ["http://m"]; respcode := 200; initial_size := 0;
     max_size := 1024; prevprogress := 0; force := false;
     allow_resume := false; errors_ok := false; unlink_on_fail := false;
     trust_remote_name := false; signature := false; curl := Some [];
     error_buffer := ""; localf := None |}.

(** ** The progress sink and the size limit *)

(** An unknown total ([dltotal = 0], as for a chunked response) makes the
    sink return before it looks at the limit. *)
Lemma progress_sink_ignores_limit_without_total :
  ~ (forall h p w dltotal dlnow,
        signature p = false -> respcode p < 300 ->
        dload_interrupted w = 0 ->
        0 < max_size p -> max_size p < initial_size p + dlnow ->
        exists p' w',
          dload_progress_cb h dltotal dlnow p w = (1, p', w')
          /\ dload_interrupted w' = ABORT_OVER_MAXFILESIZE).
Proof.
  intros claim.
  destruct (claim handle_dlcb payload_1k world_zero 0 2048)
    as (p' & w' & Hcall & _); try (cbn; lia); try reflexivity.
  vm_compute in Hcall. discriminate Hcall.
Qed.

(** C1, as amended.  On a payload that is not a signature, with a response
    code below 300, the interrupt flag clear and a size limit set:
    - when the counters are plausible ([0 <= dlnow <= dltotal],
      [0 < dltotal]) and [initial_size + dlnow] exceeds [max_size], the sink
      sets the flag to [ABORT_OVER_MAXFILESIZE] and returns 1;
    - when the counters are bogus the sink returns 0 and changes nothing,
      whatever the sizes are;
    - so a plausible report that the sink lets pass is within the limit. *)
Theorem progress_sink_max_size :
  forall h p w dltotal dlnow,
    signature p = false -> respcode p < 300 ->
    dload_interrupted w = 0 -> 0 < max_size p ->
    (0 <= dlnow <= dltotal -> 0 < dltotal ->
     max_size p < initial_size p + dlnow ->
     dload_progress_cb h dltotal dlnow p w
     = (1, p, set_dload_interrupted ABORT_OVER_MAXFILESIZE w))
    /\ (dlnow < 0 \/ dltotal <= 0 \/ dltotal < dlnow ->
        dload_progress_cb h dltotal dlnow p w = (0, p, w))
    /\ (0 <= dlnow <= dltotal -> 0 < dltotal ->
        forall p' w',
          dload_progress_cb h dltotal dlnow p w = (0, p', w') ->
          initial_size p + dlnow <= max_size p).
Proof.
  intros h p w dltotal dlnow Hsig Hcode Hint Hmax.
  unfold dload_progress_cb. rewrite Hsig, Hint.
  replace (300 <=? respcode p) with false by (symmetry; apply Z.leb_gt; lia).
  cbn [negb Z.eqb].
  repeat split.
  - intros Hnow Htot Hover.
    replace (dlnow <? 0) with false by (symmetry; apply Z.ltb_ge; lia).
    replace (dltotal <=? 0) with false by (symmetry; apply Z.leb_gt; lia).
    replace (dltotal <? dlnow) with false by (symmetry; apply Z.ltb_ge; lia).
    replace (max_size p =? 0) with false by (symmetry; apply Z.eqb_neq; lia).
    replace (max_size p <? initial_size p + dlnow) with true
      by (symmetry; apply Z.ltb_lt; lia).
    reflexivity.
  - intros Hbogus.
    destruct (Z.ltb_spec dlnow 0); [reflexivity|].
    destruct (Z.leb_spec dltotal 0); [reflexivity|].
    destruct (Z.ltb_spec dltotal dlnow); [reflexivity|]. lia.
  - intros Hnow Htot p' w'.
    replace (dlnow <? 0) with false by (symmetry; apply Z.ltb_ge; lia).
    replace (dltotal <=? 0) with false by (symmetry; apply Z.leb_gt; lia).
    replace (dltotal <? dlnow) with false by (symmetry; apply Z.ltb_ge; lia).
    replace (max_size p =? 0) with false by (symmetry; apply Z.eqb_neq; lia).
    cbn [negb orb andb].
    destruct (Z.ltb_spec (max_size p) (initial_size p + dlnow));
      [discriminate | lia].
Qed.

(** The amended C1 on a payload limited to 1024 bytes, when libcurl reports
    2048 bytes of 4096. *)
Lemma progress_sink_max_size_witness :
  dload_progress_cb handle_dlcb 4096 2048 payload_1k world_zero
  = (1, payload_1k, set_dload_interrupted ABORT_OVER_MAXFILESIZE world_zero).
Proof.
  apply (progress_sink_max_size handle_dlcb payload_1k world_zero 4096 2048);
    cbn; try reflexivity; lia.
Defined.

(** ** Resetting a payload for a retry *)

(** C10.  [_alpm_dload_payload_reset_for_retry] clears [fileurl] and
    [filepath], adds [prevprogress] to [initial_size], zeroes
    [prevprogress] and clears [unlink_on_fail]; every other field of the
    payload keeps its value. *)
Theorem reset_for_retry_frame :
  forall p,
    let p' := _alpm_dload_payload_reset_for_retry p in
    fileurl p' = None /\ filepath p' = None
    /\ initial_size p' = initial_size p + prevprogress p
    /\ prevprogress p' = 0
    /\ unlink_on_fail p' = false
    /\ tempfile_openmode p' = tempfile_openmode p
    /\ remote_name p' = remote_name p
    /\ tempfile_name p' = tempfile_name p
    /\ destfile_name p' = destfile_name p
    /\ content_disp_name p' = content_disp_name p
    /\ servers p' = servers p
    /\ respcode p' = respcode p
    /\ max_size p' = max_size p
    /\ force p' = force p
    /\ allow_resume p' = allow_resume p
    /\ errors_ok p' = errors_ok p
    /\ trust_remote_name p' = trust_remote_name p
    /\ signature p' = signature p
    /\ curl p' = curl p
    /\ error_buffer p' = error_buffer p
    /\ localf p' = localf p.
Proof. intros p. cbv zeta. repeat split. Qed.

(** ** The resume and freshness policy *)

(** The option [o] is set on the easy handle of the payload. *)
Definition opt_set (o : curlopt) (p : dload_payload) : Prop :=
  exists opts, curl p = Some opts /\ In o opts.

Definition is_timecondition (o : curlopt) : bool :=
  match o with CURLOPT_TIMECONDITION_IFMODSINCE => true | _ => false end.

Definition is_resume_from (o : curlopt) : bool :=
  match o with CURLOPT_RESUME_FROM_LARGE _ => true | _ => false end.

Lemma no_timecondition :
  forall p opts,
    curl p = Some opts ->
    forallb (fun o => negb (is_timecondition o)) opts = true ->
    ~ opt_set CURLOPT_TIMECONDITION_IFMODSINCE p.
Proof.
  intros p opts Hcurl Hall (opts' & Hcurl' & Hin).
  rewrite Hcurl in Hcurl'. injection Hcurl' as <-.
  rewrite forallb_forall in Hall. apply Hall in Hin. discriminate Hin.
Qed.

Lemma no_resume_from :
  forall p opts,
    curl p = Some opts ->
    forallb (fun o => negb (is_resume_from o)) opts = true ->
    forall n, ~ opt_set (CURLOPT_RESUME_FROM_LARGE n) p.
Proof.
  intros p opts Hcurl Hall n (opts' & Hcurl' & Hin).
  rewrite Hcurl in Hcurl'. injection Hcurl' as <-.
  rewrite forallb_forall in Hall. apply Hall in Hin. discriminate Hin.
Qed.

(** The goal is about the options of a handle whose list is known. *)
Ltac opts_tac :=
  match goal with
  | |- opt_set _ _ =>
      eexists; split; [reflexivity |];
      repeat first [left; reflexivity | right]
  | |- ~ opt_set CURLOPT_TIMECONDITION_IFMODSINCE _ =>
      eapply no_timecondition; reflexivity
  | |- forall n, ~ opt_set (CURLOPT_RESUME_FROM_LARGE n) _ =>
      eapply no_resume_from; reflexivity
  end.

(** C6.  For a payload that enters the configurator with the open mode
    ["wb"] (both drivers set it just before the call):
    (1) when [allow_resume] and [force] are off and [destfile_name] exists
        on disk, the configurator asks for a conditional GET on the mtime of
        that file and sets no resume offset; the open mode and
        [initial_size] stay as they are;
    (2) otherwise, when [tempfile_name] exists on disk and [allow_resume]
        is on, it sets the resume offset to the size of that file, the open
        mode to ["ab"] and [initial_size] to that size, and asks for no
        conditional GET;
    (3) otherwise the download is a fresh one: no conditional GET, no
        resume offset, open mode ["wb"], [initial_size] unchanged. *)
Theorem resume_freshness_policy :
  forall h useragent p w,
    tempfile_openmode p = Some "wb" ->
    let p' := fst (curl_set_handle_opts h useragent p w) in
    (forall st,
        allow_resume p = false -> force p = false ->
        Fs.stat_of (w_fs w) (destfile_name p) = Some st ->
        opt_set CURLOPT_TIMECONDITION_IFMODSINCE p'
        /\ opt_set (CURLOPT_TIMEVALUE (st_mtime st)) p'
        /\ (forall n, ~ opt_set (CURLOPT_RESUME_FROM_LARGE n) p')
        /\ tempfile_openmode p' = Some "wb"
        /\ initial_size p' = initial_size p)
    /\ (forall st,
        allow_resume p = true ->
        Fs.stat_of (w_fs w) (tempfile_name p) = Some st ->
        opt_set (CURLOPT_RESUME_FROM_LARGE (st_size st)) p'
        /\ ~ opt_set CURLOPT_TIMECONDITION_IFMODSINCE p'
        /\ tempfile_openmode p' = Some "ab"
        /\ initial_size p' = st_size st)
    /\ ((allow_resume p = false
         /\ (force p = true
             \/ Fs.stat_of (w_fs w) (destfile_name p) = None))
        \/ (allow_resume p = true
            /\ Fs.stat_of (w_fs w) (tempfile_name p) = None) ->
        ~ opt_set CURLOPT_TIMECONDITION_IFMODSINCE p'
        /\ (forall n, ~ opt_set (CURLOPT_RESUME_FROM_LARGE n) p')
        /\ tempfile_openmode p' = Some "wb"
        /\ initial_size p' = initial_size p).
Proof.
  intros h useragent p w Hmode p'. subst p'.
  split; [|split].
  - intros st Hresume Hforce Hstat.
    unfold curl_set_handle_opts. cbn [w_fs _alpm_log set_alpm_log].
    rewrite Hresume, Hforce.
    destruct (disable_dl_timeout h), (max_size p =? 0), useragent;
      cbn [negb andb w_fs _alpm_log set_alpm_log]; rewrite Hstat; cbn [fst app].
    all: repeat match goal with |- _ /\ _ => split end.
    all: first [assumption | reflexivity | opts_tac].
  - intros st Hresume Hstat.
    unfold curl_set_handle_opts. cbn [w_fs _alpm_log set_alpm_log].
    rewrite Hresume.
    destruct (disable_dl_timeout h), (max_size p =? 0), useragent;
      cbn [negb andb w_fs _alpm_log set_alpm_log]; rewrite Hstat; cbn [fst app].
    all: repeat match goal with |- _ /\ _ => split end.
    all: first [assumption | reflexivity | opts_tac].
  - intros Hfresh.
    unfold curl_set_handle_opts. cbn [w_fs _alpm_log set_alpm_log].
    assert (Hnone :
        (if negb (allow_resume p) && negb (force p)
         then Fs.stat_of (w_fs w) (destfile_name p) else None) = None).
    { destruct Hfresh as [[-> [-> | ->]] | [-> _]];
        try reflexivity; destruct (force p); reflexivity. }
    assert (Htemp :
        allow_resume p = false
        \/ Fs.stat_of (w_fs w) (tempfile_name p) = None) by tauto.
    destruct (disable_dl_timeout h), (max_size p =? 0), useragent;
      cbn [negb andb w_fs _alpm_log set_alpm_log]; rewrite Hnone;
      (destruct Htemp as [-> | ->];
       [destruct (Fs.stat_of (w_fs w) (tempfile_name p)) |]); cbn [fst app].
    all: repeat match goal with |- _ /\ _ => split end.
    all: first [assumption | reflexivity | opts_tac].
Qed.

(** C6 on a payload that may resume, when a 1024-byte [.part] file waits in
    the cache. *)
Definition payload_resume : dload_payload :=
  {| tempfile_openmode := Some "wb"; remote_name := Some "pkg.tar.zst";
     tempfile_name := Some "/cache/pkg.tar.zst.part";
     destfile_name := Some "/cache/pkg.tar.zst"; content_disp_name := None;
     fileurl := Some "http://m/pkg.tar.zst"; filepath := Some "pkg.tar.zst";
     servers := ["http://m"]; respcode := 0; initial_size := 0;
     max_size := 0; prevprogress := 0; force := false;
     allow_resume := true; errors_ok := false; unlink_on_fail := false;
     trust_remote_name := false; signature := false; curl := Some [];
     error_buffer := ""; localf := None |}.

Definition world_part (size : Z) : world :=
  set_w_fs {[ "/cache/pkg.tar.zst.part" := mk_stat size 7 ]} world_zero.

Lemma resume_freshness_policy_witness :
  let p' :=
    fst (curl_set_handle_opts handle_dlcb None payload_resume
           (world_part 1024)) in
  opt_set (CURLOPT_RESUME_FROM_LARGE 1024) p'
  /\ ~ opt_set CURLOPT_TIMECONDITION_IFMODSINCE p'
  /\ tempfile_openmode p' = Some "ab"
  /\ initial_size p' = 1024.
Proof.
  apply (proj1 (proj2 (resume_freshness_policy handle_dlcb None
                         payload_resume (world_part 1024) eq_refl))
           (mk_stat 1024 7));
    reflexivity.
Defined.

(** ** Signature payloads and optional payloads *)

(** A system that refuses nothing. *)
Definition env_ok : sys_env :=
  {| env_useragent := None; env_now := 100; env_mkstemp := Some "abcdef";
     env_fchmod_ok := true; env_fdopen_ok := true; env_fopen_ok := true;
     env_rename_ok := true; env_ftruncate_ok := true; env_malloc_ok := true |}.

(** The payload [alpm_fetch_pkgurl] builds for the signature of
    [http://m/foo.pkg], and a transfer that brings its 438 bytes. *)
Definition payload_sig : dload_payload :=
  {| tempfile_openmode := None; remote_name := None; tempfile_name := None;
     destfile_name := None; content_disp_name := None;
     fileurl := Some "http://m/foo.pkg.sig"; filepath := None; servers := [];
     respcode := 0; initial_size := 0; max_size := 16384; prevprogress := 0;
     force := true; allow_resume := false; errors_ok := false;
     unlink_on_fail := false; trust_remote_name := true; signature := true;
     curl := None; error_buffer := ""; localf := None |}.

Definition transfer_sig : transfer :=
  {| t_steps :=
       [libcurl (curl_header "HTTP/1.1 200 OK" 200);
        libcurl (curl_write 438);
        libcurl (curl_progress 438 438)];
     t_result := CURLE_OK;
     t_info :=
       {| CURLINFO_FILETIME := 77; CURLINFO_CONTENT_LENGTH_DOWNLOAD := 438;
          CURLINFO_SIZE_DOWNLOAD := 438; CURLINFO_CONDITION_UNMET := 0;
          CURLINFO_EFFECTIVE_URL := "http://m/foo.pkg.sig" |} |}.

(** C3, where the code departs from it.  The single-transfer driver hands
    the front end a [DOWNLOAD_COMPLETED] event (and a [DOWNLOAD_INIT] event)
    for a signature payload: it calls the download callback without looking
    at [signature].  The progress sink stays silent during the same
    transfer. *)
Theorem single_driver_reports_signature_completed :
  signature payload_sig = true
  /\ let '(ret, _, _, _, w) :=
       curl_download_internal handle_dlcb env_ok transfer_sig 0 true false
         "/cache/" payload_sig world_zero in
     ret = 0
     /\ dlcb_calls w
        = [(Some "foo.pkg.sig", ALPM_DOWNLOAD_INIT false);
           (Some "foo.pkg.sig", ALPM_DOWNLOAD_COMPLETED 438 0)].
Proof. vm_compute. repeat split. Qed.

(** An optional payload with one mirror, whose host cannot be resolved. *)
Definition payload_optional : dload_payload :=
  {| tempfile_openmode := Some "wb"; remote_name := Some "core.db.sig";
     tempfile_name := Some "/cache/core.db.sig.part";
     destfile_name := Some "/cache/core.db.sig"; content_disp_name := None;
     fileurl := Some "http://nowhere/core.db.sig";
     filepath := Some "core.db.sig"; servers := ["http://nowhere"];
     respcode := 0; initial_size := 0; max_size := 0; prevprogress := 0;
     force := false; allow_resume := false; errors_ok := true;
     unlink_on_fail := false; trust_remote_name := false; signature := true;
     curl := Some []; error_buffer := "";
     localf := Some (mk_FILE "/cache/core.db.sig.part" 0 false) |}.

Definition info_none : transfer_info :=
  {| CURLINFO_FILETIME := -1; CURLINFO_CONTENT_LENGTH_DOWNLOAD := -1;
     CURLINFO_SIZE_DOWNLOAD := 0; CURLINFO_CONDITION_UNMET := 0;
     CURLINFO_EFFECTIVE_URL := "" |}.

(** C4, where the code departs from it.  When the host of the last mirror
    of an optional payload cannot be resolved, the completion check returns
    -2, as the claim says, but it has recorded [ALPM_ERR_SERVER_BAD_URL] on
    the handle. *)
Theorem optional_payload_sets_errno_on_resolve_failure :
  errors_ok payload_optional = true
  /\ pm_errno world_zero = ALPM_ERR_OK
  /\ let '(ret, _, w) :=
       curl_multi_check_finished_download env_ok 0
         CURLE_COULDNT_RESOLVE_HOST info_none "/cache/" payload_optional
         world_zero in
     ret = -2 /\ pm_errno w = ALPM_ERR_SERVER_BAD_URL.
Proof. vm_compute. repeat split. Qed.

(** ** Mirror failover *)

(** The errors after which the completion check tries the next mirror: a
    response code of 400 or more, a host that does not resolve, or any
    other transport error; an abort by the progress sink is not one. *)
Definition failover_eligible (curlerr : CURLcode) (p : dload_payload) : Prop :=
  match curlerr with
  | CURLE_OK => 400 <= respcode p
  | CURLE_ABORTED_BY_CALLBACK => False
  | _ => True
  end.

Lemma retry_next_server_advances :
  forall env id q w s0 s1 rest f,
    servers q = s0 :: s1 :: rest ->
    env_malloc_ok env = true -> env_ftruncate_ok env = true ->
    localf q = Some f ->
    exists q' w',
      curl_multi_retry_next_server env id q w = (0, q', w')
      /\ servers q' = s1 :: rest
      /\ fileurl q' = Some (s1 +:+ "/" +:+ default "" (filepath q))
      /\ unlink_on_fail q' = unlink_on_fail q
      /\ In id (curlm w')
      /\ (if unlink_on_fail q
          then localf q' = Some (Fs.rewind f)
               /\ w_fs w' = Fs.ftruncate0 f (w_fs w)
          else localf q' = Some f /\ w_fs w' = w_fs w).
Proof.
  intros env id q w s0 s1 rest f Hservers Hmalloc Htrunc Hlocalf.
  unfold curl_multi_retry_next_server.
  cbn [servers set_servers]. rewrite Hservers. cbn [tail].
  rewrite Hmalloc. cbn [negb].
  cbn [unlink_on_fail set_fileurl localf filepath set_servers].
  rewrite Hlocalf, Htrunc.
  destruct (unlink_on_fail q) eqn:Hunlink.
  - eexists; eexists; split; [reflexivity |].
    cbn; rewrite ?Hunlink; auto 10.
  - eexists; eexists; split; [reflexivity |].
    cbn; rewrite ?Hunlink; auto 10.
Qed.

(** Unfolding of the record updates, for payloads a few updates deep. *)
Ltac record_cbn :=
  cbn [set_tempfile_openmode set_remote_name set_tempfile_name
       set_destfile_name set_content_disp_name set_fileurl set_filepath
       set_servers set_respcode set_initial_size set_prevprogress
       set_unlink_on_fail set_curl set_error_buffer set_localf
       set_w_fs set_dload_interrupted set_pm_errno
       set_dlcb_calls set_alpm_log set_curlm set_sigint_raised
       set_fs set_errno _alpm_log call_dlcb curl_easy_setopt
       curl_multi_add_handle curl_multi_remove_handle
       tempfile_openmode remote_name tempfile_name destfile_name
       content_disp_name fileurl filepath servers respcode initial_size
       max_size prevprogress force allow_resume errors_ok unlink_on_fail
       trust_remote_name signature curl error_buffer localf
       w_fs dload_interrupted pm_errno dlcb_calls alpm_log curlm
       sigint_raised fl_ret fl_remote_time fl_bytes_dl
       l_ret l_localf l_remote_time l_bytes_dl l_final_url
       fst snd Z.eqb Pos.eqb] in *.

(** Case analysis on the first test the goal is stuck on. *)
Ltac break_step :=
  match goal with
  | |- context [match ?x with _ => _ end] =>
      lazymatch x with
      | context [match _ with _ => _ end] => fail
      | _ => first [is_var x; destruct x | destruct x eqn:?]
      end
  end.

Ltac break_all :=
  cbv beta iota delta [andb orb negb];
  repeat (break_step; record_cbn; cbv beta iota delta [andb orb negb]).

Lemma trust_remote_name_block_servers :
  forall localpath url p,
    servers (trust_remote_name_block localpath url p) = servers p.
Proof.
  intros localpath url p. unfold trust_remote_name_block.
  break_all; reflexivity.
Qed.

Lemma finished_cleanup_servers :
  forall env id l p w,
    servers (snd (fst (curl_multi_finished_cleanup env id l p w)))
    = servers p.
Proof.
  intros env id l p w. unfold curl_multi_finished_cleanup.
  break_all; reflexivity.
Qed.

(** What the [cleanup:] label of the completion check makes of [ret]. *)
Lemma finished_cleanup_ret :
  forall env id l p w,
    let ret := fst (fst (curl_multi_finished_cleanup env id l p w)) in
    (fl_ret l = -1 -> ret = if errors_ok p then -2 else -1)
    /\ (fl_ret l = 1 -> ret = 1)
    /\ (fl_ret l = 0 -> ret = 0 \/ ret = if errors_ok p then -2 else -1).
Proof.
  intros env id l p w. unfold curl_multi_finished_cleanup.
  destruct l as [r rt bd]. record_cbn.
  repeat split; intros ->; cbn [Z.eqb]; break_all; cbn in *;
    auto; congruence.
Qed.

Lemma retry_next_server_servers :
  forall env id q w,
    let '(r, q', _) := curl_multi_retry_next_server env id q w in
    servers q' = tail (servers q)
    /\ (r = 0 \/ r = -1)
    /\ (r = 0 -> servers q' <> []).
Proof.
  intros env id q w. unfold curl_multi_retry_next_server. record_cbn.
  destruct (tail (servers q)) eqn:Htail; record_cbn.
  - auto.
  - break_all; repeat split; auto; try discriminate; congruence.
Qed.

(** After a failure the completion check leaves the cursor on the next
    mirror; it answers 2 only when there is one. *)
Lemma retry_or_cleanup_servers :
  forall env id q w,
    let '(ret, q', _) := retry_or_cleanup env id q w in
    servers q' = tail (servers q)
    /\ (ret = 2 /\ servers q' <> [] \/ ret = -1 \/ ret = -2).
Proof.
  intros env id q w. unfold retry_or_cleanup.
  pose proof (retry_next_server_servers env id q w) as Hretry.
  destruct (curl_multi_retry_next_server env id q w) as [[r q1] w1].
  destruct Hretry as (Hservers & Hr & Hnonempty).
  destruct Hr as [-> | ->]; cbn [Z.eqb].
  - auto.
  - pose proof (finished_cleanup_servers env id (mk_finished (-1) (-1) 0)
                  q1 w1) as Hclean.
    destruct (finished_cleanup_ret env id (mk_finished (-1) (-1) 0) q1 w1)
      as (Hret & _ & _).
    specialize (Hret eq_refl).
    destruct (curl_multi_finished_cleanup env id (mk_finished (-1) (-1) 0)
                q1 w1) as [[ret q2] w2].
    cbn [fst snd] in *. split; [congruence |].
    destruct (errors_ok q1); auto.
Qed.

Lemma retry_or_cleanup_retries :
  forall env id q w s0 s1 rest f,
    servers q = s0 :: s1 :: rest ->
    env_malloc_ok env = true -> env_ftruncate_ok env = true ->
    localf q = Some f ->
    exists q' w',
      retry_or_cleanup env id q w = (2, q', w')
      /\ servers q' = s1 :: rest
      /\ fileurl q' = Some (s1 +:+ "/" +:+ default "" (filepath q))
      /\ unlink_on_fail q' = unlink_on_fail q
      /\ In id (curlm w')
      /\ (if unlink_on_fail q
          then localf q' = Some (Fs.rewind f)
               /\ w_fs w' = Fs.ftruncate0 f (w_fs w)
          else localf q' = Some f /\ w_fs w' = w_fs w).
Proof.
  intros env id q w s0 s1 rest f Hservers Hmalloc Htrunc Hlocalf.
  destruct (retry_next_server_advances env id q w s0 s1 rest f
              Hservers Hmalloc Htrunc Hlocalf) as (q' & w' & Heq & Hrest).
  exists q', w'. unfold retry_or_cleanup. rewrite Heq. auto.
Qed.

(** Every completion check leaves the cursor where it was or on the next
    mirror, and it answers 2 only after it has moved to a mirror that
    exists. *)
Lemma check_finished_servers :
  forall env id curlerr info localpath p w,
    let '(ret, p', _) :=
      curl_multi_check_finished_download env id curlerr info localpath p w in
    (servers p' = servers p /\ ret <> 2)
    \/ (servers p' = tail (servers p) /\ (ret = 2 -> servers p' <> [])).
Proof.
  intros env id curlerr info localpath p w.
  unfold curl_multi_check_finished_download.
  assert (Hclean : forall l q w0,
             servers q = servers p ->
             fl_ret l = -1 \/ fl_ret l = 0 \/ fl_ret l = 1 ->
             let '(ret, p', _) :=
               curl_multi_finished_cleanup env id l q w0 in
             (servers p' = servers p /\ ret <> 2)
             \/ (servers p' = tail (servers p)
                 /\ (ret = 2 -> servers p' <> []))).
  { intros l q w0 Hq Hl.
    pose proof (finished_cleanup_servers env id l q w0) as Hs.
    destruct (finished_cleanup_ret env id l q w0) as (H1 & H2 & H3).
    destruct (curl_multi_finished_cleanup env id l q w0) as [[ret q'] w'].
    cbn [fst snd] in *. left. split; [congruence |].
    destruct (errors_ok q), Hl as [Hl | [Hl | Hl]];
      (try specialize (H1 Hl)); (try specialize (H2 Hl));
      (try specialize (H3 Hl)); lia. }
  assert (Hretry : forall q w0,
             servers q = servers p ->
             let '(ret, p', _) := retry_or_cleanup env id q w0 in
             (servers p' = servers p /\ ret <> 2)
             \/ (servers p' = tail (servers p)
                 /\ (ret = 2 -> servers p' <> []))).
  { intros q w0 Hq.
    pose proof (retry_or_cleanup_servers env id q w0) as Hs.
    destruct (retry_or_cleanup env id q w0) as [[ret q'] w'].
    destruct Hs as (Hs & Hret). right. rewrite <- Hq. split; [exact Hs |].
    intros ->. destruct Hret as [[_ Hne] | [Hret | Hret]];
      [exact Hne | discriminate | discriminate]. }
  destruct curlerr; record_cbn.
  - destruct (400 <=? respcode p).
    + destruct (errors_ok p); record_cbn; apply Hretry; reflexivity.
    + destruct ((CURLINFO_CONDITION_UNMET info =? 1)
                && (CURLINFO_SIZE_DOWNLOAD info =? 0)).
      * apply Hclean; cbn; auto.
      * destruct (negb (CURLINFO_CONTENT_LENGTH_DOWNLOAD info =? -1)
                  && negb (CURLINFO_SIZE_DOWNLOAD info =? -1)
                  && negb (CURLINFO_SIZE_DOWNLOAD info
                           =? CURLINFO_CONTENT_LENGTH_DOWNLOAD info)).
        -- apply Hclean; cbn; auto.
        -- apply Hclean; cbn; auto using trust_remote_name_block_servers.
  - apply Hretry; reflexivity.
  - destruct (dload_interrupted w =? ABORT_OVER_MAXFILESIZE);
      apply Hclean; cbn; auto.
  - match goal with
    | |- context [size_is_zero ?a ?b] => destruct (size_is_zero a b)
    end; record_cbn; destruct (errors_ok p); record_cbn; apply Hretry;
      reflexivity.
  - match goal with
    | |- context [size_is_zero ?a ?b] => destruct (size_is_zero a b)
    end; record_cbn; destruct (errors_ok p); record_cbn; apply Hretry;
      reflexivity.
Qed.

Lemma check_finished_fails_over :
  forall env id curlerr info localpath p w s0 s1 rest f,
    servers p = s0 :: s1 :: rest ->
    failover_eligible curlerr p ->
    env_malloc_ok env = true -> env_ftruncate_ok env = true ->
    localf p = Some f ->
    exists p' w',
      curl_multi_check_finished_download env id curlerr info localpath p w
      = (2, p', w')
      /\ servers p' = s1 :: rest
      /\ fileurl p' = Some (s1 +:+ "/" +:+ default "" (filepath p))
      /\ In id (curlm w')
      /\ (if unlink_on_fail p'
          then localf p' = Some (Fs.rewind f)
               /\ w_fs w' = Fs.ftruncate0 f (w_fs w)
          else localf p' = Some f /\ w_fs w' = w_fs w).
Proof.
  intros env id curlerr info localpath p w s0 s1 rest f
    Hservers Heligible Hmalloc Htrunc Hlocalf.
  assert (Hretry : forall q w0,
             servers q = servers p -> localf q = localf p ->
             filepath q = filepath p -> w_fs w0 = w_fs w ->
             exists p' w',
               retry_or_cleanup env id q w0 = (2, p', w')
               /\ servers p' = s1 :: rest
               /\ fileurl p' = Some (s1 +:+ "/" +:+ default "" (filepath p))
               /\ In id (curlm w')
               /\ (if unlink_on_fail p'
                   then localf p' = Some (Fs.rewind f)
                        /\ w_fs w' = Fs.ftruncate0 f (w_fs w)
                   else localf p' = Some f /\ w_fs w' = w_fs w)).
  { intros q w0 Hq Hf Hpath Hfs.
    destruct (retry_or_cleanup_retries env id q w0 s0 s1 rest f)
      as (p' & w' & Heq & H1 & H2 & H3 & H4 & H5);
      try congruence.
    exists p', w'. rewrite H3, <- Hpath, <- Hfs. auto. }
  unfold curl_multi_check_finished_download.
  destruct curlerr; cbn [failover_eligible] in Heligible; record_cbn.
  - replace (400 <=? respcode p) with true
      by (symmetry; apply Z.leb_le; exact Heligible).
    destruct (errors_ok p); record_cbn; apply Hretry; reflexivity.
  - apply Hretry; reflexivity.
  - contradiction.
  - match goal with
    | |- context [size_is_zero ?a ?b] => destruct (size_is_zero a b)
    end; record_cbn; destruct (errors_ok p); record_cbn; apply Hretry;
      reflexivity.
  - match goal with
    | |- context [size_is_zero ?a ?b] => destruct (size_is_zero a b)
    end; record_cbn; destruct (errors_ok p); record_cbn; apply Hretry;
      reflexivity.
Qed.

(** *** The cursor over a whole run of the parallel driver *)

(** The cursor of [p'] is the one of [p], or further down the same list
    of mirrors. *)
Definition cursor_advanced (p p' : dload_payload) : Prop :=
  servers p' `suffix_of` servers p.

Lemma cursor_advanced_refl : forall p, cursor_advanced p p.
Proof. intros p. unfold cursor_advanced. reflexivity. Qed.

Lemma cursor_advanced_trans :
  forall p q r,
    cursor_advanced p q -> cursor_advanced q r -> cursor_advanced p r.
Proof. unfold cursor_advanced. intros p q r Hpq Hqr. by etrans. Qed.

Lemma cursors_refl : forall ps, Forall2 cursor_advanced ps ps.
Proof.
  induction ps; constructor; auto using cursor_advanced_refl.
Qed.

Lemma cursors_trans :
  forall ps qs rs,
    Forall2 cursor_advanced ps qs -> Forall2 cursor_advanced qs rs ->
    Forall2 cursor_advanced ps rs.
Proof.
  intros ps qs rs Hpq. revert rs.
  induction Hpq; intros rs Hqr; inversion Hqr; subst; constructor;
    eauto using cursor_advanced_trans.
Qed.

Lemma cursors_insert :
  forall ps i p p',
    ps !! i = Some p -> cursor_advanced p p' ->
    Forall2 cursor_advanced ps (<[i := p']> ps).
Proof.
  intros ps i p p' Hlookup Hadv.
  rewrite <- (list_insert_id ps i p Hlookup) at 1.
  apply Forall2_insert; [apply cursors_refl | exact Hadv].
Qed.

Lemma create_tempfile_servers :
  forall env localpath p w,
    servers (snd (fst (create_tempfile env localpath p w))) = servers p.
Proof.
  intros env localpath p w. unfold create_tempfile. break_all; reflexivity.
Qed.

Lemma set_handle_opts_servers :
  forall h ua p w,
    servers (fst (curl_set_handle_opts h ua p w)) = servers p.
Proof.
  intros h ua p w. unfold curl_set_handle_opts. break_all; reflexivity.
Qed.

Lemma add_payload_servers :
  forall h env id localpath p w,
    servers (snd (fst (curl_multi_add_payload h env id localpath p w)))
    = servers p.
Proof.
  intros h env id localpath p w.
  unfold curl_multi_add_payload, curl_multi_add_names, curl_multi_add_cleanup.
  destruct (servers p) eqn:Hservers; [cbn; congruence |].
  record_cbn.
  destruct (curl_gethost _ _); [| cbn; break_all; cbn; congruence].
  match goal with
  | |- context [if ?b then _ else _] => destruct b
  end.
  - match goal with
    | |- context [curl_set_handle_opts ?a ?b ?c ?d] =>
        pose proof (set_handle_opts_servers a b c d) as Hopts;
        destruct (curl_set_handle_opts a b c d) as [q w1]
    end.
    cbn [fst] in Hopts. break_all; cbn; rewrite ?Hopts; break_all; cbn;
      congruence.
  - match goal with
    | |- context [create_tempfile ?a ?b ?c ?d] =>
        pose proof (create_tempfile_servers a b c d) as Htmp;
        destruct (create_tempfile a b c d) as [[f q0] w0]
    end.
    cbn [fst snd] in Htmp. destruct f; record_cbn.
    + match goal with
      | |- context [curl_set_handle_opts ?a ?b ?c ?d] =>
          pose proof (set_handle_opts_servers a b c d) as Hopts;
          destruct (curl_set_handle_opts a b c d) as [q w1]
      end.
      cbn [fst] in Hopts. record_cbn.
      break_all; cbn; rewrite ?Hopts, ?Htmp; break_all; cbn; congruence.
    + rewrite Htmp. break_all; cbn; congruence.
Qed.

Lemma progress_cb_servers :
  forall h dltotal dlnow p w,
    servers (snd (fst (dload_progress_cb h dltotal dlnow p w))) = servers p.
Proof.
  intros h dltotal dlnow p w. unfold dload_progress_cb.
  break_all; reflexivity.
Qed.

Lemma parseheader_cb_servers :
  forall ptr code p, servers (dload_parseheader_cb ptr code p) = servers p.
Proof.
  intros ptr code p. unfold dload_parseheader_cb. break_all; reflexivity.
Qed.

Lemma run_callback_servers :
  forall h now cb stream p w,
    servers (snd (fst (run_callback h now cb stream p w))) = servers p.
Proof.
  intros h now cb stream p w. unfold run_callback. destruct cb.
  - apply parseheader_cb_servers.
  - pose proof (progress_cb_servers h dltotal dlnow p w) as Hcb.
    destruct (dload_progress_cb h dltotal dlnow p w) as [[r q] w0].
    exact Hcb.
  - destruct stream; [destruct (Fs.write _ _ _ _) |]; reflexivity.
Qed.

Lemma start_downloads_cursors :
  forall fuel h r localpath st,
    Forall2 cursor_advanced (ms_payloads st)
      (ms_payloads (start_downloads fuel h r localpath st)).
Proof.
  induction fuel as [| fuel IH]; intros h r localpath st;
    cbn [start_downloads]; [apply cursors_refl |].
  destruct (ms_still_running st <? parallel_downloads h);
    [| apply cursors_refl].
  destruct (ms_payloads st !! ms_next st) as [p |] eqn:Hlookup;
    [| apply cursors_refl].
  pose proof (add_payload_servers h (round_env r (ms_next st)) (ms_next st)
                localpath p (ms_world st)) as Hadd.
  destruct (curl_multi_add_payload h (round_env r (ms_next st)) (ms_next st)
              localpath p (ms_world st)) as [[ret q] w].
  cbn [fst snd] in Hadd.
  eapply cursors_trans; [| apply IH].
  assert (Hstep : Forall2 cursor_advanced (ms_payloads st)
                    (<[ms_next st := q]> (ms_payloads st))).
  { eapply cursors_insert; [exact Hlookup |].
    unfold cursor_advanced. rewrite Hadd. reflexivity. }
  destruct (ret =? 0); exact Hstep.
Qed.

Lemma multi_callback_cursors :
  forall h r st c,
    Forall2 cursor_advanced (ms_payloads st)
      (ms_payloads (multi_callback h r st c)).
Proof.
  intros h r st [id cb]. unfold multi_callback.
  destruct (ms_payloads st !! id) as [p |] eqn:Hlookup;
    [| apply cursors_refl].
  pose proof (run_callback_servers h (env_now (round_env r id)) cb
                (localf p) p (ms_world st)) as Hcb.
  destruct (run_callback h (env_now (round_env r id)) cb (localf p) p
              (ms_world st)) as [[[go f] q] w].
  cbn [fst snd] in Hcb. cbn [ms_payloads].
  eapply cursors_insert; [exact Hlookup |].
  unfold cursor_advanced. cbn [servers set_localf]. rewrite Hcb. reflexivity.
Qed.

Lemma multi_message_cursors :
  forall r localpath st msg,
    Forall2 cursor_advanced (ms_payloads st)
      (ms_payloads (multi_message r localpath st msg)).
Proof.
  intros r localpath st msg. unfold multi_message.
  destruct (msg_done msg); [| apply cursors_refl].
  destruct (ms_payloads st !! easy_handle msg) as [p |] eqn:Hlookup;
    [| apply cursors_refl].
  pose proof (check_finished_servers (round_env r (easy_handle msg))
                (easy_handle msg) (msg_result msg) (msg_info msg) localpath
                p (ms_world st)) as Hcheck.
  destruct (curl_multi_check_finished_download _ _ _ _ _ _ _)
    as [[ret q] w].
  assert (Hstep : Forall2 cursor_advanced (ms_payloads st)
                    (<[easy_handle msg := q]> (ms_payloads st))).
  { eapply cursors_insert; [exact Hlookup |].
    unfold cursor_advanced.
    destruct Hcheck as [[-> _] | [-> _]]; [reflexivity |].
    destruct (servers p); [reflexivity | apply suffix_cons_r; reflexivity]. }
  destruct (ret =? -1); [exact Hstep |].
  destruct (ret =? 2); exact Hstep.
Qed.

Lemma fold_left_cursors :
  forall (A : Type) (f : multi_state -> A -> multi_state),
    (forall st a,
        Forall2 cursor_advanced (ms_payloads st) (ms_payloads (f st a))) ->
    forall l st,
      Forall2 cursor_advanced (ms_payloads st)
        (ms_payloads (fold_left f l st)).
Proof.
  intros A f Hf. induction l as [| a l IH]; intros st; cbn [fold_left].
  - apply cursors_refl.
  - eapply cursors_trans; [apply Hf | apply IH].
Qed.

Lemma multi_turn_cursors :
  forall h localpath st r,
    Forall2 cursor_advanced (ms_payloads st)
      (ms_payloads (multi_turn h localpath st r)).
Proof.
  intros h localpath st r. unfold multi_turn.
  eapply cursors_trans;
    [| apply fold_left_cursors; apply multi_message_cursors].
  destruct (round_mc_ok r); cbn [ms_payloads];
    (eapply cursors_trans;
     [apply start_downloads_cursors
     | apply fold_left_cursors; apply multi_callback_cursors]).
Qed.

Lemma multi_loop_cursors :
  forall h localpath rounds st,
    Forall2 cursor_advanced (ms_payloads st)
      (ms_payloads (fst (multi_loop h localpath rounds st))).
Proof.
  intros h localpath rounds. induction rounds as [| r rounds IH];
    intros st; cbn [multi_loop];
    destruct (multi_busy st); cbn [fst]; try apply cursors_refl.
  eapply cursors_trans; [apply multi_turn_cursors | apply IH].
Qed.

(** C2.  (1) However many turns the loop of the parallel driver takes,
    the cursor of every payload is where it was at the start or further
    down the same list of mirrors.  (2) A completion check answers 2 only
    after it has moved the cursor by one mirror, onto a mirror that exists;
    otherwise it leaves the cursor where it was or one mirror further.
    (3) On an error eligible for failover with another mirror remaining,
    when the allocation of the new URL and the truncation succeed, the
    completion check moves the cursor to the next mirror, rebuilds
    [fileurl] from it and [filepath], truncates the temp file to zero
    length and rewinds its stream when [unlink_on_fail] is set (and leaves
    them alone otherwise), puts the handle back into the multi handle and
    returns 2. *)
Theorem mirror_cursor_only_advances :
  (forall h localpath rounds st,
      Forall2 cursor_advanced (ms_payloads st)
        (ms_payloads (fst (multi_loop h localpath rounds st))))
  /\ (forall env id curlerr info localpath p w,
         let '(ret, p', _) :=
           curl_multi_check_finished_download env id curlerr info localpath
             p w in
         (ret = 2 -> exists s, servers p = s :: servers p'
                               /\ servers p' <> [])
         /\ (ret <> 2 -> servers p' = servers p
                         \/ servers p' = tail (servers p)))
  /\ (forall env id curlerr info localpath p w s0 s1 rest f,
         servers p = s0 :: s1 :: rest ->
         failover_eligible curlerr p ->
         env_malloc_ok env = true -> env_ftruncate_ok env = true ->
         localf p = Some f ->
         exists p' w',
           curl_multi_check_finished_download env id curlerr info localpath
             p w = (2, p', w')
           /\ servers p' = s1 :: rest
           /\ fileurl p' = Some (s1 +:+ "/" +:+ default "" (filepath p))
           /\ In id (curlm w')
           /\ (if unlink_on_fail p'
               then localf p' = Some (Fs.rewind f)
                    /\ f_pos (Fs.rewind f) = 0
                    /\ w_fs w' = Fs.ftruncate0 f (w_fs w)
                    /\ (forall st, w_fs w' !! f_path f = Some st ->
                                   st_size st = 0)
               else localf p' = Some f /\ w_fs w' = w_fs w)).
Proof.
  split; [exact multi_loop_cursors | split].
  - intros env id curlerr info localpath p w.
    pose proof (check_finished_servers env id curlerr info localpath p w)
      as Hcheck.
    destruct (curl_multi_check_finished_download _ _ _ _ _ _ _)
      as [[ret p'] w'].
    split.
    + intros ->. destruct Hcheck as [[_ Hne] | [Htail Hnonempty]];
        [congruence |].
      specialize (Hnonempty eq_refl).
      destruct (servers p) as [| s rest]; cbn [tail] in Htail;
        [congruence |].
      exists s. rewrite Htail in *. auto.
    + intros _. destruct Hcheck as [[Heq _] | [Heq _]]; auto.
  - intros env id curlerr info localpath p w s0 s1 rest f
      Hservers Heligible Hmalloc Htrunc Hlocalf.
    destruct (check_finished_fails_over env id curlerr info localpath p w
                s0 s1 rest f Hservers Heligible Hmalloc Htrunc Hlocalf)
      as (p' & w' & Heq & H1 & H2 & H3 & H4).
    exists p', w'. repeat (split; [assumption |]).
    destruct (unlink_on_fail p'); [| exact H4].
    destruct H4 as [Hf Hfs]. repeat (split; [first [assumption | reflexivity] |]).
    intros st. rewrite Hfs. unfold Fs.ftruncate0.
    rewrite lookup_alter_eq.
    destruct (w_fs w !! f_path f); cbn; intros Hst; inversion Hst;
      reflexivity.
Qed.

(** C2 on a payload with two mirrors whose first one answers 503. *)
Definition payload_two_mirrors : dload_payload :=
  {| tempfile_openmode := Some "wb"; remote_name := Some "core.db";
     tempfile_name := Some "/cache/core.db.part";
     destfile_name := Some "/cache/core.db"; content_disp_name := None;
     fileurl := Some "http://a/core.db"; filepath := Some "core.db";
     servers := ["http://a"; "http://b"]; respcode := 503;
     initial_size := 0; max_size := 0; prevprogress := 0; force := false;
     allow_resume := false; errors_ok := false; unlink_on_fail := false;
     trust_remote_name := false; signature := false; curl := Some [];
     error_buffer := "";
     localf := Some (mk_FILE "/cache/core.db.part" 120 false) |}.

Definition world_error_page : world :=
  set_w_fs {[ "/cache/core.db.part" := mk_stat 120 100 ]} world_zero.

Lemma mirror_cursor_only_advances_witness :
  exists p' w',
    curl_multi_check_finished_download env_ok 0 CURLE_OK info_none "/cache/"
      payload_two_mirrors world_error_page = (2, p', w')
    /\ servers p' = ["http://b"]
    /\ fileurl p' = Some "http://b/core.db".
Proof.
  destruct (proj2 (proj2 mirror_cursor_only_advances) env_ok 0%nat CURLE_OK
              info_none "/cache/" payload_two_mirrors world_error_page
              "http://a" "http://b" []
              (mk_FILE "/cache/core.db.part" 120 false))
    as (p' & w' & Heq & Hservers & Hurl & _);
    try reflexivity; [cbn; lia |].
  exists p', w'. auto.
Defined.

(** ** The up-to-date path *)

Lemma utimes_unlink :
  forall path seconds fs,
    Fs.utimes path seconds (Fs.unlink path fs) = Fs.unlink path fs.
Proof.
  intros [name |] seconds fs; cbn; [| reflexivity].
  apply alter_delete_eq.
Qed.

Lemma unlink_unlink :
  forall path fs, Fs.unlink path (Fs.unlink path fs) = Fs.unlink path fs.
Proof.
  intros [name |] fs; cbn; [| reflexivity].
  apply map_eq. intros i. destruct (decide (name = i)) as [-> | Hne].
  - rewrite !lookup_delete_eq. reflexivity.
  - rewrite !lookup_delete_ne by exact Hne. reflexivity.
Qed.

Lemma utimes_long_unlinked :
  forall path seconds w,
    w_fs (utimes_long path seconds (set_fs (Fs.unlink path) w))
    = Fs.unlink path (w_fs w).
Proof.
  intros path seconds w. unfold utimes_long.
  destruct (seconds =? -1); cbn; [reflexivity | apply utimes_unlink].
Qed.

(** The completion check of the parallel driver on a transfer that ended
    well with the time condition unmet and no byte received. *)
Lemma check_finished_up_to_date :
  forall env id info localpath p w,
    respcode p < 400 ->
    CURLINFO_CONDITION_UNMET info = 1 ->
    CURLINFO_SIZE_DOWNLOAD info = 0 ->
    exists p' w',
      curl_multi_check_finished_download env id CURLE_OK info localpath p w
      = (1, p', w')
      /\ w_fs w' = Fs.unlink (tempfile_name p) (w_fs w)
      /\ tempfile_name p' = tempfile_name p
      /\ destfile_name p' = destfile_name p.
Proof.
  intros env id info localpath p w Hcode Hcond Hbytes.
  unfold curl_multi_check_finished_download. record_cbn.
  replace (400 <=? respcode p) with false by (symmetry; apply Z.leb_gt; lia).
  rewrite Hcond, Hbytes, !Z.eqb_refl. cbn [andb].
  unfold curl_multi_finished_cleanup, utimes_long. record_cbn.
  cbn [Z.eqb Pos.eqb orb].
  break_all; (eexists; eexists; split; [reflexivity |]); cbn;
    rewrite ?alter_delete_eq, ?delete_delete_eq, ?utimes_unlink,
      ?unlink_unlink; auto.
Qed.

(** Splits the conjunctions of the goal. *)
Ltac splits := repeat match goal with |- _ /\ _ => split end.

(** [fs'] holds what [fs] holds, except perhaps at [temp]. *)
Definition off_path (temp : option string) (fs fs' : gmap string stat)
  : Prop :=
  forall path, temp <> Some path -> fs' !! path = fs !! path.

Lemma off_path_refl : forall temp fs, off_path temp fs fs.
Proof. intros temp fs path _. reflexivity. Qed.

Lemma off_path_trans :
  forall temp fs1 fs2 fs3,
    off_path temp fs1 fs2 -> off_path temp fs2 fs3 -> off_path temp fs1 fs3.
Proof.
  intros temp fs1 fs2 fs3 H12 H23 path Hne.
  rewrite (H23 path Hne). apply H12. exact Hne.
Qed.

Lemma off_path_insert :
  forall name st fs, off_path (Some name) fs (<[name := st]> fs).
Proof.
  intros name st fs path Hne. apply lookup_insert_ne. congruence.
Qed.

Lemma off_path_delete :
  forall name fs, off_path (Some name) fs (delete name fs).
Proof.
  intros name fs path Hne. apply lookup_delete_ne. congruence.
Qed.

Lemma off_path_alter :
  forall name f fs, off_path (Some name) fs (alter f name fs).
Proof.
  intros name f fs path Hne. apply lookup_alter_ne. congruence.
Qed.

Lemma append_length :
  forall a b, String.length (a +:+ b) = (String.length a + String.length b)%nat.
Proof.
  induction a as [| c a IH]; intros b; [reflexivity |].
  change (S (String.length (a +:+ b))
          = S (String.length a + String.length b)%nat).
  f_equal. apply IH.
Qed.

(** The [.part] file never has the name of the artifact. *)
Lemma part_name_differs :
  forall localpath name,
    get_fullpath localpath name "" <> get_fullpath localpath name ".part".
Proof.
  intros localpath name Heq. apply (f_equal String.length) in Heq.
  unfold get_fullpath in Heq. rewrite !append_length in Heq. cbn in Heq. lia.
Qed.

Lemma create_tempfile_frame :
  forall env localpath p w f p' w',
    create_tempfile env localpath p w = (Some f, p', w') ->
    tempfile_name p' = Some (f_path f)
    /\ destfile_name p' = destfile_name p
    /\ off_path (Some (f_path f)) (w_fs w) (w_fs w').
Proof.
  intros env localpath p w f p' w'. unfold create_tempfile.
  destruct (env_mkstemp env) as [chars |]; [| discriminate].
  destruct (negb (env_fchmod_ok env) || negb (env_fdopen_ok env));
    [discriminate |].
  intros Heq. inversion Heq; subst; clear Heq. cbn.
  repeat split. apply off_path_insert.
Qed.

Lemma names_next :
  forall env uninit localpath p w lf0 p0 w0,
    curl_download_names env uninit localpath p w = dl_next lf0 p0 w0 ->
    exists temp,
      tempfile_name p0 = Some temp
      /\ destfile_name p0 <> Some temp
      /\ off_path (Some temp) (w_fs w) (w_fs w0)
      /\ (forall f, lf0 = Some f -> f_path f = temp).
Proof.
  intros env uninit localpath p w lf0 p0 w0. unfold curl_download_names.
  destruct (curl_gethost _ _); [| discriminate].
  match goal with
  | |- context [if ?b then _ else _] => destruct b
  end.
  - intros Heq. inversion Heq; subst; clear Heq. record_cbn.
    eexists; split; [reflexivity |]. split; [| split].
    + intros Hsame. injection Hsame as Hsame.
      exact (part_name_differs _ _ Hsame).
    + apply off_path_refl.
    + discriminate.
  - match goal with
    | |- context [create_tempfile ?a ?b ?c ?d] =>
        pose proof (create_tempfile_frame a b c d) as Htmp;
        destruct (create_tempfile a b c d) as [[[f |] q] w1]
    end; [| discriminate].
    intros Heq. inversion Heq; subst; clear Heq.
    destruct (Htmp f p0 w0 eq_refl) as (Htemp & Hdest & Hfs).
    exists (f_path f). split; [exact Htemp |]. split; [| split].
    + rewrite Hdest. record_cbn. break_all; discriminate.
    + exact Hfs.
    + intros f' Hf'. congruence.
Qed.

Lemma set_handle_opts_frame :
  forall h ua p w,
    let '(p', w') := curl_set_handle_opts h ua p w in
    tempfile_name p' = tempfile_name p
    /\ destfile_name p' = destfile_name p
    /\ remote_name p' = remote_name p
    /\ max_size p' = max_size p
    /\ signature p' = signature p
    /\ errors_ok p' = errors_ok p
    /\ w_fs w' = w_fs w
    /\ dlcb_calls w' = dlcb_calls w
    /\ curlm w' = curlm w
    /\ pm_errno w' = pm_errno w.
Proof.
  intros h ua p w. unfold curl_set_handle_opts.
  break_all; splits; reflexivity.
Qed.

Lemma fopen_frame :
  forall ok now name mode fs f fs',
    Fs.fopen ok now (Some name) mode fs = Some (f, fs') ->
    f_path f = name /\ off_path (Some name) fs fs'.
Proof.
  intros ok now name mode fs f fs'. unfold Fs.fopen.
  destruct mode as [m |]; [| discriminate].
  destruct (negb ok); [discriminate |].
  destruct (String.eqb m "wb").
  - intros Heq. inversion Heq; subst. split; [reflexivity |].
    apply off_path_insert.
  - destruct (String.eqb m "ab"); [| discriminate].
    destruct (fs !! name); intros Heq; inversion Heq; subst;
      (split; [reflexivity |]);
      [apply off_path_refl | apply off_path_insert].
Qed.

Lemma open_next :
  forall h env uninit lf0 p0 w0 lf1 p1 w1 temp,
    curl_download_open h env uninit lf0 p0 w0 = dl_next lf1 p1 w1 ->
    tempfile_name p0 = Some temp ->
    (forall f, lf0 = Some f -> f_path f = temp) ->
    tempfile_name p1 = Some temp
    /\ destfile_name p1 = destfile_name p0
    /\ off_path (Some temp) (w_fs w0) (w_fs w1)
    /\ exists f, lf1 = Some f /\ f_path f = temp.
Proof.
  intros h env uninit lf0 p0 w0 lf1 p1 w1 temp Hopen Htemp Hlf.
  unfold curl_download_open in Hopen.
  pose proof (set_handle_opts_frame h (env_useragent env) p0 w0) as Hopts.
  destruct (curl_set_handle_opts h (env_useragent env) p0 w0) as [q w2].
  destruct Hopts as (Ht & Hd & _ & _ & _ & _ & Hfs & _).
  destruct ((max_size q =? initial_size q) && negb (max_size q =? 0));
    [discriminate |].
  destruct lf0 as [f |].
  - inversion Hopen; subst; clear Hopen. record_cbn.
    rewrite Ht, Hd, Htemp. splits; try reflexivity.
    + intros path Hne. cbn. rewrite Hfs. reflexivity.
    + exists f. auto.
  - rewrite Ht, Htemp in Hopen.
    destruct (Fs.fopen _ _ _ _ _) as [[f fs] |] eqn:Hfopen; [| discriminate].
    apply fopen_frame in Hfopen. destruct Hfopen as [Hpath Hoff].
    inversion Hopen; subst; clear Hopen. record_cbn.
    rewrite Ht, Hd, Htemp. splits; try reflexivity.
    + rewrite <- Hfs. exact Hoff.
    + exists f. auto.
Qed.

Lemma progress_cb_frame :
  forall h dltotal dlnow p w,
    let '(_, p', w') := dload_progress_cb h dltotal dlnow p w in
    tempfile_name p' = tempfile_name p
    /\ destfile_name p' = destfile_name p
    /\ w_fs w' = w_fs w.
Proof.
  intros h dltotal dlnow p w. unfold dload_progress_cb.
  break_all; splits; reflexivity.
Qed.

Lemma parseheader_cb_frame :
  forall ptr code p,
    let p' := dload_parseheader_cb ptr code p in
    tempfile_name p' = tempfile_name p
    /\ destfile_name p' = destfile_name p.
Proof.
  intros ptr code p. unfold dload_parseheader_cb. cbv zeta.
  break_all; splits; reflexivity.
Qed.

Lemma write_frame :
  forall now n f fs,
    let '(f', fs') := Fs.write now n f fs in
    f_path f' = f_path f /\ off_path (Some (f_path f)) fs fs'.
Proof.
  intros now n f fs. unfold Fs.write.
  destruct (fs !! f_path f); cbn; split; try reflexivity.
  - apply off_path_insert.
  - apply off_path_refl.
Qed.

Lemma perform_frame :
  forall h now steps result f p w code lf p' w',
    curl_easy_perform h now steps result (Some f) p w = (code, lf, p', w') ->
    tempfile_name p' = tempfile_name p
    /\ destfile_name p' = destfile_name p
    /\ off_path (Some (f_path f)) (w_fs w) (w_fs w')
    /\ exists f', lf = Some f' /\ f_path f' = f_path f.
Proof.
  intros h now steps. induction steps as [| step steps IH];
    intros result f p w code lf p' w'; cbn [curl_easy_perform].
  - intros Heq. inversion Heq; subst.
    splits; [reflexivity | reflexivity | apply off_path_refl | eauto].
  - destruct step as [cb |].
    + destruct cb as [ptr c | dltotal dlnow | n]; cbn [run_callback].
      * destruct (parseheader_cb_frame ptr c p) as [Ht Hd].
        intros Hrun. apply IH in Hrun.
        destruct Hrun as (Ht' & Hd' & Hfs & Hf).
        splits; try congruence; auto.
      * pose proof (progress_cb_frame h dltotal dlnow p w) as Hcb.
        destruct (dload_progress_cb h dltotal dlnow p w) as [[r q] w1].
        destruct Hcb as (Ht & Hd & Hw).
        destruct (r =? 0).
        -- intros Hrun. apply IH in Hrun.
           destruct Hrun as (Ht' & Hd' & Hfs & Hf).
           rewrite Hw in Hfs. splits; try congruence; auto.
        -- intros Heq. inversion Heq; subst.
           splits; auto; [rewrite Hw; apply off_path_refl | eauto].
      * pose proof (write_frame now n f (w_fs w)) as Hwrite.
        destruct (Fs.write now n f (w_fs w)) as [f1 fs1].
        destruct Hwrite as [Hpath Hoff].
        intros Hrun. apply IH in Hrun.
        destruct Hrun as (Ht' & Hd' & Hfs & f' & Hlf & Hpath').
        rewrite Hpath in *. cbn in Hfs.
        splits; auto.
        -- eapply off_path_trans; eassumption.
        -- exists f'. split; congruence.
    + intros Hrun. apply IH in Hrun. exact Hrun.
Qed.

(** The single-transfer driver from the return of a transfer that ended
    well with the time condition unmet and no byte received. *)
Lemma single_up_to_date_tail :
  forall env info uninit want_file want_url localpath lf p w temp,
    respcode p < 400 ->
    CURLINFO_CONDITION_UNMET info = 1 ->
    CURLINFO_SIZE_DOWNLOAD info = 0 ->
    tempfile_name p = Some temp ->
    let '(l, p1, w1) :=
      curl_download_finish info uninit want_url localpath CURLE_OK lf p w in
    let '(ret, final_file, p2, w2) :=
      curl_download_cleanup env want_file l p1 w1 in
    ret = 1 /\ final_file = None
    /\ tempfile_name p2 = Some temp
    /\ destfile_name p2 = destfile_name p
    /\ w_fs w2 = delete temp (w_fs w).
Proof.
  intros env info uninit want_file want_url localpath lf p w temp
    Hcode Hcond Hbytes Htemp.
  unfold curl_download_finish. record_cbn.
  replace (400 <=? respcode p) with false by (symmetry; apply Z.leb_gt; lia).
  rewrite Hcond, Hbytes, !Z.eqb_refl. cbn [andb].
  unfold curl_download_cleanup, utimes_long. record_cbn.
  rewrite Htemp. cbn [Z.eqb Pos.eqb orb Fs.unlink Fs.utimes].
  break_all; splits; cbn;
    rewrite ?alter_delete_eq, ?delete_delete_eq; auto.
Qed.

(** C7.  In the single-transfer driver: when the driver has chosen its
    file names, opened the temp file, and the transfer has ended well
    (response below 400) with the time condition unmet and no byte
    received, the driver returns 1, the temp file is gone, the artifact has
    another name than the temp file, and every file but the temp file is
    as it was when the driver was called, so nothing was renamed.  In the
    completion check of the parallel driver, under the same conditions: the
    check returns 1 and the files on disk are those from before without the
    temp file. *)
Theorem up_to_date_leaves_destination :
  (forall h env t uninit want_file want_url localpath p w
          lf0 p0 w0 lf1 p1 w1 lf2 p2 w2,
      curl_download_names env uninit localpath p w = dl_next lf0 p0 w0 ->
      curl_download_open h env uninit lf0 p0 w0 = dl_next lf1 p1 w1 ->
      curl_easy_perform h (env_now env) (t_steps t) (t_result t) lf1 p1 w1
      = (CURLE_OK, lf2, p2, w2) ->
      respcode p2 < 400 ->
      CURLINFO_CONDITION_UNMET (t_info t) = 1 ->
      CURLINFO_SIZE_DOWNLOAD (t_info t) = 0 ->
      exists final_file final_url p3 w3 temp,
        curl_download_internal h env t uninit want_file want_url localpath
          p w = (1, final_file, final_url, p3, w3)
        /\ tempfile_name p3 = Some temp
        /\ destfile_name p3 <> Some temp
        /\ w_fs w3 !! temp = None
        /\ (forall path, path <> temp -> w_fs w3 !! path = w_fs w !! path))
  /\ (forall env id info localpath p w,
         respcode p < 400 ->
         CURLINFO_CONDITION_UNMET info = 1 ->
         CURLINFO_SIZE_DOWNLOAD info = 0 ->
         exists p' w',
           curl_multi_check_finished_download env id CURLE_OK info
             localpath p w = (1, p', w')
           /\ w_fs w' = Fs.unlink (tempfile_name p) (w_fs w)
           /\ Fs.stat_of (w_fs w') (tempfile_name p) = None
           /\ (forall path, tempfile_name p <> Some path ->
                            w_fs w' !! path = w_fs w !! path)).
Proof.
  split.
  - intros h env t uninit want_file want_url localpath p w
      lf0 p0 w0 lf1 p1 w1 lf2 p2 w2 Hnames Hopen Hperform Hcode Hcond Hbytes.
    destruct (names_next _ _ _ _ _ _ _ _ Hnames)
      as (temp & Htemp0 & Hdest0 & Hfs0 & Hlf0).
    destruct (open_next _ _ _ _ _ _ _ _ _ temp Hopen Htemp0 Hlf0)
      as (Htemp1 & Hdest1 & Hfs1 & f1 & -> & Hpath1).
    destruct (perform_frame _ _ _ _ _ _ _ _ _ _ _ Hperform)
      as (Htemp2 & Hdest2 & Hfs2 & f2 & -> & Hpath2).
    rewrite Hpath1 in Hfs2.
    pose proof (single_up_to_date_tail env (t_info t) uninit want_file
                  want_url localpath (Some f2) p2 w2 temp Hcode Hcond Hbytes
                  (eq_trans Htemp2 Htemp1)) as Htail.
    unfold curl_download_internal. rewrite Hnames, Hopen, Hperform.
    destruct (curl_download_finish _ _ _ _ _ _ _ _) as [[l q1] v1].
    destruct (curl_download_cleanup _ _ _ _ _) as [[[ret ff] q2] v2].
    destruct Htail as (-> & -> & Htemp3 & Hdest3 & Hfs3).
    exists None, (option_map mk_freed_url (l_final_url l)), q2, v2, temp.
    split; [reflexivity |]. split; [exact Htemp3 |]. split; [| split].
    + rewrite Hdest3, Hdest2, Hdest1. exact Hdest0.
    + rewrite Hfs3. apply lookup_delete_eq.
    + intros path Hne. rewrite Hfs3.
      rewrite lookup_delete_ne by congruence.
      assert (Hne' : Some temp <> Some path) by congruence.
      rewrite (Hfs2 path Hne'), (Hfs1 path Hne'), (Hfs0 path Hne').
      reflexivity.
  - intros env id info localpath p w Hcode Hcond Hbytes.
    destruct (check_finished_up_to_date env id info localpath p w
                Hcode Hcond Hbytes) as (p' & w' & Heq & Hfs & _).
    exists p', w'. split; [exact Heq |]. split; [exact Hfs |].
    rewrite Hfs. destruct (tempfile_name p) as [temp |]; cbn.
    + split; [apply lookup_delete_eq |].
      intros path Hne. apply lookup_delete_ne. congruence.
    + split; reflexivity.
Qed.

(** C7 on a payload whose artifact is in the cache already, when the
    server answers that it has nothing newer. *)
Definition payload_fresh : dload_payload :=
  {| tempfile_openmode := Some "wb"; remote_name := Some "core.db";
     tempfile_name := Some "/cache/core.db.part";
     destfile_name := Some "/cache/core.db"; content_disp_name := None;
     fileurl := Some "http://m/core.db"; filepath := Some "core.db";
     servers := ["http://m"]; respcode := 304; initial_size := 0;
     max_size := 0; prevprogress := 0; force := false;
     allow_resume := false; errors_ok := false; unlink_on_fail := false;
     trust_remote_name := false; signature := false; curl := Some [];
     error_buffer := "";
     localf := Some (mk_FILE "/cache/core.db.part" 0 false) |}.

Definition world_cached : world :=
  set_w_fs {[ "/cache/core.db" := mk_stat 4096 77;
              "/cache/core.db.part" := mk_stat 0 100 ]} world_zero.

Definition info_not_modified : transfer_info :=
  {| CURLINFO_FILETIME := 77; CURLINFO_CONTENT_LENGTH_DOWNLOAD := -1;
     CURLINFO_SIZE_DOWNLOAD := 0; CURLINFO_CONDITION_UNMET := 1;
     CURLINFO_EFFECTIVE_URL := "http://m/core.db" |}.

Lemma up_to_date_leaves_destination_witness :
  exists p' w',
    curl_multi_check_finished_download env_ok 0 CURLE_OK info_not_modified
      "/cache/" payload_fresh world_cached = (1, p', w')
    /\ w_fs w' !! "/cache/core.db" = Some (mk_stat 4096 77).
Proof.
  destruct (proj2 up_to_date_leaves_destination env_ok 0%nat
              info_not_modified "/cache/" payload_fresh world_cached)
    as (p' & w' & Heq & _ & _ & Hframe);
    [cbn; lia | reflexivity | reflexivity |].
  exists p', w'. split; [exact Heq |].
  rewrite (Hframe "/cache/core.db"); [reflexivity | discriminate].
Defined.

(** ** The size limit and the complete [.part] file *)

(** A 4096-byte [.part] file waits for a payload limited to 1024 bytes. *)
Definition payload_resume_1k : dload_payload :=
  {| tempfile_openmode := Some "wb"; remote_name := Some "pkg.tar.zst";
     tempfile_name := Some "/cache/pkg.tar.zst.part";
     destfile_name := Some "/cache/pkg.tar.zst"; content_disp_name := None;
     fileurl := Some "http://m/pkg.tar.zst"; filepath := Some "pkg.tar.zst";
     servers := ["http://m"]; respcode := 0; initial_size := 0;
     max_size := 1024; prevprogress := 0; force := false;
     allow_resume := true; errors_ok := false; unlink_on_fail := false;
     trust_remote_name := false; signature := false; curl := Some [];
     error_buffer := ""; localf := None |}.

(** The configurator takes the size of the [.part] file as it is. *)
Lemma configuration_does_not_bound_initial_size :
  ~ (forall h useragent p w,
        0 < max_size p -> initial_size p <= max_size p ->
        let p' := fst (curl_set_handle_opts h useragent p w) in
        initial_size p' <= max_size p').
Proof.
  intros claim.
  specialize (claim handle_dlcb None payload_resume_1k (world_part 4096)).
  vm_compute in claim. apply claim; reflexivity || discriminate.
Qed.

Lemma names_events :
  forall env uninit localpath p w lf0 p0 w0,
    curl_download_names env uninit localpath p w = dl_next lf0 p0 w0 ->
    dlcb_calls w0 = dlcb_calls w.
Proof.
  intros env uninit localpath p w lf0 p0 w0. unfold curl_download_names.
  destruct (curl_gethost _ _); [| discriminate].
  match goal with
  | |- context [if ?b then _ else _] => destruct b
  end.
  - intros Heq. inversion Heq; subst. reflexivity.
  - unfold create_tempfile. break_all; intros Heq; inversion Heq; subst;
      reflexivity.
Qed.

Lemma add_names_frame :
  forall env localpath p w p0 w0,
    curl_multi_add_names env localpath p w = inr (p0, w0) ->
    curlm w0 = curlm w /\ dlcb_calls w0 = dlcb_calls w.
Proof.
  intros env localpath p w p0 w0.
  unfold curl_multi_add_names, curl_multi_add_cleanup, create_tempfile.
  break_all; intros Heq; inversion Heq; subst; split; reflexivity.
Qed.

(** C8, as amended.  (1) The configurator does not compare [initial_size]
    with [max_size]: on a resume [initial_size] becomes the size of the
    [.part] file, otherwise it keeps its value, and [max_size] is not
    touched.  (2) In the single-transfer driver, for a handle with a
    download callback (on this path the call at the end of [cleanup:] is
    the first one through [handle->dlcb], and the driver does not test the
    pointer), when [max_size] and [initial_size] are equal and not zero
    after the configuration, no transfer takes place (the result is the
    same whatever libcurl would do), the front end sees a
    [DOWNLOAD_COMPLETED] event and nothing else, and the driver returns 0
    unless the temp file cannot be renamed to the artifact, in which case
    it returns -1.  (3) In the parallel
    driver, under the same condition, [curl_multi_add_payload] returns 0
    from its cleanup and does not add a handle to the multi handle. *)
Theorem complete_part_needs_no_transfer :
  (forall h useragent p w,
      let p' := fst (curl_set_handle_opts h useragent p w) in
      max_size p' = max_size p
      /\ (forall st,
             allow_resume p = true ->
             Fs.stat_of (w_fs w) (tempfile_name p) = Some st ->
             initial_size p' = st_size st)
      /\ (allow_resume p = false
          \/ Fs.stat_of (w_fs w) (tempfile_name p) = None ->
          initial_size p' = initial_size p))
  /\ (forall h env t uninit want_file want_url localpath p w lf0 p0 w0 p1 w1,
         dlcb h = true ->
         curl_download_names env uninit localpath p w = dl_next lf0 p0 w0 ->
         curl_set_handle_opts h (env_useragent env) p0 w0 = (p1, w1) ->
         max_size p1 = initial_size p1 -> max_size p1 <> 0 ->
         (forall t',
             curl_download_internal h env t' uninit want_file want_url
               localpath p w
             = curl_download_internal h env t uninit want_file want_url
                 localpath p w)
         /\ exists ret final_file p3 w3,
             curl_download_internal h env t uninit want_file want_url
               localpath p w = (ret, final_file, None, p3, w3)
             /\ dlcb_calls w3
                = dlcb_calls w
                  ++ [(remote_name p1, ALPM_DOWNLOAD_COMPLETED uninit ret)]
             /\ ret = match destfile_name p1 with
                      | Some _ =>
                          match Fs.rename (env_rename_ok env)
                                  (tempfile_name p1) (destfile_name p1)
                                  (w_fs w1) with
                          | Some _ => 0
                          | None => -1
                          end
                      | None => 0
                      end)
  /\ (forall h env id localpath p w p0 w0 p1 w1,
         curl_multi_add_names env localpath p w = inr (p0, w0) ->
         curl_set_handle_opts h (env_useragent env) p0 w0 = (p1, w1) ->
         max_size p1 = initial_size p1 -> max_size p1 <> 0 ->
         curl_multi_add_payload h env id localpath p w
         = curl_multi_add_cleanup 0 p1 w1
         /\ fst (fst (curl_multi_add_cleanup 0 p1 w1)) = 0
         /\ curlm w1 = curlm w).
Proof.
  split; [| split].
  - intros h useragent p w p'. subst p'. unfold curl_set_handle_opts.
    splits.
    + break_all; reflexivity.
    + intros st Hresume Hstat. rewrite Hresume.
      cbv beta iota zeta delta [negb andb].
      break_all; record_cbn; cbn [w_fs _alpm_log set_alpm_log] in *;
        congruence.
    + intros Hfresh.
      break_all; record_cbn; cbn [w_fs _alpm_log set_alpm_log] in *;
        try reflexivity; destruct Hfresh; congruence.
  - intros h env t uninit want_file want_url localpath p w lf0 p0 w0 p1 w1
      _ Hnames Hopts Heq Hnonzero.
    assert (Hopen : curl_download_open h env uninit lf0 p0 w0
                    = dl_cleanup (mk_locals 0 lf0 (-1) uninit None) p1 w1).
    { unfold curl_download_open. rewrite Hopts, Heq, Z.eqb_refl.
      replace (initial_size p1 =? 0) with false
        by (symmetry; apply Z.eqb_neq; congruence).
      reflexivity. }
    split.
    + intros t'. unfold curl_download_internal.
      rewrite Hnames, Hopen. reflexivity.
    + pose proof (names_events _ _ _ _ _ _ _ _ Hnames) as Hev0.
      pose proof (set_handle_opts_frame h (env_useragent env) p0 w0) as Hfr.
      rewrite Hopts in Hfr.
      destruct Hfr as (_ & _ & _ & _ & _ & _ & _ & Hev1 & _).
      unfold curl_download_internal. rewrite Hnames, Hopen.
      unfold curl_download_cleanup, utimes_long. record_cbn.
      cbn [Z.eqb].
      break_all; (do 4 eexists); (split; [reflexivity |]); cbn;
        rewrite ?Hev1, ?Hev0; split; reflexivity.
  - intros h env id localpath p w p0 w0 p1 w1 Hnames Hopts Heq Hnonzero.
    destruct (add_names_frame _ _ _ _ _ _ Hnames) as [Hcurlm _].
    pose proof (set_handle_opts_frame h (env_useragent env) p0 w0) as Hfr.
    rewrite Hopts in Hfr.
    destruct Hfr as (_ & _ & _ & _ & _ & _ & _ & _ & Hcurlm1 & _).
    unfold curl_multi_add_payload. rewrite Hnames, Hopts, Heq, Z.eqb_refl.
    replace (initial_size p1 =? 0) with false
      by (symmetry; apply Z.eqb_neq; congruence).
    splits; [reflexivity | reflexivity | congruence].
Qed.

(** C8 as amended, on a payload limited to 1024 bytes whose [.part] file
    holds 1024 bytes already: the single-transfer driver tells the front
    end that the download is complete and returns 0, and
    [curl_multi_add_payload] returns 0 without a new handle. *)
Lemma complete_part_needs_no_transfer_witness :
  (exists final_file p3 w3,
      curl_download_internal handle_dlcb env_ok transfer_sig 0 true false
        "/cache/" payload_resume_1k (world_part 1024)
      = (0, final_file, None, p3, w3)
      /\ dlcb_calls w3
         = [(Some "pkg.tar.zst", ALPM_DOWNLOAD_COMPLETED 0 0)])
  /\ fst (fst (curl_multi_add_payload handle_dlcb env_ok 0 "/cache/"
                 payload_resume_1k (world_part 1024))) = 0
  /\ curlm (snd (curl_multi_add_payload handle_dlcb env_ok 0 "/cache/"
                   payload_resume_1k (world_part 1024))) = [].
Proof.
  split.
  - edestruct (proj1 (proj2 complete_part_needs_no_transfer) handle_dlcb
                 env_ok transfer_sig 0 true false "/cache/"
                 payload_resume_1k (world_part 1024))
      as (_ & ret & final_file & p3 & w3 & Heq & Hcalls & Hret);
      [reflexivity | vm_compute; reflexivity | vm_compute; reflexivity
      | reflexivity | discriminate |].
    vm_compute in Hret. subst ret.
    exists final_file, p3, w3. split; [exact Heq | exact Hcalls].
  - edestruct (proj2 (proj2 complete_part_needs_no_transfer) handle_dlcb
                 env_ok 0%nat "/cache/" payload_resume_1k (world_part 1024))
      as (Heq & Hret & Hcurlm);
      [vm_compute; reflexivity | vm_compute; reflexivity | reflexivity
      | discriminate |].
    rewrite Heq. split; [exact Hret | exact Hcurlm].
Defined.

(** ** Fetching a package and its signature *)

(** The payload a stage of the single-transfer driver ends with. *)
Definition stage_payload (s : dl_stage) : dload_payload :=
  match s with
  | dl_return _ p _ => p
  | dl_cleanup _ p _ => p
  | dl_next _ p _ => p
  end.

Lemma names_errors_ok :
  forall env uninit localpath p w,
    errors_ok (stage_payload (curl_download_names env uninit localpath p w))
    = errors_ok p.
Proof.
  intros env uninit localpath p w.
  unfold curl_download_names, create_tempfile. break_all; cbn; congruence.
Qed.

Lemma open_errors_ok :
  forall h env uninit lf p w,
    errors_ok (stage_payload (curl_download_open h env uninit lf p w))
    = errors_ok p.
Proof.
  intros h env uninit lf p w. unfold curl_download_open.
  pose proof (set_handle_opts_frame h (env_useragent env) p w) as Hfr.
  destruct (curl_set_handle_opts h (env_useragent env) p w) as [q w1].
  destruct Hfr as (_ & _ & _ & _ & _ & Hok & _).
  break_all; cbn; exact Hok.
Qed.

Lemma perform_errors_ok :
  forall h now steps result lf p w,
    errors_ok (snd (fst (curl_easy_perform h now steps result lf p w)))
    = errors_ok p.
Proof.
  intros h now steps. induction steps as [| step steps IH];
    intros result lf p w; cbn [curl_easy_perform]; [reflexivity |].
  destruct step as [cb |]; [| apply IH].
  destruct cb as [ptr c | dltotal dlnow | n]; cbn [run_callback].
  - rewrite IH. unfold dload_parseheader_cb. break_all; cbn; congruence.
  - assert (Hcb : errors_ok
                    (snd (fst (dload_progress_cb h dltotal dlnow p w)))
                  = errors_ok p).
    { unfold dload_progress_cb. break_all; cbn; congruence. }
    destruct (dload_progress_cb h dltotal dlnow p w) as [[r q] w1].
    cbn [fst snd] in Hcb. destruct (r =? 0); [rewrite IH |]; exact Hcb.
  - destruct lf as [f |]; [destruct (Fs.write _ _ _ _) |]; apply IH.
Qed.

Lemma finish_errors_ok :
  forall info uninit want_url localpath curlerr lf p w,
    errors_ok (snd (fst (curl_download_finish info uninit want_url localpath
                           curlerr lf p w)))
    = errors_ok p.
Proof.
  intros info uninit want_url localpath curlerr lf p w.
  unfold curl_download_finish, trust_remote_name_block.
  break_all; cbn; congruence.
Qed.

Lemma cleanup_errors_ok :
  forall env want_file l p w,
    errors_ok (snd (fst (curl_download_cleanup env want_file l p w)))
    = errors_ok p.
Proof.
  intros env want_file l p w. unfold curl_download_cleanup.
  break_all; cbn; congruence.
Qed.

(** No download changes whether the payload is optional. *)
Lemma alpm_download_errors_ok :
  forall h env t uninit want_file want_url localpath p w,
    errors_ok (snd (fst (_alpm_download h env t uninit want_file want_url
                           localpath p w)))
    = errors_ok p.
Proof.
  intros h env t uninit want_file want_url localpath p w.
  unfold _alpm_download.
  destruct (fetchcb h) as [cb |].
  - destruct (cb _ _ _ _) as [ret fs]. break_all; cbn; congruence.
  - unfold curl_download_internal.
    pose proof (names_errors_ok env uninit localpath p w) as Hnames.
    destruct (curl_download_names env uninit localpath p w)
      as [ret q w1 | l q w1 | lf q w1]; cbn [stage_payload] in Hnames.
    + exact Hnames.
    + pose proof (cleanup_errors_ok env want_file l q w1) as Hc.
      destruct (curl_download_cleanup env want_file l q w1)
        as [[[ret ff] q2] w2]. cbn [fst snd] in *. congruence.
    + pose proof (open_errors_ok h env uninit lf q w1) as Hopen.
      destruct (curl_download_open h env uninit lf q w1)
        as [ret q1 w2 | l q1 w2 | lf1 q1 w2]; cbn [stage_payload] in Hopen.
      * cbn. congruence.
      * pose proof (cleanup_errors_ok env want_file l q1 w2) as Hc.
        destruct (curl_download_cleanup env want_file l q1 w2)
          as [[[ret ff] q2] w3]. cbn [fst snd] in *. congruence.
      * pose proof (perform_errors_ok h (env_now env) (t_steps t)
                      (t_result t) lf1 q1 w2) as Hp.
        destruct (curl_easy_perform _ _ _ _ _ _ _) as [[[code lf2] q2] w3].
        pose proof (finish_errors_ok (t_info t) uninit want_url localpath
                      code lf2 q2 w3) as Hf.
        destruct (curl_download_finish _ _ _ _ _ _ _ _) as [[l q3] w4].
        pose proof (cleanup_errors_ok env want_file l q3 w4) as Hc.
        destruct (curl_download_cleanup env want_file l q3 w4)
          as [[[ret ff] q4] w5]. cbn [fst snd] in *. congruence.
Qed.

Lemma strrchr_starts :
  forall s c r,
    CString.strrchr s c = Some r -> exists rest, r = String c rest.
Proof.
  induction s as [| a s IH]; intros c r; cbn [CString.strrchr];
    [discriminate |].
  destruct (CString.strrchr s c) as [r' |] eqn:Hrec.
  - intros Heq. inversion Heq; subst. apply (IH c r). exact Hrec.
  - destruct (Ascii.eqb_spec a c) as [-> | _]; [| discriminate].
    intros Heq. inversion Heq; subst. eauto.
Qed.

Section FetchPkgurlProperties.

Context (ALPM_SIG_PACKAGE ALPM_SIG_PACKAGE_OPTIONAL : Z).
Context (_alpm_filecache_setup : world -> string * world).
Context (_alpm_filecache_find : world -> option string -> option string).

Let fetch_pkgurl :=
  alpm_fetch_pkgurl ALPM_SIG_PACKAGE ALPM_SIG_PACKAGE_OPTIONAL
    _alpm_filecache_setup _alpm_filecache_find.

Let find_url := filecache_find_url _alpm_filecache_find.

(** C9.  When the URL has a slash, the name after its last slash is not
    empty and the cache has a file of that name, [alpm_fetch_pkgurl]
    returns the path of that file and hands no payload to
    [_alpm_download]: neither the package nor its signature is
    downloaded, whatever the signature level of the handle is. *)
Theorem cache_hit_downloads_nothing :
  forall h pkg sig url w cachedir w0 path,
    _alpm_filecache_setup w = (cachedir, w0) ->
    CString.strrchr url CString.slash <> None ->
    get_filename url <> "" ->
    _alpm_filecache_find w0 (Some (get_filename url)) = Some path ->
    fetch_pkgurl h pkg sig url w = (Some path, [], w0).
Proof.
  intros h pkg sig url w cachedir w0 path Hsetup Hslash Hname Hfind.
  assert (Hurl : find_url w0 url = Some path).
  { unfold find_url, filecache_find_url. unfold get_filename in *.
    destruct (CString.strrchr url CString.slash) as [r |] eqn:Hr;
      [| congruence].
    destruct (strrchr_starts _ _ _ Hr) as [rest ->].
    destruct (String.eqb_spec rest ""); [congruence | exact Hfind]. }
  unfold fetch_pkgurl, alpm_fetch_pkgurl. rewrite Hsetup.
  fold find_url. rewrite Hurl. reflexivity.
Qed.

(** What [alpm_fetch_pkgurl] does after the package, for every outcome of
    the two downloads.  After a cache miss, when the download of the
    package returns 0 and has stored a URL pointer, the signature level has
    the package bit and the cache has no file named after the URL it reads
    with [.sig] appended, [alpm_fetch_pkgurl] hands a second payload to
    [_alpm_download], with [force], [signature] and [trust_remote_name]
    set, [max_size] 16 KiB and [errors_ok] set exactly when the signature
    level has the optional bit.  The URL of that payload is what the freed
    memory behind the pointer reads as, with [.sig] appended.  Whatever the
    second download returns, the function returns what the cache holds
    under the name of the package file; when the download returns -1 and
    [errors_ok] is off, the last thing it does before that lookup is to log
    a warning. *)
Lemma signature_payload_after_package :
  forall h pkg sig url w cachedir w0 final_file ptr pp w1,
    _alpm_filecache_setup w = (cachedir, w0) ->
    find_url w0 url = None ->
    _alpm_download h (d_env pkg) (d_transfer pkg) (d_uninit pkg) true true
      cachedir (pkgurl_payload url) w0
    = (0, final_file, Some ptr, pp, w1) ->
    Z.land (siglevel h) ALPM_SIG_PACKAGE <> 0 ->
    let w1' := _alpm_log ALPM_LOG_DEBUG "successfully downloaded %s\n" w1 in
    let sig_url := d_freed pkg (held ptr) +:+ ".sig" in
    find_url w1' sig_url = None ->
    let sp := sig_payload ALPM_SIG_PACKAGE_OPTIONAL h sig_url in
    (fileurl sp = Some sig_url
     /\ force sp = true /\ signature sp = true
     /\ trust_remote_name sp = true
     /\ max_size sp = 16 * 1024
     /\ errors_ok sp
        = negb (Z.land (siglevel h) ALPM_SIG_PACKAGE_OPTIONAL =? 0))
    /\ forall sret sfile surl sp' w2,
        _alpm_download h (d_env sig) (d_transfer sig) (d_uninit sig) true
          false cachedir sp w1' = (sret, sfile, surl, sp', w2) ->
        exists w3,
          fetch_pkgurl h pkg sig url w
          = (_alpm_filecache_find w3 final_file,
             [pkgurl_payload url; sp], w3)
          /\ (sret = -1 -> errors_ok sp = false ->
              w3 = _alpm_log ALPM_LOG_WARNING "failed to download %s\n" w2).
Proof.
  intros h pkg sig url w cachedir w0 final_file ptr pp w1
    Hsetup Hmiss Hpkg Hbit w1' sig_url Hsigmiss sp.
  split; [splits; reflexivity |].
  intros sret sfile surl sp' w2 Hsig.
  pose proof (alpm_download_errors_ok h (d_env sig) (d_transfer sig)
                (d_uninit sig) true false cachedir sp w1') as Hok.
  rewrite Hsig in Hok. cbn [fst snd] in Hok.
  subst w1' sp sig_url. unfold find_url in *.
  unfold fetch_pkgurl, alpm_fetch_pkgurl. rewrite Hsetup, Hmiss, Hpkg.
  cbn [Z.eqb].
  replace (Z.land (siglevel h) ALPM_SIG_PACKAGE =? 0) with false
    by (symmetry; apply Z.eqb_neq; exact Hbit).
  cbn [negb andb]. rewrite Hsigmiss, Hsig.
  eexists. split; [reflexivity |].
  intros -> Hoff. rewrite Hok, Hoff. reflexivity.
Qed.

End FetchPkgurlProperties.

(** A cache directory [/cache/] whose files are those on disk, and the
    bits 1 and 2 for the signature policy. *)
Definition setup_cache (w : world) : string * world := ("/cache/", w).

Definition find_in_cache (w : world) (name : option string) : option string :=
  match name with
  | Some n =>
      match w_fs w !! ("/cache/" +:+ n) with
      | Some _ => Some ("/cache/" +:+ n)
      | None => None
      end
  | None => None
  end.

Definition handle_sig_required : alpm_handle :=
  {| dlcb := true; fetchcb := None; siglevel := 1;
     disable_dl_timeout := false; parallel_downloads := 5 |}.

Definition answers_pkg : download_answers :=
  {| d_env := env_ok;
     d_transfer :=
       {| t_steps :=
            [libcurl (curl_header "HTTP/1.1 200 OK" 200);
             libcurl (curl_write 4096);
             libcurl (curl_progress 4096 4096)];
          t_result := CURLE_OK;
          t_info :=
            {| CURLINFO_FILETIME := 77;
               CURLINFO_CONTENT_LENGTH_DOWNLOAD := 4096;
               CURLINFO_SIZE_DOWNLOAD := 4096;
               CURLINFO_CONDITION_UNMET := 0;
               CURLINFO_EFFECTIVE_URL := "http://m/foo.pkg" |} |};
     d_uninit := 0;
     d_freed := fun s => s |}.

Definition answers_sig_missing : download_answers :=
  {| d_env := env_ok;
     d_transfer :=
       {| t_steps := [libcurl (curl_header "HTTP/1.1 404 Not Found" 404)];
          t_result := CURLE_OK;
          t_info := info_none |};
     d_uninit := 0;
     d_freed := fun s => s |}.

Definition world_pkg_cached : world :=
  set_w_fs {[ "/cache/foo.pkg" := mk_stat 4096 77 ]} world_zero.

Lemma cache_hit_downloads_nothing_witness :
  alpm_fetch_pkgurl 1 2 setup_cache find_in_cache handle_sig_required
    answers_pkg answers_sig_missing "http://m/foo.pkg" world_pkg_cached
  = (Some "/cache/foo.pkg", [], world_pkg_cached).
Proof.
  apply (cache_hit_downloads_nothing 1 2 setup_cache find_in_cache
           handle_sig_required answers_pkg answers_sig_missing
           "http://m/foo.pkg" world_pkg_cached "/cache/" world_pkg_cached
           "/cache/foo.pkg");
    [reflexivity | vm_compute; discriminate | vm_compute; discriminate
    | reflexivity].
Defined.

(** The same download when the allocator has reused the block that held
    the effective URL by the time [alpm_fetch_pkgurl] reads it: the read
    gives an empty string. *)
Definition answers_pkg_reused : download_answers :=
  {| d_env := d_env answers_pkg; d_transfer := d_transfer answers_pkg;
     d_uninit := d_uninit answers_pkg;
     d_freed := fun _ => "" |}.

(** C5, where the code departs from it.  The URL that [alpm_fetch_pkgurl]
    appends [.sig] to is read through the pointer that
    [curl_download_internal] stored in [final_url], after
    [curl_easy_cleanup] has freed the memory it points to.  The package
    comes from [http://m/foo.pkg], which is also its effective URL, and is
    stored in the cache; the handle asks for package signatures; the read
    of the freed block gives an empty string.  The second payload is then
    the signature payload the claim describes but for its URL, which is
    [.sig] and not [http://m/foo.pkg.sig]; its download fails, a warning is
    logged and the path of the package is returned. *)
Theorem signature_url_read_after_free :
  CURLINFO_EFFECTIVE_URL (t_info (d_transfer answers_pkg_reused))
  = "http://m/foo.pkg"
  /\ let '(path, downloads, w) :=
       alpm_fetch_pkgurl 1 2 setup_cache find_in_cache handle_sig_required
         answers_pkg_reused answers_sig_missing "http://m/foo.pkg"
         world_zero in
     path = Some "/cache/foo.pkg"
     /\ downloads
        = [pkgurl_payload "http://m/foo.pkg";
           sig_payload 2 handle_sig_required ".sig"]
     /\ map fileurl downloads
        <> [Some "http://m/foo.pkg"; Some "http://m/foo.pkg.sig"]
     /\ last (alpm_log w)
        = Some (ALPM_LOG_WARNING, "failed to download %s\n").
Proof.
  vm_compute. splits; try reflexivity. discriminate.
Qed.

(** * Further properties of the engine *)

(** ** File names and hosts *)

(** [s] has no character [c]. *)
Definition no_char (c : ascii) (s : string) : Prop :=
  CString.strrchr s c = None.


(** [strrchr] cuts the string at a [c] that no [c] follows. *)
Lemma strrchr_last :
  forall s c r,
    CString.strrchr s c = Some r ->
    exists pre rest,
      s = pre +:+ String c rest /\ r = String c rest /\ no_char c rest.
Proof.
  induction s as [| a s IH]; intros c r; cbn [CString.strrchr];
    [discriminate |].
  destruct (CString.strrchr s c) as [r' |] eqn:Hrec.
  - intros Heq. inversion Heq; subst.
    destruct (IH c r Hrec) as (pre & rest & -> & -> & Hnone).
    exists (String a pre), rest. auto.
  - destruct (Ascii.eqb_spec a c) as [-> | _]; [| discriminate].
    intros Heq. inversion Heq; subst. exists "", s. auto.
Qed.



Lemma append_assoc :
  forall a b c, (a +:+ b) +:+ c = a +:+ (b +:+ c).
Proof.
  induction a as [| x a IH]; intros b c; [reflexivity |].
  change (String x ((a +:+ b) +:+ c) = String x (a +:+ (b +:+ c))).
  f_equal. apply IH.
Qed.

Lemma append_nil_r : forall a, a +:+ "" = a.
Proof.
  induction a as [| x a IH]; [reflexivity |].
  change (String x (a +:+ "") = String x a). f_equal. exact IH.
Qed.

Lemma get_filename_no_slash :
  forall url, no_char CString.slash (get_filename url).
Proof.
  intros url. unfold get_filename.
  destruct (CString.strrchr url CString.slash) as [r |] eqn:Hr;
    [| exact Hr].
  destruct (strrchr_last _ _ _ Hr) as (pre & rest & -> & -> & Hnone).
  exact Hnone.
Qed.

(** X1.  [get_filename] returns the end of the URL: a string without a
    slash which, put after some directory part that is empty or ends with a
    slash, gives the URL back. *)
Theorem get_filename_is_basename :
  forall url,
    no_char CString.slash (get_filename url)
    /\ exists dir,
        url = dir +:+ get_filename url
        /\ (dir = "" \/ exists d, dir = d +:+ "/").
Proof.
  intros url. split; [apply get_filename_no_slash |].
  unfold get_filename.
  destruct (CString.strrchr url CString.slash) as [r |] eqn:Hr.
  - destruct (strrchr_last _ _ _ Hr) as (pre & rest & -> & -> & Hnone).
    exists (pre +:+ "/"). split; [| right; eauto].
    rewrite append_assoc. reflexivity.
  - exists "". auto.
Qed.

(** X2.  The name the engine takes from the server stays in the download
    directory: whenever the [trust_remote_name] block changes
    [destfile_name], the new name is [localpath] followed by a name
    without a slash.  When [trust_remote_name] is off the payload is not
    touched. *)
Theorem remote_name_stays_in_localpath :
  forall localpath effective_url p,
    let p' := trust_remote_name_block localpath effective_url p in
    (trust_remote_name p = false -> p' = p)
    /\ (destfile_name p' = destfile_name p
        \/ exists name,
            destfile_name p' = Some (localpath +:+ name)
            /\ no_char CString.slash name).
Proof.
  intros localpath effective_url p p'. subst p'.
  unfold trust_remote_name_block. split.
  - intros ->. reflexivity.
  - destruct (trust_remote_name p); [| auto].
    destruct (content_disp_name p) as [name |].
    + right. exists (get_filename name). split.
      * cbn [destfile_name set_destfile_name]. unfold get_fullpath.
        rewrite append_nil_r. reflexivity.
      * apply get_filename_no_slash.
    + destruct (CString.strrchr effective_url CString.slash) as [r |] eqn:Hr;
        [| auto].
      destruct (strrchr_last _ _ _ Hr) as (pre & rest & _ & -> & Hnone).
      break_all; auto;
        (right; exists rest; split; [| exact Hnone];
         cbn [destfile_name set_destfile_name]; unfold get_fullpath;
         rewrite append_nil_r; reflexivity).
Qed.




Lemma strrchr_app_last :
  forall c pre rest,
    no_char c rest ->
    CString.strrchr (pre +:+ String c rest) c = Some (String c rest).
Proof.
  unfold no_char. intros c pre rest Hnone.
  induction pre as [| x pre IH].
  - change (CString.strrchr (String c rest) c = Some (String c rest)).
    cbn [CString.strrchr]. rewrite Hnone, Ascii.eqb_refl. reflexivity.
  - change (CString.strrchr (String x (pre +:+ String c rest)) c
            = Some (String c rest)).
    cbn [CString.strrchr]. rewrite IH. reflexivity.
Qed.

(** X4.  [filecache_find_url] asks the cache for the name after the last
    slash of the URL, and answers [NULL] without asking when the URL has
    no slash or ends with one. *)
Theorem filecache_find_url_basename :
  forall (find : world -> option string -> option string) w,
    (forall url, no_char CString.slash url ->
                 filecache_find_url find w url = None)
    /\ (forall dir, filecache_find_url find w (dir +:+ "/") = None)
    /\ (forall dir name,
           name <> "" -> no_char CString.slash name ->
           filecache_find_url find w (dir +:+ "/" +:+ name)
           = find w (Some name)).
Proof.
  intros find w. unfold filecache_find_url. splits.
  - intros url Hnone. unfold no_char in Hnone. rewrite Hnone. reflexivity.
  - intros dir.
    change (dir +:+ "/") with (dir +:+ String CString.slash "").
    rewrite (strrchr_app_last CString.slash dir "" eq_refl). reflexivity.
  - intros dir name Hname Hnone.
    change (dir +:+ "/" +:+ name) with (dir +:+ String CString.slash name).
    rewrite (strrchr_app_last CString.slash dir name Hnone).
    destruct (String.eqb_spec name ""); [contradiction | reflexivity].
Qed.

(** ** The sinks *)

(** The characters that end the file name of a [Content-Disposition]
    header. *)
Definition cd_enders : list ascii := [";"%char; "013"%char; "010"%char].

Definition quote : string := String "034"%char "".

Lemma strcspn_app :
  forall a b reject,
    CString.strcspn a reject = String.length a ->
    CString.strcspn (a +:+ b) reject
    = (String.length a + CString.strcspn b reject)%nat.
Proof.
  induction a as [| x a IH]; intros b reject Ha; [reflexivity |].
  change (CString.strcspn (String x (a +:+ b)) reject
          = S (String.length a + CString.strcspn b reject)).
  cbn [CString.strcspn String.length] in *.
  destruct (existsb (Ascii.eqb x) reject); [discriminate |].
  f_equal. apply IH. congruence.
Qed.

Lemma take_app :
  forall a b, CString.take (String.length a) (a +:+ b) = a.
Proof.
  induction a as [| x a IH]; intros b.
  - destruct b; reflexivity.
  - change (String x (CString.take (String.length a) (a +:+ b))
            = String x a).
    f_equal. apply IH.
Qed.

Lemma drop_app :
  forall a b, CString.drop (String.length a) (a +:+ b) = b.
Proof.
  induction a as [| x a IH]; intros b.
  - destruct b; reflexivity.
  - change (CString.drop (String.length a) (a +:+ b) = b). apply IH.
Qed.

(** X5.  The file name of a [Content-Disposition] header loses the quotes
    around it: for a name without semicolon, carriage return or line feed,
    the header sink stores the name itself, whether the header gives it
    between double quotes or bare (a bare name must not both begin and end
    with a double quote).  The sink also records the response code. *)
Theorem content_disposition_unquoted :
  forall name code p,
    CString.strcspn name cd_enders = String.length name ->
    (let line :=
       "Content-Disposition: attachment; filename=" +:+ quote +:+ name
       +:+ quote +:+ String "013"%char (String "010"%char "") in
     content_disp_name (dload_parseheader_cb line code p) = Some name
     /\ respcode (dload_parseheader_cb line code p) = code)
    /\ (starts_with_quote name = false ->
        let line :=
          "Content-Disposition: attachment; filename=" +:+ name
          +:+ String "013"%char (String "010"%char "") in
        content_disp_name (dload_parseheader_cb line code p) = Some name).
Proof.
  intros name code p Hname.
  set (ending := String "013"%char (String "010"%char "")).
  assert (Hvalue_quoted :
            content_disposition_value
              (String "034"%char (name +:+ String "034"%char ending))
            = name).
  { unfold content_disposition_value. fold cd_enders.
    assert (Hn : CString.strcspn
                   (String "034"%char (name +:+ String "034"%char ending))
                   cd_enders
                 = S (S (String.length name))).
    { cbn [CString.strcspn]. cbn [cd_enders existsb Ascii.eqb Bool.eqb orb].
      f_equal. rewrite strcspn_app by exact Hname.
      subst ending. cbn. lia. }
    rewrite Hn.
    cbn [starts_with_quote Ascii.eqb Bool.eqb andb Nat.sub CString.drop].
    rewrite Nat.sub_0_r, drop_app.
    cbn [starts_with_quote Ascii.eqb Bool.eqb andb].
    destruct (String.length name) eqn:Hlen.
    - destruct name; [reflexivity | discriminate].
    - rewrite <- Hlen. apply take_app. }
  assert (Hvalue_bare :
            starts_with_quote name = false ->
            content_disposition_value (name +:+ ending) = name).
  { intros Hbare. unfold content_disposition_value. fold cd_enders.
    rewrite strcspn_app by exact Hname.
    change (CString.strcspn ending cd_enders) with O.
    rewrite Nat.add_0_r.
    replace (starts_with_quote (name +:+ ending))
      with false by (destruct name; [reflexivity | exact (eq_sym Hbare)]).
    cbn [andb]. apply take_app. }
  unfold dload_parseheader_cb. split; [| intros Hbare]; cbv zeta.
  - change (CString.strstr _ "filename=")
      with (Some ("filename="
                  +:+ String "034"%char (name +:+ String "034"%char ending))).
    change (_alpm_raw_ncmp _ _ _) with 0.
    cbn [Z.eqb]. change (CString.drop _ _)
      with (String "034"%char (name +:+ String "034"%char ending)).
    rewrite Hvalue_quoted.
    cbn [respcode set_content_disp_name].
    destruct (Z.eqb_spec (respcode p) code); cbn; auto.
  - replace (CString.strstr
               ("Content-Disposition: attachment; filename=" +:+ name
                +:+ ending) "filename=")
      with (Some ("filename=" +:+ (name +:+ ending)))
      by (destruct name; reflexivity).
    change (_alpm_raw_ncmp _ _ _) with 0.
    cbn [Z.eqb]. change (CString.drop _ _) with (name +:+ ending).
    rewrite (Hvalue_bare Hbare).
    cbn [respcode set_content_disp_name].
    destruct (respcode p =? code); reflexivity.
Qed.

Lemma content_disposition_unquoted_witness :
  content_disp_name
    (dload_parseheader_cb
       ("Content-Disposition: attachment; filename=" +:+ quote
        +:+ "real.pkg" +:+ quote
        +:+ String "013"%char (String "010"%char ""))
       200 payload_zero)
  = Some "real.pkg".
Proof.
  apply (proj1 (content_disposition_unquoted "real.pkg" 200 payload_zero
                  eq_refl)).
Defined.

Ltac sink_case :=
  record_cbn; unfold ABORT_OVER_MAXFILESIZE in *; splits;
  try solve [ auto
            | intros; first [discriminate | contradiction | lia]
            | intros; split; intros;
              first [discriminate | contradiction | lia | auto] ].

(** X6.  What one call of the progress sink can do.  It returns 0 or 1; it
    touches neither the files nor the error of the handle; once the
    interrupt flag is set it leaves the flag as it is and calls nobody; for
    a payload that is not a signature and whose response code is below 300
    it returns 1 exactly when the flag is set when it returns; and it
    either calls nobody and leaves [prevprogress] alone, or hands the front
    end one [DOWNLOAD_PROGRESS] event with the counters of libcurl, returns
    0 and sets [prevprogress] to [initial_size + dlnow]. *)
Theorem progress_sink_outcome :
  forall h dltotal dlnow p w,
    let '(r, p', w') := dload_progress_cb h dltotal dlnow p w in
    (r = 0 \/ r = 1)
    /\ w_fs w' = w_fs w /\ pm_errno w' = pm_errno w
    /\ (dload_interrupted w <> 0 ->
        dload_interrupted w' = dload_interrupted w
        /\ dlcb_calls w' = dlcb_calls w)
    /\ (signature p = false -> respcode p < 300 ->
        (r = 1 <-> dload_interrupted w' <> 0))
    /\ (dlcb_calls w' = dlcb_calls w /\ prevprogress p' = prevprogress p
        \/ dlcb_calls w'
           = dlcb_calls w
             ++ [(remote_name p, ALPM_DOWNLOAD_PROGRESS dlnow dltotal)]
           /\ prevprogress p' = initial_size p + dlnow
           /\ r = 0 /\ dlcb h = true).
Proof.
  intros h dltotal dlnow p w. unfold dload_progress_cb.
  destruct (signature p) eqn:Hsig; [sink_case |].
  destruct (Z.leb_spec 300 (respcode p)); [sink_case |].
  destruct (Z.eqb_spec (dload_interrupted w) 0) as [Hflag | Hflag];
    cbn [negb]; [| sink_case].
  destruct ((dlnow <? 0) || (dltotal <=? 0) || (dltotal <? dlnow));
    [sink_case |].
  destruct (negb (max_size p =? 0)
            && (max_size p <? initial_size p + dlnow)); [sink_case |].
  destruct (dlcb h) eqn:Hdlcb; cbn [negb]; [| sink_case].
  destruct (prevprogress p =? initial_size p + dltotal); sink_case.
Qed.

(** X7.  A report that the transfer is complete is handed on once: after
    the sink has passed a report with [dlnow = dltotal] to the front end,
    the same report again returns 0, calls nobody and changes nothing. *)
Theorem progress_sink_reports_completion_once :
  forall h total p w p' w',
    dload_progress_cb h total total p w = (0, p', w') ->
    dlcb_calls w' <> dlcb_calls w ->
    dload_progress_cb h total total p' w' = (0, p', w').
Proof.
  intros h total p w p' w'. unfold dload_progress_cb.
  destruct (signature p) eqn:Hsig.
  { intros Heq; inversion Heq; subst; contradiction. }
  destruct (300 <=? respcode p) eqn:Hcode.
  { intros Heq; inversion Heq; subst; contradiction. }
  destruct (dload_interrupted w =? 0) eqn:Hflag; cbn [negb];
    [| discriminate].
  destruct ((total <? 0) || (total <=? 0) || (total <? total)) eqn:Hbogus.
  { intros Heq; inversion Heq; subst; contradiction. }
  destruct (negb (max_size p =? 0)
            && (max_size p <? initial_size p + total)) eqn:Hmax;
    [discriminate |].
  destruct (dlcb h) eqn:Hdlcb; cbn [negb].
  2: { intros Heq; inversion Heq; subst; contradiction. }
  destruct (prevprogress p =? initial_size p + total).
  { intros Heq; inversion Heq; subst; contradiction. }
  intros Heq _. inversion Heq; subst; clear Heq. record_cbn.
  rewrite Hsig, Hcode, Hflag. cbn [negb]. rewrite Hmax.
  rewrite Z.eqb_refl. reflexivity.
Qed.

Lemma progress_sink_reports_completion_once_witness :
  let '(_, p', w') :=
    dload_progress_cb handle_dlcb 1024 1024 payload_1k world_zero in
  dload_progress_cb handle_dlcb 1024 1024 p' w' = (0, p', w').
Proof.
  apply (progress_sink_reports_completion_once handle_dlcb 1024 payload_1k
           world_zero); [reflexivity | discriminate].
Defined.

(** X8.  [prevprogress] counts the bytes that were there before the
    transfer, and [_alpm_dload_payload_reset_for_retry] adds it to
    [initial_size]: after the sink has passed on a report of [dlnow] bytes,
    a reset for retry leaves [initial_size] at twice its old value plus
    [dlnow], with [prevprogress] back to 0; a second reset changes nothing
    more. *)
Theorem reset_for_retry_after_progress :
  forall h dltotal dlnow p w p' w',
    dload_progress_cb h dltotal dlnow p w = (0, p', w') ->
    dlcb_calls w' <> dlcb_calls w ->
    let q := _alpm_dload_payload_reset_for_retry p' in
    initial_size q = 2 * initial_size p + dlnow
    /\ prevprogress q = 0
    /\ _alpm_dload_payload_reset_for_retry q = q.
Proof.
  intros h dltotal dlnow p w p' w' Hcall Hevent.
  assert (Hfields : prevprogress p' = initial_size p + dlnow
                    /\ initial_size p' = initial_size p).
  { revert Hcall Hevent. unfold dload_progress_cb.
    break_all; intros Heq; inversion Heq; subst; record_cbn;
      intros Hevent; try contradiction; split; reflexivity. }
  destruct Hfields as [Hprev Hinit].
  cbv zeta. unfold _alpm_dload_payload_reset_for_retry. record_cbn.
  rewrite Hprev, Hinit. splits; [lia | reflexivity |].
  rewrite Z.add_0_r. reflexivity.
Qed.

Lemma reset_for_retry_after_progress_witness :
  initial_size
    (_alpm_dload_payload_reset_for_retry
       (snd (fst (dload_progress_cb handle_dlcb 1024 512
                    (set_initial_size 100 payload_1k) world_zero))))
  = 712.
Proof.
  apply (reset_for_retry_after_progress handle_dlcb 1024 512
           (set_initial_size 100 payload_1k) world_zero _ _ eq_refl);
    discriminate.
Defined.

Lemma progress_sink_outcome_witness :
  fst (fst (dload_progress_cb handle_dlcb 1024 512 payload_1k world_zero))
  = 1
  <-> dload_interrupted
        (snd (dload_progress_cb handle_dlcb 1024 512 payload_1k world_zero))
      <> 0.
Proof.
  pose proof (progress_sink_outcome handle_dlcb 1024 512 payload_1k
                world_zero) as H.
  destruct (dload_progress_cb handle_dlcb 1024 512 payload_1k world_zero)
    as [[r p'] w'].
  apply H; reflexivity.
Defined.

(** ** The single-transfer driver, from entry to return *)

Definition ret_single (ret : Z) : Prop := ret = -1 \/ ret = 0 \/ ret = 1.

Lemma utimes_long_calls :
  forall path seconds w,
    dlcb_calls (utimes_long path seconds w) = dlcb_calls w.
Proof. intros. unfold utimes_long. break_all; reflexivity. Qed.

Lemma cleanup_outcome :
  forall env want_file l p w,
    ret_single (l_ret l) ->
    let '(ret, final_file, p', w') :=
      curl_download_cleanup env want_file l p w in
    ret_single ret
    /\ dlcb_calls w'
       = dlcb_calls w
         ++ [(remote_name p', ALPM_DOWNLOAD_COMPLETED (l_bytes_dl l) ret)]
    /\ (final_file <> None -> ret = 0 /\ want_file = true)
    /\ curl p' = None.
Proof.
  intros env want_file l p w Hret. unfold curl_download_cleanup, ret_single.
  set (w1 := match l_localf l with
             | Some _ => utimes_long (tempfile_name p) (l_remote_time l) w
             | None => w
             end).
  assert (Hcalls : dlcb_calls w1 = dlcb_calls w).
  { subst w1. destruct (l_localf l);
      [apply utimes_long_calls | reflexivity]. }
  clearbody w1.
  destruct (Z.eqb_spec (l_ret l) 0) as [H0 | H0].
  - break_all; record_cbn; rewrite ?Hcalls; splits;
      try solve [ auto | intros; split; auto; congruence
                | intros; congruence | intros; contradiction ].
  - break_all; record_cbn; rewrite ?Hcalls; splits;
      try solve [ auto | intros; congruence | intros; contradiction ].
Qed.

Lemma names_outcome :
  forall env uninit localpath p w,
    match curl_download_names env uninit localpath p w with
    | dl_return ret p' w' =>
        curl_gethost (default "" (fileurl p)) HOSTNAME_SIZE = None
        /\ ret = -1 /\ pm_errno w' = ALPM_ERR_SERVER_BAD_URL
        /\ dlcb_calls w' = dlcb_calls w /\ w_fs w' = w_fs w
        /\ curl p' = Some []
    | dl_cleanup l p' w' =>
        curl_gethost (default "" (fileurl p)) HOSTNAME_SIZE <> None
        /\ l_ret l = -1 /\ l_final_url l = None
    | dl_next _ _ _ =>
        curl_gethost (default "" (fileurl p)) HOSTNAME_SIZE <> None
    end.
Proof.
  intros env uninit localpath p w. unfold curl_download_names. record_cbn.
  destruct (curl_gethost (default "" (fileurl p)) HOSTNAME_SIZE) eqn:Hhost.
  - break_all; splits; auto; discriminate.
  - break_all; splits; auto.
Qed.

Lemma open_outcome :
  forall h env uninit localf p w,
    match curl_download_open h env uninit localf p w with
    | dl_return _ _ _ => False
    | dl_cleanup l _ _ => (l_ret l = -1 \/ l_ret l = 0) /\ l_final_url l = None
    | dl_next _ _ _ => True
    end.
Proof.
  intros h env uninit localf p w. unfold curl_download_open.
  destruct (curl_set_handle_opts h (env_useragent env) p w) as [p1 w1].
  break_all; auto.
Qed.

Lemma finish_outcome :
  forall info uninit want_url localpath curlerr localf p w,
    let '(l, _, _) :=
      curl_download_finish info uninit want_url localpath curlerr localf p w
    in
    ret_single (l_ret l) /\ (l_final_url l <> None -> want_url = true).
Proof.
  intros. unfold curl_download_finish, ret_single.
  break_all; record_cbn; split; auto; intros; congruence.
Qed.

(** X9.  The outcomes of the single-transfer driver.  When the URL has no
    host it returns -1 with the error [ALPM_ERR_SERVER_BAD_URL] at once:
    the front end is told nothing, no file is touched, and the easy handle
    it created stays in the payload.  On every other path the driver calls
    [handle->dlcb] without testing it, so the rest is about a handle that
    has a download callback.  For such a handle the driver returns -1, 0
    or 1; for a URL with a host the last thing the front end is told is
    the [DOWNLOAD_COMPLETED] event, under the name the payload ends with
    and with the value the driver returns, and the easy handle is gone; a
    name is stored through [final_file] only by a call that returns 0 to a
    caller that asked for it, and a URL pointer through [final_url] only
    for a caller that asked for it. *)
Theorem single_driver_outcome :
  forall h env t uninit want_file want_url localpath p w,
    let '(ret, final_file, final_url, p', w') :=
      curl_download_internal h env t uninit want_file want_url localpath p w
    in
    (curl_gethost (default "" (fileurl p)) HOSTNAME_SIZE = None ->
     ret = -1 /\ pm_errno w' = ALPM_ERR_SERVER_BAD_URL
     /\ dlcb_calls w' = dlcb_calls w /\ w_fs w' = w_fs w
     /\ curl p' = Some [])
    /\ (dlcb h = true ->
        ret_single ret
        /\ (curl_gethost (default "" (fileurl p)) HOSTNAME_SIZE <> None ->
            (exists total,
                last (dlcb_calls w')
                = Some (remote_name p', ALPM_DOWNLOAD_COMPLETED total ret))
            /\ curl p' = None)
        /\ (final_file <> None -> ret = 0 /\ want_file = true)
        /\ (final_url <> None -> want_url = true)).
Proof.
  intros h env t uninit want_file want_url localpath p w.
  assert (Hall :
    let '(ret, final_file, final_url, p', w') :=
      curl_download_internal h env t uninit want_file want_url localpath p w
    in
    ret_single ret
    /\ (curl_gethost (default "" (fileurl p)) HOSTNAME_SIZE = None ->
        ret = -1 /\ pm_errno w' = ALPM_ERR_SERVER_BAD_URL
        /\ dlcb_calls w' = dlcb_calls w /\ w_fs w' = w_fs w
        /\ curl p' = Some [])
    /\ (curl_gethost (default "" (fileurl p)) HOSTNAME_SIZE <> None ->
        (exists total,
            last (dlcb_calls w')
            = Some (remote_name p', ALPM_DOWNLOAD_COMPLETED total ret))
        /\ curl p' = None)
    /\ (final_file <> None -> ret = 0 /\ want_file = true)
    /\ (final_url <> None -> want_url = true)).
  { unfold curl_download_internal.
    assert (Hcleanup :
      forall l q v,
        ret_single (l_ret l) ->
        (l_final_url l <> None -> want_url = true) ->
        curl_gethost (default "" (fileurl p)) HOSTNAME_SIZE <> None ->
        let '(ret, final_file, final_url, p', w') :=
          let '(ret, final_file, payload, w0) :=
            curl_download_cleanup env want_file l q v in
          (ret, final_file, option_map mk_freed_url (l_final_url l), payload,
           w0) in
        ret_single ret
        /\ (curl_gethost (default "" (fileurl p)) HOSTNAME_SIZE = None ->
            ret = -1 /\ pm_errno w' = ALPM_ERR_SERVER_BAD_URL
            /\ dlcb_calls w' = dlcb_calls w /\ w_fs w' = w_fs w
            /\ curl p' = Some [])
        /\ (curl_gethost (default "" (fileurl p)) HOSTNAME_SIZE <> None ->
            (exists total,
                last (dlcb_calls w')
                = Some (remote_name p', ALPM_DOWNLOAD_COMPLETED total ret))
            /\ curl p' = None)
        /\ (final_file <> None -> ret = 0 /\ want_file = true)
        /\ (final_url <> None -> want_url = true)).
    { intros l q v Hret Hurl Hhost.
      pose proof (cleanup_outcome env want_file l q v Hret) as Hc.
      destruct (curl_download_cleanup env want_file l q v)
        as [[[ret ff] q'] v'].
      destruct Hc as (Hr & Hcalls & Hff & Hcurl).
      splits; auto; [intros; contradiction | |].
      - intros _. split; [| assumption].
        exists (l_bytes_dl l). rewrite Hcalls. apply last_snoc.
      - destruct (l_final_url l); [intros _; apply Hurl; discriminate |].
        intros Hne. contradiction. }
    pose proof (names_outcome env uninit localpath p w) as Hnames.
    destruct (curl_download_names env uninit localpath p w)
      as [ret0 p0 w0 | l0 p0 w0 | lf0 p0 w0].
    - destruct Hnames as (Hhost & -> & Herr & Hcalls & Hfs & Hcurl).
      unfold ret_single. splits; auto; intros; contradiction.
    - destruct Hnames as (Hhost & Hret & Hurl).
      apply Hcleanup; [unfold ret_single; auto | | assumption].
      rewrite Hurl. intros; contradiction.
    - pose proof (open_outcome h env uninit lf0 p0 w0) as Hopen.
      destruct (curl_download_open h env uninit lf0 p0 w0)
        as [ret1 p1 w1 | l1 p1 w1 | lf1 p1 w1].
      + contradiction.
      + destruct Hopen as (Hret & Hurl).
        apply Hcleanup; [unfold ret_single; tauto | | assumption].
        rewrite Hurl. intros; contradiction.
      + destruct (curl_easy_perform h (env_now env) (t_steps t) (t_result t)
                    lf1 p1 w1) as [[[curlerr lf2] p2] w2].
        pose proof (finish_outcome (t_info t) uninit want_url localpath
                      curlerr lf2 p2 w2) as Hfin.
        destruct (curl_download_finish (t_info t) uninit want_url localpath
                    curlerr lf2 p2 w2) as [[l3 p3] w3].
        destruct Hfin as (Hret & Hurl).
        apply Hcleanup; assumption. }
  destruct (curl_download_internal h env t uninit want_file want_url
              localpath p w) as [[[[ret ff] fu] p'] w'].
  tauto.
Qed.

(** A payload that names one URL, and a transfer that brings 438 bytes. *)
Definition payload_url (url : string) : dload_payload :=
  {| tempfile_openmode := None; remote_name := None; tempfile_name := None;
     destfile_name := None; content_disp_name := None;
     fileurl := Some url; filepath := None; servers := [];
     respcode := 0; initial_size := 0; max_size := 0; prevprogress := 0;
     force := false; allow_resume := false; errors_ok := false;
     unlink_on_fail := false; trust_remote_name := false; signature := false;
     curl := None; error_buffer := ""; localf := None |}.

Definition transfer_438 (url : string) : transfer :=
  {| t_steps :=
       [libcurl (curl_header "HTTP/1.1 200 OK" 200);
        libcurl (curl_write 438);
        libcurl (curl_progress 438 438)];
     t_result := CURLE_OK;
     t_info :=
       {| CURLINFO_FILETIME := 77; CURLINFO_CONTENT_LENGTH_DOWNLOAD := 438;
          CURLINFO_SIZE_DOWNLOAD := 438; CURLINFO_CONDITION_UNMET := 0;
          CURLINFO_EFFECTIVE_URL := url |} |}.

Lemma single_driver_outcome_witness :
  (let '(ret, _, _, p', w') :=
     curl_download_internal handle_dlcb env_ok (transfer_438 "no-host") 0
       true true "/cache/" (payload_url "no-host") world_zero in
   ret = -1 /\ dlcb_calls w' = [] /\ curl p' = Some [])
  /\ (let '(ret, final_file, _, p', w') :=
        curl_download_internal handle_dlcb env_ok
          (transfer_438 "http://m/foo.pkg") 0 true true "/cache/"
          (payload_url "http://m/foo.pkg") world_zero in
      (exists total,
          last (dlcb_calls w')
          = Some (remote_name p', ALPM_DOWNLOAD_COMPLETED total ret))
      /\ (final_file <> None -> ret = 0)).
Proof.
  split.
  - pose proof (single_driver_outcome handle_dlcb env_ok
                  (transfer_438 "no-host") 0 true true "/cache/"
                  (payload_url "no-host") world_zero) as H.
    destruct (curl_download_internal handle_dlcb env_ok
                (transfer_438 "no-host") 0 true true "/cache/"
                (payload_url "no-host") world_zero)
      as [[[[ret ff] fu] p'] w'].
    destruct H as (Hbad & _).
    destruct (Hbad eq_refl) as (Hret & _ & Hcalls & _ & Hcurl).
    auto.
  - pose proof (single_driver_outcome handle_dlcb env_ok
                  (transfer_438 "http://m/foo.pkg") 0 true true "/cache/"
                  (payload_url "http://m/foo.pkg") world_zero) as H.
    destruct (curl_download_internal handle_dlcb env_ok
                (transfer_438 "http://m/foo.pkg") 0 true true "/cache/"
                (payload_url "http://m/foo.pkg") world_zero)
      as [[[[ret ff] fu] p'] w'].
    destruct H as (_ & Hcb).
    destruct (Hcb eq_refl) as (_ & Hgood & Hff & _).
    split; [apply Hgood; discriminate | intros Hne; apply Hff, Hne].
Defined.

(** ** The completion check of the parallel driver *)

(** What a return of the completion check for the handle [id] says, given
    the [errors_ok] and [signature] bits of its payload and the events the
    front end had seen before. *)
Definition finished_outcome (id : nat) (optional sig : bool)
    (calls : list (option string * alpm_download_event))
    (res : Z * dload_payload * world) : Prop :=
  let '(ret, p', w') := res in
  (ret = -2 \/ ret = -1 \/ ret = 0 \/ ret = 1 \/ ret = 2)
  /\ (optional = true -> ret <> -1)
  /\ (optional = false -> ret <> -2)
  /\ (ret = 2 -> dlcb_calls w' = calls /\ elem_of id (curlm w'))
  /\ (ret <> 2 ->
      ~ elem_of id (curlm w') /\ curl p' = None /\ fileurl p' = None
      /\ if sig then dlcb_calls w' = calls
         else exists total,
             dlcb_calls w'
             = calls
               ++ [(remote_name p',
                    ALPM_DOWNLOAD_COMPLETED total
                      (if ret =? -2 then -1 else ret))]).

Lemma remove_handle_gone :
  forall id w, ~ elem_of id (curlm (curl_multi_remove_handle id w)).
Proof.
  intros id w. unfold curl_multi_remove_handle. record_cbn.
  rewrite list_elem_of_filter. tauto.
Qed.

Lemma finished_cleanup_outcome :
  forall env id l p w,
    ret_single (fl_ret l) ->
    finished_outcome id (errors_ok p) (signature p) (dlcb_calls w)
      (curl_multi_finished_cleanup env id l p w).
Proof.
  intros env id l p w Hret.
  unfold finished_outcome, curl_multi_finished_cleanup, ret_single in *.
  destruct l as [r rt bd]. record_cbn.
  set (w1 := match localf p with
             | Some _ => utimes_long (tempfile_name p) rt w
             | None => w
             end).
  assert (Hcalls : dlcb_calls w1 = dlcb_calls w).
  { subst w1. destruct (localf p);
      [apply utimes_long_calls | reflexivity]. }
  clearbody w1. rewrite <- Hcalls. clear Hcalls.
  destruct Hret as [-> | [-> | ->]]; cbn [Z.eqb];
  break_all; record_cbn;
    (split; [lia |]);
    (split; [intros; try discriminate; lia |]);
    (split; [intros; try discriminate; lia |]);
    (split; [intros; exfalso; lia |]);
    intros _;
    (split; [apply remove_handle_gone |]);
    (split; [reflexivity |]);
    (split; [reflexivity |]);
    try reflexivity;
    eexists; reflexivity.
Qed.

Lemma retry_next_server_frame :
  forall env id p w,
    let '(r, p', w') := curl_multi_retry_next_server env id p w in
    errors_ok p' = errors_ok p /\ signature p' = signature p
    /\ dlcb_calls w' = dlcb_calls w
    /\ (r = 0 -> elem_of id (curlm w')).
Proof.
  intros env id p w. unfold curl_multi_retry_next_server. record_cbn.
  break_all; splits; auto; try discriminate;
    intros _; unfold curl_multi_add_handle; record_cbn; apply list_elem_of_here.
Qed.

Lemma retry_or_cleanup_outcome :
  forall env id p w,
    finished_outcome id (errors_ok p) (signature p) (dlcb_calls w)
      (retry_or_cleanup env id p w).
Proof.
  intros env id p w. unfold retry_or_cleanup.
  pose proof (retry_next_server_frame env id p w) as Hretry.
  destruct (curl_multi_retry_next_server env id p w) as [[r p1] w1].
  destruct Hretry as (Hok & Hsig & Hcalls & Hin).
  destruct (Z.eqb_spec r 0) as [-> | Hr].
  - unfold finished_outcome. splits; auto; try discriminate.
    intros Hne. contradiction.
  - rewrite <- Hok, <- Hsig, <- Hcalls.
    apply finished_cleanup_outcome. unfold ret_single. auto.
Qed.

Lemma trust_remote_name_block_bits :
  forall localpath url p,
    errors_ok (trust_remote_name_block localpath url p) = errors_ok p
    /\ signature (trust_remote_name_block localpath url p) = signature p.
Proof.
  intros. unfold trust_remote_name_block. break_all; auto.
Qed.

Ltac finished_case :=
  lazymatch goal with
  | |- finished_outcome _ _ _ _ (retry_or_cleanup ?e ?i ?q ?v) =>
      let H := fresh in
      pose proof (retry_or_cleanup_outcome e i q v) as H;
      record_cbn; exact H
  | |- finished_outcome _ _ _ _ (curl_multi_finished_cleanup ?e ?i ?l ?q ?v) =>
      let H := fresh in
      pose proof (finished_cleanup_outcome e i l q v) as H;
      record_cbn; apply H; unfold ret_single; auto
  end.

(** X10.  The outcomes of the completion check of the parallel driver for
    the transfer of the easy handle [id].  It returns -2, -1, 0, 1 or 2; -1
    never for an optional payload and -2 never for a required one.  A
    return of 2 (the next mirror is being tried) tells the front end
    nothing and leaves the handle in the multi handle.  Every other return
    takes the handle out of the multi handle, drops the easy handle and the
    URL of the payload, and tells the front end one [DOWNLOAD_COMPLETED]
    event, with the result -1 for both failures, unless the payload is a
    signature, for which the front end is told nothing. *)
Theorem check_finished_outcome :
  forall env id curlerr info localpath p w,
    let '(ret, p', w') :=
      curl_multi_check_finished_download env id curlerr info localpath p w in
    (ret = -2 \/ ret = -1 \/ ret = 0 \/ ret = 1 \/ ret = 2)
    /\ (errors_ok p = true -> ret <> -1)
    /\ (errors_ok p = false -> ret <> -2)
    /\ (ret = 2 -> dlcb_calls w' = dlcb_calls w /\ elem_of id (curlm w'))
    /\ (ret <> 2 ->
        ~ elem_of id (curlm w') /\ curl p' = None /\ fileurl p' = None
        /\ if signature p then dlcb_calls w' = dlcb_calls w
           else exists total,
               dlcb_calls w'
               = dlcb_calls w
                 ++ [(remote_name p',
                      ALPM_DOWNLOAD_COMPLETED total
                        (if ret =? -2 then -1 else ret))]).
Proof.
  intros env id curlerr info localpath p w.
  change (finished_outcome id (errors_ok p) (signature p) (dlcb_calls w)
            (curl_multi_check_finished_download env id curlerr info localpath
               p w)).
  unfold curl_multi_check_finished_download. cbv zeta.
  destruct (trust_remote_name_block_bits localpath
              (CURLINFO_EFFECTIVE_URL info) p) as [Hok Hsig].
  destruct curlerr.
  - destruct (400 <=? respcode p).
    + destruct (errors_ok p) eqn:Heok; cbn [negb]; record_cbn;
        rewrite ?Heok; cbn [negb]; rewrite <- ?Heok; finished_case.
    + destruct ((CURLINFO_CONDITION_UNMET info =? 1)
                && (CURLINFO_SIZE_DOWNLOAD info =? 0)); [finished_case |].
      destruct (negb (CURLINFO_CONTENT_LENGTH_DOWNLOAD info =? -1)
                && negb (CURLINFO_SIZE_DOWNLOAD info =? -1)
                && negb (CURLINFO_SIZE_DOWNLOAD info
                         =? CURLINFO_CONTENT_LENGTH_DOWNLOAD info));
        [finished_case |].
      rewrite <- Hok, <- Hsig. finished_case.
  - finished_case.
  - match goal with |- context [if ?c then _ else _] => destruct c end;
      finished_case.
  - match goal with |- context [if size_is_zero ?f ?v then _ else _] =>
      destruct (size_is_zero f v) end;
    destruct (errors_ok p) eqn:Heok;
      record_cbn; rewrite ?Heok; cbn [negb]; rewrite <- ?Heok; finished_case.
  - match goal with |- context [if size_is_zero ?f ?v then _ else _] =>
      destruct (size_is_zero f v) end;
    destruct (errors_ok p) eqn:Heok;
      record_cbn; rewrite ?Heok; cbn [negb]; rewrite <- ?Heok; finished_case.
Qed.

(** A payload with two mirrors whose transfer from the first one has just
    ended, and a world where its easy handle is in the multi handle. *)
Definition payload_mirrors (code : Z) : dload_payload :=
  {| tempfile_openmode := Some "wb"; remote_name := Some "core.db";
     tempfile_name := Some "/cache/core.db.part";
     destfile_name := Some "/cache/core.db"; content_disp_name := None;
     fileurl := Some "http://a/core.db"; filepath := Some "core.db";
     servers := ["http://a"; "http://b"]; respcode := code;
     initial_size := 0; max_size := 0; prevprogress := 0; force := false;
     allow_resume := false; errors_ok := false; unlink_on_fail := false;
     trust_remote_name := false; signature := false; curl := Some [];
     error_buffer := "";
     localf := Some (mk_FILE "/cache/core.db.part" 0 false) |}.

Definition world_transferring (size flag : Z) : world :=
  set_dload_interrupted flag
    (set_curlm [0%nat]
       (set_w_fs {[ "/cache/core.db.part" := mk_stat size 100 ]} world_zero)).

Definition info_size (size : Z) : transfer_info :=
  {| CURLINFO_FILETIME := 77; CURLINFO_CONTENT_LENGTH_DOWNLOAD := size;
     CURLINFO_SIZE_DOWNLOAD := size; CURLINFO_CONDITION_UNMET := 0;
     CURLINFO_EFFECTIVE_URL := "http://a/core.db" |}.

Lemma check_finished_outcome_witness :
  let '(ret, p', w') :=
    curl_multi_check_finished_download env_ok 0 CURLE_OK (info_size 9)
      "/cache/" (payload_mirrors 404) (world_transferring 9 0) in
  ret = 2 /\ dlcb_calls w' = [] /\ elem_of 0%nat (curlm w').
Proof.
  pose proof (check_finished_outcome env_ok 0 CURLE_OK (info_size 9)
                "/cache/" (payload_mirrors 404) (world_transferring 9 0))
    as H.
  destruct (curl_multi_check_finished_download env_ok 0 CURLE_OK
              (info_size 9) "/cache/" (payload_mirrors 404)
              (world_transferring 9 0)) as [[ret p'] w'] eqn:E.
  assert (Hret : ret = 2) by (vm_compute in E; congruence).
  split; [exact Hret | apply H; exact Hret].
Defined.

(** X11.  A transfer that a callback aborted is never tried on the next
    mirror.  The completion check leaves the mirror list as it is and
    returns the failure (-2 for an optional payload, -1 otherwise).  When
    the abort came from the size limit, [pm_errno] is [ALPM_ERR_LIBCURL]
    whether the payload is optional or not, and the temporary file of the
    payload is removed; otherwise [pm_errno] is left alone. *)
Theorem aborted_transfer_is_final :
  forall env id info localpath p w,
    let '(ret, p', w') :=
      curl_multi_check_finished_download env id CURLE_ABORTED_BY_CALLBACK
        info localpath p w in
    servers p' = servers p
    /\ ret = (if errors_ok p then -2 else -1)
    /\ (dload_interrupted w = ABORT_OVER_MAXFILESIZE ->
        pm_errno w' = ALPM_ERR_LIBCURL
        /\ forall temp, tempfile_name p = Some temp ->
                        w_fs w' !! temp = None)
    /\ (dload_interrupted w <> ABORT_OVER_MAXFILESIZE ->
        pm_errno w' = pm_errno w).
Proof.
  intros env id info localpath p w.
  unfold curl_multi_check_finished_download, curl_multi_finished_cleanup,
    utimes_long.
  cbv zeta. record_cbn.
  destruct (Z.eqb_spec (dload_interrupted w) ABORT_OVER_MAXFILESIZE)
    as [Hflag | Hflag]; record_cbn.
  - rewrite Hflag. unfold ABORT_OVER_MAXFILESIZE. cbn [Z.eqb negb orb andb].
    destruct (tempfile_name p) as [temp |] eqn:Htemp;
      destruct (errors_ok p), (signature p), (localf p);
      record_cbn; unfold curl_multi_remove_handle; record_cbn;
      splits; auto; try contradiction; intros _;
      (split; [reflexivity |]); intros temp' Heq;
      try discriminate; inversion Heq; subst;
      unfold Fs.unlink; apply lookup_delete_eq.
  - break_all; record_cbn; unfold curl_multi_remove_handle; record_cbn;
      splits; auto; intros; contradiction.
Qed.

Lemma aborted_transfer_is_final_witness :
  let '(ret, p', w') :=
    curl_multi_check_finished_download env_ok 0 CURLE_ABORTED_BY_CALLBACK
      (info_size 9) "/cache/" (payload_mirrors 200)
      (world_transferring 9 ABORT_OVER_MAXFILESIZE) in
  pm_errno w' = ALPM_ERR_LIBCURL
  /\ w_fs w' !! "/cache/core.db.part" = None.
Proof.
  pose proof (aborted_transfer_is_final env_ok 0 (info_size 9) "/cache/"
                (payload_mirrors 200)
                (world_transferring 9 ABORT_OVER_MAXFILESIZE)) as H.
  destruct (curl_multi_check_finished_download env_ok 0
              CURLE_ABORTED_BY_CALLBACK (info_size 9) "/cache/"
              (payload_mirrors 200)
              (world_transferring 9 ABORT_OVER_MAXFILESIZE))
    as [[ret p'] w'].
  destruct H as (_ & _ & Hmax & _).
  destruct (Hmax eq_refl) as [Herr Hfile].
  split; [exact Herr | apply Hfile; reflexivity].
Defined.

(** ** Starting transfers in the parallel driver *)

(** What a return of [curl_multi_add_payload] for the handle [id] says. *)
Definition add_outcome (id : nat) (p : dload_payload) (w : world)
    (res : Z * dload_payload * world) : Prop :=
  let '(ret, p', w') := res in
  (ret = 0 \/ ret = -1)
  /\ dlcb_calls w' = dlcb_calls w
  /\ signature p' = signature p /\ errors_ok p' = errors_ok p
  /\ (servers p = [] ->
      ret = -1 /\ p' = p /\ pm_errno w' = ALPM_ERR_SERVER_NONE
      /\ w_fs w' = w_fs w)
  /\ (ret = -1 -> curlm w' = curlm w)
  /\ (ret = -1 -> servers p <> [] ->
      fileurl p' = None /\ tempfile_name p' = None
      /\ destfile_name p' = None /\ content_disp_name p' = None)
  /\ (ret = 0 ->
      curlm w' = id :: curlm w /\ localf p' <> None
      \/ curlm w' = curlm w /\ max_size p' = initial_size p'
         /\ max_size p <> 0 /\ fileurl p' = None).

Lemma add_names_outcome :
  forall env localpath p w,
    match curl_multi_add_names env localpath p w with
    | inl (ret, p', w') =>
        ret = -1 /\ curlm w' = curlm w /\ dlcb_calls w' = dlcb_calls w
        /\ signature p' = signature p /\ errors_ok p' = errors_ok p
        /\ (servers p = [] ->
            p' = p /\ pm_errno w' = ALPM_ERR_SERVER_NONE
            /\ w_fs w' = w_fs w)
        /\ (servers p <> [] ->
            fileurl p' = None /\ tempfile_name p' = None
            /\ destfile_name p' = None /\ content_disp_name p' = None)
    | inr (p', w') =>
        servers p <> [] /\ curlm w' = curlm w
        /\ dlcb_calls w' = dlcb_calls w
        /\ signature p' = signature p /\ errors_ok p' = errors_ok p
        /\ max_size p' = max_size p
    end.
Proof.
  intros env localpath p w.
  unfold curl_multi_add_names, curl_multi_add_cleanup, create_tempfile.
  destruct (servers p) as [| server rest] eqn:Hservers.
  - record_cbn. splits; auto. intros Hne. contradiction.
  - break_all; record_cbn; splits; auto; try discriminate.
Qed.

Lemma add_payload_add_outcome :
  forall h env id localpath p w,
    add_outcome id p w (curl_multi_add_payload h env id localpath p w).
Proof.
  intros h env id localpath p w. unfold curl_multi_add_payload, add_outcome.
  pose proof (add_names_outcome env localpath p w) as Hnames.
  destruct (curl_multi_add_names env localpath p w)
    as [[[ret p1] w1] | [p1 w1]].
  - destruct Hnames as (-> & Hcurlm & Hcalls & Hsig & Hok & Hnone & Hsome).
    splits; auto; try discriminate.
  - destruct Hnames as (Hservers & Hcurlm & Hcalls & Hsig & Hok & Hmax).
    pose proof (set_handle_opts_frame h (env_useragent env) p1 w1) as Hopts.
    destruct (curl_set_handle_opts h (env_useragent env) p1 w1) as [p2 w2].
    destruct Hopts as (_ & _ & _ & Hmax2 & Hsig2 & Hok2 & _ & Hcalls2
                       & Hcurlm2 & _).
    unfold curl_multi_add_cleanup, curl_multi_add_handle, Fs.fopen.
    rewrite <- Hcurlm, <- Hcurlm2, <- Hcalls, <- Hcalls2, <- Hsig, <- Hsig2,
      <- Hok, <- Hok2, <- Hmax, <- Hmax2.
    destruct (Z.eqb_spec (max_size p2) (initial_size p2)) as [Heq | Hne];
      destruct (Z.eqb_spec (max_size p2) 0) as [Hz | Hnz];
      cbn [negb andb];
      break_all; record_cbn; splits; auto; try discriminate;
        try (intros; contradiction);
        try (intros _; left; split; [reflexivity | discriminate]);
        try (intros _; right; splits; auto).
Qed.

(** X12.  The outcomes of [curl_multi_add_payload] for the handle [id].
    It returns 0 or -1 and tells the front end nothing.  Without a mirror
    it returns -1 with [ALPM_ERR_SERVER_NONE] and leaves the payload and
    the files alone.  A return of -1 adds no handle to the multi handle,
    and when the payload has a mirror it also clears the URL and the three
    file names of the payload.  A return of 0 either adds the handle [id],
    with the stream of the payload open, or (the [.part] file is complete)
    adds nothing and clears the URL. *)
Theorem add_payload_outcome :
  forall h env id localpath p w,
    let '(ret, p', w') := curl_multi_add_payload h env id localpath p w in
    (ret = 0 \/ ret = -1)
    /\ dlcb_calls w' = dlcb_calls w
    /\ (servers p = [] ->
        ret = -1 /\ p' = p /\ pm_errno w' = ALPM_ERR_SERVER_NONE
        /\ w_fs w' = w_fs w)
    /\ (ret = -1 -> curlm w' = curlm w)
    /\ (ret = -1 -> servers p <> [] ->
        fileurl p' = None /\ tempfile_name p' = None
        /\ destfile_name p' = None /\ content_disp_name p' = None)
    /\ (ret = 0 ->
        curlm w' = id :: curlm w /\ localf p' <> None
        \/ curlm w' = curlm w /\ max_size p' = initial_size p'
           /\ max_size p <> 0 /\ fileurl p' = None).
Proof.
  intros h env id localpath p w.
  pose proof (add_payload_add_outcome h env id localpath p w) as H.
  unfold add_outcome in H.
  destruct (curl_multi_add_payload h env id localpath p w) as [[ret p'] w'].
  tauto.
Qed.

Lemma add_payload_outcome_witness :
  let '(ret, p', w') :=
    curl_multi_add_payload handle_dlcb env_ok 0 "/cache/"
      (set_servers [] (payload_mirrors 0)) world_zero in
  ret = -1 /\ pm_errno w' = ALPM_ERR_SERVER_NONE.
Proof.
  pose proof (add_payload_outcome handle_dlcb env_ok 0 "/cache/"
                (set_servers [] (payload_mirrors 0)) world_zero) as H.
  destruct (curl_multi_add_payload handle_dlcb env_ok 0 "/cache/"
              (set_servers [] (payload_mirrors 0)) world_zero)
    as [[ret p'] w'].
  destruct H as (_ & _ & Hnone & _).
  destruct (Hnone eq_refl) as (Hret & _ & Herr & _). auto.
Defined.

(** ** The loop of the parallel driver *)

(** The driver has met an error: [err] is -1 and the queue of payloads to
    start is empty. *)
Definition latched (st : multi_state) : Prop :=
  ms_err st = -1 /\ (length (ms_payloads st) <= ms_next st)%nat.

Definition err_inv (st : multi_state) : Prop :=
  ms_err st = 0 \/ latched st.

Lemma start_downloads_idle :
  forall fuel h r localpath st,
    (length (ms_payloads st) <= ms_next st)%nat
    \/ parallel_downloads h <= ms_still_running st ->
    start_downloads fuel h r localpath st = st.
Proof.
  intros fuel h r localpath st Hidle. destruct fuel; [reflexivity |].
  cbn [start_downloads].
  destruct (Z.ltb_spec (ms_still_running st) (parallel_downloads h));
    [| reflexivity].
  destruct Hidle as [Hqueue | Hslots]; [| lia].
  rewrite (lookup_ge_None_2 _ _ Hqueue). reflexivity.
Qed.

Lemma start_downloads_inv :
  forall fuel h r localpath st,
    let st' := start_downloads fuel h r localpath st in
    length (ms_payloads st') = length (ms_payloads st)
    /\ (ms_err st' = ms_err st \/ latched st')
    /\ (ms_next st <= ms_next st')%nat
    /\ ms_still_running st <= ms_still_running st'
    /\ ms_still_running st'
       <= Z.max (ms_still_running st) (parallel_downloads h)
    /\ Z.of_nat (length (curlm (ms_world st')))
       <= Z.of_nat (length (curlm (ms_world st)))
          + (ms_still_running st' - ms_still_running st).
Proof.
  induction fuel as [| fuel IH]; intros h r localpath st.
  { cbn. splits; auto; lia. }
  cbn [start_downloads].
  destruct (Z.ltb_spec (ms_still_running st) (parallel_downloads h))
    as [Hfree | Hfull]; [| cbv zeta; splits; auto; lia].
  destruct (ms_payloads st !! ms_next st) as [p |] eqn:Hlookup;
    [| cbv zeta; splits; auto; lia].
  pose proof (lookup_lt_Some _ _ _ Hlookup) as Hlt.
  pose proof (add_payload_add_outcome h (round_env r (ms_next st))
                (ms_next st) localpath p (ms_world st)) as Hadd.
  destruct (curl_multi_add_payload h (round_env r (ms_next st))
              (ms_next st) localpath p (ms_world st)) as [[ret p1] w1].
  destruct Hadd as (Hret & _ & _ & _ & _ & Hfail & _ & Hstart).
  destruct (Z.eqb_spec ret 0) as [-> | Hne].
  - match goal with
    | |- context [start_downloads fuel h r localpath ?s] =>
        specialize (IH h r localpath s); cbv zeta in IH;
        destruct IH as (Hlen & Herr & Hnext & Hlow & Hhigh & Hcurlm);
        revert Hlen Herr Hnext Hlow Hhigh Hcurlm;
        generalize (start_downloads fuel h r localpath s)
    end.
    record_cbn. cbn [ms_payloads ms_next ms_still_running ms_err ms_world].
    rewrite length_insert. intros st' Hlen Herr Hnext Hlow Hhigh Hcurlm.
    assert (Hw1 : Z.of_nat (length (curlm w1))
                  <= Z.of_nat (length (curlm (ms_world st))) + 1).
    { destruct (Hstart eq_refl) as [[-> _] | [-> _]];
        cbn [length]; lia. }
    assert (Hw2 : curlm (if negb (signature p1)
                         then call_dlcb (remote_name p1)
                                (ALPM_DOWNLOAD_INIT (errors_ok p1)) w1
                         else w1) = curlm w1)
      by (destruct (signature p1); reflexivity).
    rewrite Hw2 in Hcurlm.
    cbv zeta. splits; auto; lia.
  - assert (Hret' : ret = -1) by tauto. subst ret. cbv zeta.
    match goal with
    | |- context [start_downloads fuel h r localpath ?s] =>
        rewrite (start_downloads_idle fuel h r localpath s)
          by (left; cbn [ms_payloads ms_next]; reflexivity)
    end.
    cbv zeta. cbn [ms_payloads ms_next ms_still_running ms_err ms_world].
    record_cbn. rewrite !length_insert, (Hfail eq_refl).
    splits; auto; try lia.
    right. unfold latched. cbn [ms_payloads ms_next ms_err].
    rewrite length_insert. split; [reflexivity | apply le_n].
Qed.

Lemma multi_callback_inv :
  forall h r st c,
    let st' := multi_callback h r st c in
    length (ms_payloads st') = length (ms_payloads st)
    /\ ms_err st' = ms_err st /\ ms_next st' = ms_next st.
Proof.
  intros h r st [id cb]. unfold multi_callback.
  destruct (ms_payloads st !! id) as [p |]; [| cbv zeta; auto].
  destruct (run_callback h (env_now (round_env r id)) cb (localf p) p
              (ms_world st)) as [[[go f] p1] w1].
  cbv zeta. cbn [ms_payloads ms_err ms_next]. rewrite length_insert. auto.
Qed.

Lemma multi_message_inv :
  forall r localpath st msg,
    let st' := multi_message r localpath st msg in
    length (ms_payloads st') = length (ms_payloads st)
    /\ (ms_err st' = ms_err st /\ ms_next st' = ms_next st \/ latched st').
Proof.
  intros r localpath st msg. unfold multi_message, latched.
  destruct (msg_done msg); [| cbv zeta; auto].
  destruct (ms_payloads st !! easy_handle msg) as [p |]; [| cbv zeta; auto].
  destruct (curl_multi_check_finished_download _ _ _ _ _ _ _)
    as [[ret p1] w1].
  cbv zeta.
  destruct (ret =? -1); [| destruct (ret =? 2)];
    cbn [ms_payloads ms_err ms_next]; rewrite ?length_insert; auto.
Qed.

Lemma fold_callbacks_inv :
  forall h r cbs st,
    let st' := fold_left (multi_callback h r) cbs st in
    length (ms_payloads st') = length (ms_payloads st)
    /\ ms_err st' = ms_err st /\ ms_next st' = ms_next st.
Proof.
  intros h r cbs. induction cbs as [| c cbs IH]; intros st; [cbn; auto |].
  cbn [fold_left]. cbv zeta.
  destruct (IH (multi_callback h r st c)) as (Hlen & Herr & Hnext).
  destruct (multi_callback_inv h r st c) as (Hlen1 & Herr1 & Hnext1).
  splits; congruence.
Qed.

Lemma fold_messages_inv :
  forall r localpath msgs st,
    let st' := fold_left (multi_message r localpath) msgs st in
    length (ms_payloads st') = length (ms_payloads st)
    /\ (ms_err st' = ms_err st /\ ms_next st' = ms_next st \/ latched st').
Proof.
  intros r localpath msgs.
  induction msgs as [| msg msgs IH]; intros st; [cbn; auto |].
  cbn [fold_left]. cbv zeta.
  destruct (IH (multi_message r localpath st msg)) as (Hlen & Herr).
  destruct (multi_message_inv r localpath st msg) as (Hlen1 & Herr1).
  split; [congruence |].
  destruct Herr as [[He Hn] | Hl]; [| auto].
  destruct Herr1 as [[He1 Hn1] | Hl1]; [left; split; congruence |].
  right. unfold latched in *. rewrite He, Hn, Hlen. exact Hl1.
Qed.

Lemma multi_turn_inv :
  forall h localpath st r,
    let st' := multi_turn h localpath st r in
    length (ms_payloads st') = length (ms_payloads st)
    /\ (ms_err st' = ms_err st /\ (ms_next st <= ms_next st')%nat
        \/ latched st').
Proof.
  intros h localpath st r. unfold multi_turn. cbv zeta.
  pose proof (start_downloads_inv (length (ms_payloads st)) h r localpath st)
    as Hstart.
  cbv zeta in Hstart. revert Hstart.
  generalize (start_downloads (length (ms_payloads st)) h r localpath st).
  intros st1 (Hlen1 & Herr1 & Hnext1 & _).
  pose proof (fold_callbacks_inv h r (round_callbacks r) st1) as Hcbs.
  cbv zeta in Hcbs. revert Hcbs.
  generalize (fold_left (multi_callback h r) (round_callbacks r) st1).
  intros st2 (Hlen2 & Herr2 & Hnext2).
  match goal with
  | |- context [fold_left (multi_message r localpath) (round_msgs r) ?s] =>
      pose proof (fold_messages_inv r localpath (round_msgs r) s) as Hmsgs;
      cbv zeta in Hmsgs; revert Hmsgs;
      generalize (fold_left (multi_message r localpath) (round_msgs r) s)
  end.
  intros st3.
  destruct (round_mc_ok r); cbn [ms_payloads ms_err ms_next];
    intros (Hlen3 & Herr3); (split; [congruence |]);
    (destruct Herr3 as [[He Hn] | Hl]; [| auto]).
  - destruct Herr1 as [He1 | Hl1].
    + left. split; [congruence | lia].
    + right. unfold latched in *. rewrite He, Hn, Hlen3, Herr2, Hnext2, Hlen2.
      exact Hl1.
  - right. unfold latched. rewrite He, Hn, Hlen3. split; [reflexivity | lia].
Qed.

Lemma latched_turn :
  forall h localpath st r,
    latched st -> latched (multi_turn h localpath st r).
Proof.
  intros h localpath st r [Herr Hnext].
  destruct (multi_turn_inv h localpath st r) as (Hlen & [[He Hn] | Hl]);
    [| exact Hl].
  unfold latched. rewrite He, Hlen. split; [exact Herr | lia].
Qed.

Lemma err_inv_turn :
  forall h localpath st r,
    err_inv st -> err_inv (multi_turn h localpath st r).
Proof.
  intros h localpath st r [Hzero | Hl].
  - destruct (multi_turn_inv h localpath st r) as (_ & [[He _] | Hl]).
    + left. congruence.
    + right. exact Hl.
  - right. apply latched_turn, Hl.
Qed.

Lemma multi_loop_inv :
  forall (P : multi_state -> Prop),
    (forall h localpath st r, P st -> P (multi_turn h localpath st r)) ->
    forall h localpath rounds st,
      P st -> P (fst (multi_loop h localpath rounds st)).
Proof.
  intros P Hturn h localpath rounds.
  induction rounds as [| r rounds IH]; intros st HP; cbn [multi_loop].
  - destruct (multi_busy st); exact HP.
  - destruct (multi_busy st); [| exact HP]. apply IH, Hturn, HP.
Qed.

Lemma multi_loop_length :
  forall h localpath rounds st,
    length (ms_payloads (fst (multi_loop h localpath rounds st)))
    = length (ms_payloads st).
Proof.
  intros h localpath rounds.
  induction rounds as [| r rounds IH]; intros st; cbn [multi_loop].
  - destruct (multi_busy st); reflexivity.
  - destruct (multi_busy st); [| reflexivity]. rewrite IH.
    apply multi_turn_inv.
Qed.

(** X13.  The free slots bound what the driver starts.  The [for] loop
    that starts downloads never lowers [still_running] and never takes it
    above [parallel_downloads] (or above where it already was); the multi
    handle gains at most as many handles as [still_running] grew; and with
    no free slot, or with nothing left in the queue, the loop does
    nothing. *)
Theorem start_downloads_bounded :
  forall fuel h r localpath st,
    let st' := start_downloads fuel h r localpath st in
    ms_still_running st <= ms_still_running st'
    /\ ms_still_running st'
       <= Z.max (ms_still_running st) (parallel_downloads h)
    /\ Z.of_nat (length (curlm (ms_world st')))
       <= Z.of_nat (length (curlm (ms_world st)))
          + (ms_still_running st' - ms_still_running st)
    /\ ((length (ms_payloads st) <= ms_next st)%nat
        \/ parallel_downloads h <= ms_still_running st ->
        st' = st).
Proof.
  intros fuel h r localpath st. cbv zeta.
  destruct (start_downloads_inv fuel h r localpath st)
    as (_ & _ & _ & Hlow & Hhigh & Hcurlm).
  splits; auto. apply start_downloads_idle.
Qed.

(** X14.  An error is final for the parallel driver.  Once [err] is -1 and
    the queue is dropped, the loop that starts downloads does nothing in
    any later turn, and [err] is -1 and the queue empty after every turn
    and at the end of the loop, whatever libcurl reports. *)
Theorem driver_error_is_final :
  forall h localpath st,
    ms_err st = -1 ->
    (length (ms_payloads st) <= ms_next st)%nat ->
    (forall fuel r, start_downloads fuel h r localpath st = st)
    /\ (forall r, latched (multi_turn h localpath st r))
    /\ (forall rounds, latched (fst (multi_loop h localpath rounds st))).
Proof.
  intros h localpath st Herr Hnext. splits.
  - intros fuel r. apply start_downloads_idle. auto.
  - intros r. apply latched_turn. split; assumption.
  - intros rounds. apply (multi_loop_inv latched latched_turn).
    split; assumption.
Qed.

(** X15.  The parallel driver returns 0 or -1, and it hands back as many
    payloads as it was given. *)
Theorem parallel_driver_returns :
  forall h rounds payloads localpath w err payloads' w',
    curl_multi_download_internal h rounds payloads localpath w
    = Some (err, payloads', w') ->
    (err = 0 \/ err = -1) /\ length payloads' = length payloads.
Proof.
  intros h rounds payloads localpath w err payloads' w'.
  unfold curl_multi_download_internal.
  pose proof (multi_loop_inv err_inv err_inv_turn h localpath rounds
                (mk_multi payloads 0 0 0 w) (or_introl eq_refl)) as Hinv.
  pose proof (multi_loop_length h localpath rounds
                (mk_multi payloads 0 0 0 w)) as Hlen.
  destruct (multi_loop h localpath rounds (mk_multi payloads 0 0 0 w))
    as [st [|]]; [| discriminate].
  cbn [fst] in *. intros Heq. inversion Heq; subst. cbn [ms_payloads] in Hlen.
  split; [| exact Hlen].
  destruct Hinv as [Hz | [Hm _]]; auto.
Qed.

(** One turn in which libcurl brings the nine bytes of the first payload
    and reports its transfer done. *)
Definition round_done : multi_round :=
  {| round_env := fun _ => env_ok;
     round_callbacks := [(0%nat, curl_write 9)];
     round_mc_ok := true;
     round_still_running := 0;
     round_msgs := [mk_msg true 0 CURLE_OK (info_size 9)] |}.

Definition payload_queued : dload_payload :=
  {| tempfile_openmode := None; remote_name := None; tempfile_name := None;
     destfile_name := None; content_disp_name := None; fileurl := None;
     filepath := Some "core.db"; servers := ["http://a"]; respcode := 0;
     initial_size := 0; max_size := 0; prevprogress := 0; force := false;
     allow_resume := false; errors_ok := false; unlink_on_fail := false;
     trust_remote_name := false; signature := false; curl := None;
     error_buffer := ""; localf := None |}.

Lemma start_downloads_bounded_witness :
  start_downloads 1 handle_dlcb round_done "/cache/"
    (mk_multi [payload_queued] 0 5 0 world_zero)
  = mk_multi [payload_queued] 0 5 0 world_zero.
Proof.
  apply (start_downloads_bounded 1 handle_dlcb round_done "/cache/"
           (mk_multi [payload_queued] 0 5 0 world_zero)).
  right. cbn. lia.
Defined.

Lemma driver_error_is_final_witness :
  latched
    (multi_turn handle_dlcb "/cache/"
       (mk_multi [payload_queued] 1 1 (-1) world_zero) round_done).
Proof.
  apply (driver_error_is_final handle_dlcb "/cache/"
           (mk_multi [payload_queued] 1 1 (-1) world_zero) eq_refl (le_n 1)).
Defined.

Lemma parallel_driver_returns_witness :
  exists err payloads' w',
    curl_multi_download_internal handle_dlcb [round_done] [payload_queued]
      "/cache/" world_zero = Some (err, payloads', w')
    /\ (err = 0 \/ err = -1) /\ length payloads' = 1%nat.
Proof.
  destruct (curl_multi_download_internal handle_dlcb [round_done]
              [payload_queued] "/cache/" world_zero)
    as [[[err payloads'] w'] |] eqn:E; [| vm_compute in E; discriminate].
  exists err, payloads', w'. split; [reflexivity |].
  apply (parallel_driver_returns _ _ _ _ _ _ _ _ E).
Defined.

(** ** The front end's own downloader *)

(** X16.  When the front end has installed a fetch callback,
    [_alpm_download] is that callback: it returns what the callback
    returns, whatever libcurl and the system would answer; it stores
    nothing through [final_file] and [final_url], leaves the payload as it
    is, tells the download callback nothing and logs nothing; and it sets
    [pm_errno], to [ALPM_ERR_EXTERNAL_DOWNLOAD], exactly when the callback
    returned -1 for a payload that is not optional. *)
Theorem external_downloader_replaces_engine :
  forall h cb env t uninit want_file want_url localpath p w,
    fetchcb h = Some cb ->
    let answer := cb (default "" (fileurl p)) localpath (force p) (w_fs w) in
    let '(ret, final_file, final_url, p', w') :=
      _alpm_download h env t uninit want_file want_url localpath p w in
    ret = fst answer /\ w_fs w' = snd answer
    /\ final_file = None /\ final_url = None /\ p' = p
    /\ dlcb_calls w' = dlcb_calls w /\ alpm_log w' = alpm_log w
    /\ pm_errno w'
       = if (fst answer =? -1) && negb (errors_ok p)
         then ALPM_ERR_EXTERNAL_DOWNLOAD else pm_errno w.
Proof.
  intros h cb env t uninit want_file want_url localpath p w Hcb.
  unfold _alpm_download. rewrite Hcb. cbv zeta.
  destruct (cb (default "" (fileurl p)) localpath (force p) (w_fs w))
    as [ret fs].
  cbn [fst snd].
  destruct (Z.eqb_spec ret (-1)) as [-> | Hne]; destruct (errors_ok p);
    cbn [negb andb]; splits; reflexivity.
Qed.

(** A fetch callback that finds nothing at mirrors named [bad] and writes
    64 bytes to the cache for every other URL. *)
Definition fetch_unless_bad : string -> string -> bool -> gmap string stat ->
                              Z * gmap string stat :=
  fun url localpath _ fs =>
    if String.prefix "bad" url then (-1, fs)
    else (0, <[localpath +:+ get_filename url := mk_stat 64 100]> fs).

Definition handle_fetchcb : alpm_handle :=
  {| dlcb := true; fetchcb := Some fetch_unless_bad; siglevel := 1;
     disable_dl_timeout := false; parallel_downloads := 5 |}.

Lemma external_downloader_replaces_engine_witness :
  let '(ret, _, _, _, w') :=
    _alpm_download handle_fetchcb env_ok (transfer_438 "bad/foo.pkg") 0
      true true "/cache/" (payload_url "bad/foo.pkg") world_zero in
  ret = -1 /\ pm_errno w' = ALPM_ERR_EXTERNAL_DOWNLOAD.
Proof.
  pose proof (external_downloader_replaces_engine handle_fetchcb
                fetch_unless_bad env_ok (transfer_438 "bad/foo.pkg") 0
                true true "/cache/" (payload_url "bad/foo.pkg") world_zero
                eq_refl) as H.
  cbv zeta in H.
  destruct (_alpm_download handle_fetchcb env_ok (transfer_438 "bad/foo.pkg")
              0 true true "/cache/" (payload_url "bad/foo.pkg") world_zero)
    as [[[[ret ff] fu] p'] w'].
  destruct H as (Hret & _ & _ & _ & _ & _ & _ & Herr).
  split; [exact Hret | exact Herr].
Defined.

Lemma fetchcb_payloads_outcome :
  forall cb localpath payloads w,
    let '(ret, w') := fetchcb_payloads cb localpath payloads w in
    dlcb_calls w' = dlcb_calls w /\ alpm_log w' = alpm_log w
    /\ (ret = 0 /\ pm_errno w' = pm_errno w
        \/ ret = -1 /\ pm_errno w' = ALPM_ERR_EXTERNAL_DOWNLOAD
           /\ Exists (fun p => errors_ok p = false) payloads)
    /\ (Forall (fun p => errors_ok p = true) payloads -> ret = 0)
    /\ (Exists (fun p => servers p = [] /\ errors_ok p = false) payloads ->
        ret = -1).
Proof.
  intros cb localpath payloads.
  induction payloads as [| p payloads IH]; intros w.
  - cbn. splits; auto. intros H. inversion H.
  - cbn [fetchcb_payloads].
    destruct (fetchcb_servers cb localpath (default "" (filepath p))
                (force p) (servers p) (w_fs w)) as [success fs] eqn:Hservers.
    cbv zeta.
    destruct (negb success && negb (errors_ok p)) eqn:Hfail.
    + apply andb_prop in Hfail. destruct Hfail as [_ Hopt].
      apply negb_true_iff in Hopt.
      split; [reflexivity |]. split; [reflexivity |].
      split; [| split].
      * right. splits; auto; apply Exists_cons_hd; exact Hopt.
      * intros Hall. inversion Hall; subst. congruence.
      * reflexivity.
    + specialize (IH (set_w_fs fs w)).
      destruct (fetchcb_payloads cb localpath payloads (set_w_fs fs w))
        as [ret w'].
      destruct IH as (Hcalls & Hlog & Hret & Hall & Hnone).
      split; [exact Hcalls |]. split; [exact Hlog |].
      split; [| split].
      * destruct Hret as [? | (? & ? & ?)]; [left; auto |].
        right. splits; auto; apply Exists_cons_tl; assumption.
      * intros HF. inversion HF; subst. auto.
      * intros HE. inversion HE as [? ? [Hs Ho] | ? ? HE']; subst; auto.
        rewrite Hs in Hservers. cbn in Hservers.
        inversion Hservers; subst. rewrite Ho in Hfail. discriminate.
Qed.

(** X17.  When the front end has installed a fetch callback,
    [_alpm_multi_download] comes to its end for any list of payloads and
    hands the payloads back untouched; it tells the download callback
    nothing and logs nothing.  It returns 0, with [pm_errno] as it was, or
    -1 with [ALPM_ERR_EXTERNAL_DOWNLOAD], and then some payload is not
    optional.  It returns 0 when every payload is optional, and -1 when
    some payload that is not optional has no mirror. *)
Theorem external_downloader_many :
  forall h cb rounds payloads localpath w,
    fetchcb h = Some cb ->
    exists ret w',
      _alpm_multi_download h rounds payloads localpath w
      = Some (ret, payloads, w')
      /\ dlcb_calls w' = dlcb_calls w /\ alpm_log w' = alpm_log w
      /\ (ret = 0 /\ pm_errno w' = pm_errno w
          \/ ret = -1 /\ pm_errno w' = ALPM_ERR_EXTERNAL_DOWNLOAD
             /\ Exists (fun p => errors_ok p = false) payloads)
      /\ (Forall (fun p => errors_ok p = true) payloads -> ret = 0)
      /\ (Exists (fun p => servers p = [] /\ errors_ok p = false) payloads ->
          ret = -1).
Proof.
  intros h cb rounds payloads localpath w Hcb.
  unfold _alpm_multi_download. rewrite Hcb.
  pose proof (fetchcb_payloads_outcome cb localpath payloads w) as H.
  destruct (fetchcb_payloads cb localpath payloads w) as [ret w'].
  exists ret, w'. split; [reflexivity | exact H].
Qed.

Lemma external_downloader_many_witness :
  exists w',
    _alpm_multi_download handle_fetchcb [] [payload_url "bad/foo.pkg"]
      "/cache/" world_zero
    = Some (-1, [payload_url "bad/foo.pkg"], w').
Proof.
  destruct (external_downloader_many handle_fetchcb fetch_unless_bad []
              [payload_url "bad/foo.pkg"] "/cache/" world_zero eq_refl)
    as (ret & w' & Heq & _ & _ & _ & _ & Hnone).
  exists w'. rewrite Heq.
  assert (Hret : ret = -1).
  { apply Hnone. apply Exists_cons_hd. split; reflexivity. }
  rewrite Hret. reflexivity.
Defined.

(** ** Fetching a package by its URL, the other ways *)

Section FetchPkgurlOutcomes.

Context (ALPM_SIG_PACKAGE ALPM_SIG_PACKAGE_OPTIONAL : Z).
Context (_alpm_filecache_setup : world -> string * world).
Context (_alpm_filecache_find : world -> option string -> option string).

(** X18.  After a cache miss, when the download of the package returns
    -1, [alpm_fetch_pkgurl] logs a warning and returns [NULL]: the package
    payload is the only one it hands to [_alpm_download], so no signature
    is asked for whatever the signature level is, and the cache is not
    looked up again. *)
Theorem failed_package_download_ends_fetch :
  forall h pkg sig url w cachedir w0 final_file final_url pp w1,
    _alpm_filecache_setup w = (cachedir, w0) ->
    filecache_find_url _alpm_filecache_find w0 url = None ->
    _alpm_download h (d_env pkg) (d_transfer pkg) (d_uninit pkg) true true
      cachedir (pkgurl_payload url) w0
    = (-1, final_file, final_url, pp, w1) ->
    alpm_fetch_pkgurl ALPM_SIG_PACKAGE ALPM_SIG_PACKAGE_OPTIONAL
      _alpm_filecache_setup _alpm_filecache_find h pkg sig url w
    = (None, [pkgurl_payload url],
       _alpm_log ALPM_LOG_WARNING "failed to download %s\n" w1).
Proof.
  intros h pkg sig url w cachedir w0 final_file final_url pp w1
    Hsetup Hmiss Hpkg.
  unfold alpm_fetch_pkgurl. rewrite Hsetup, Hmiss, Hpkg. reflexivity.
Qed.

(** X19.  With a fetch callback installed, [alpm_fetch_pkgurl] never asks
    for a signature.  After a cache miss it hands the package payload to
    [_alpm_download] and nothing else, even when the signature level asks
    for package signatures, because the callback reports no effective URL;
    and as the callback reports no file name either, the path it returns
    when the download did not fail is what the cache holds for the [NULL]
    name. *)
Theorem external_downloader_skips_signature :
  forall h cb pkg sig url w cachedir w0,
    fetchcb h = Some cb ->
    _alpm_filecache_setup w = (cachedir, w0) ->
    filecache_find_url _alpm_filecache_find w0 url = None ->
    let '(path, downloads, w') :=
      alpm_fetch_pkgurl ALPM_SIG_PACKAGE ALPM_SIG_PACKAGE_OPTIONAL
        _alpm_filecache_setup _alpm_filecache_find h pkg sig url w in
    downloads = [pkgurl_payload url]
    /\ dlcb_calls w' = dlcb_calls w0
    /\ (fst (cb url cachedir false (w_fs w0)) = -1 -> path = None)
    /\ (fst (cb url cachedir false (w_fs w0)) <> -1 ->
        path = _alpm_filecache_find w' None).
Proof.
  intros h cb pkg sig url w cachedir w0 Hcb Hsetup Hmiss.
  unfold alpm_fetch_pkgurl. rewrite Hsetup, Hmiss.
  unfold _alpm_download. rewrite Hcb. cbv zeta.
  change (default "" (fileurl (pkgurl_payload url))) with url.
  change (force (pkgurl_payload url)) with false.
  change (errors_ok (pkgurl_payload url)) with false.
  destruct (cb url cachedir false (w_fs w0)) as [ret fs]. cbn [fst snd].
  destruct (Z.eqb_spec ret (-1)) as [-> | Hne]; cbn [negb andb].
  - cbn [Z.eqb]. record_cbn. splits; auto. intros Hne. contradiction.
  - apply Z.eqb_neq in Hne. rewrite Hne. record_cbn.
    splits; auto. intros Heq. apply Z.eqb_neq in Hne. contradiction.
Qed.

End FetchPkgurlOutcomes.

Lemma failed_package_download_ends_fetch_witness :
  alpm_fetch_pkgurl 1 2 setup_cache find_in_cache handle_fetchcb
    answers_pkg answers_pkg "bad/foo.pkg" world_zero
  = (None, [pkgurl_payload "bad/foo.pkg"],
     _alpm_log ALPM_LOG_WARNING "failed to download %s\n"
       (set_errno ALPM_ERR_EXTERNAL_DOWNLOAD world_zero)).
Proof.
  apply (failed_package_download_ends_fetch 1 2 setup_cache find_in_cache
           handle_fetchcb answers_pkg answers_pkg "bad/foo.pkg"
           world_zero "/cache/" world_zero None None
           (pkgurl_payload "bad/foo.pkg"));
    reflexivity.
Defined.

Lemma external_downloader_skips_signature_witness :
  let '(_, downloads, _) :=
    alpm_fetch_pkgurl 1 2 setup_cache find_in_cache handle_fetchcb
      answers_pkg answers_pkg "http://m/foo.pkg" world_zero in
  downloads = [pkgurl_payload "http://m/foo.pkg"].
Proof.
  pose proof (external_downloader_skips_signature 1 2 setup_cache
                find_in_cache handle_fetchcb fetch_unless_bad answers_pkg
                answers_pkg "http://m/foo.pkg" world_zero "/cache/"
                world_zero eq_refl eq_refl eq_refl) as H.
  destruct (alpm_fetch_pkgurl 1 2 setup_cache find_in_cache handle_fetchcb
              answers_pkg answers_pkg "http://m/foo.pkg" world_zero)
    as [[path downloads] w'].
  apply H.
Defined.

(** ** Temporary files *)

(** X20.  What [create_tempfile] leaves behind.  It tells the front end
    nothing and never sets [pm_errno].  When it returns [NULL] the payload
    is as it was and the file that [mkstemp] may have created is gone.
    When it returns a stream, [mkstemp] has picked the six characters, the
    file of that name exists and is empty, the stream is at its start, and
    [tempfile_name] and [remote_name] of the payload are that path and its
    part after the last slash. *)
Theorem create_tempfile_outcome :
  forall env localpath p w,
    let '(f, p', w') := create_tempfile env localpath p w in
    dlcb_calls w' = dlcb_calls w /\ pm_errno w' = pm_errno w
    /\ match f with
       | None =>
           p' = p
           /\ forall chars,
               env_mkstemp env = Some chars ->
               w_fs w' !! (localpath +:+ "alpmtmp." +:+ chars) = None
       | Some file =>
           exists chars,
             env_mkstemp env = Some chars
             /\ f_path file = localpath +:+ "alpmtmp." +:+ chars
             /\ f_pos file = 0
             /\ w_fs w' !! f_path file = Some (mk_stat 0 (env_now env))
             /\ tempfile_name p' = Some (f_path file)
             /\ remote_name p' = Some (after_last_slash (f_path file))
       end.
Proof.
  intros env localpath p w. unfold create_tempfile.
  destruct (env_mkstemp env) as [chars |] eqn:Hmk; cbv zeta.
  - destruct (negb (env_fchmod_ok env) || negb (env_fdopen_ok env));
      record_cbn.
    + splits; auto. intros chars' Heq. inversion Heq; subst.
      unfold Fs.unlink. rewrite lookup_delete_eq. reflexivity.
    + splits; auto. exists chars. cbn [f_path f_pos]. splits; auto.
      apply lookup_insert_eq.
  - record_cbn. splits; auto. intros chars Heq. discriminate.
Qed.

Lemma create_tempfile_outcome_witness :
  let '(f, _, w') :=
    create_tempfile
      {| env_useragent := None; env_now := 100;
         env_mkstemp := Some "abcdef"; env_fchmod_ok := false;
         env_fdopen_ok := true; env_fopen_ok := true;
         env_rename_ok := true; env_ftruncate_ok := true;
         env_malloc_ok := true |}
      "/cache/" payload_zero world_zero in
  f = None /\ w_fs w' !! "/cache/alpmtmp.abcdef" = None.
Proof.
  pose proof (create_tempfile_outcome
                {| env_useragent := None; env_now := 100;
                   env_mkstemp := Some "abcdef"; env_fchmod_ok := false;
                   env_fdopen_ok := true; env_fopen_ok := true;
                   env_rename_ok := true; env_ftruncate_ok := true;
                   env_malloc_ok := true |}
                "/cache/" payload_zero world_zero) as H.
  destruct (create_tempfile _ "/cache/" payload_zero world_zero)
    as [[f p'] w'] eqn:E.
  assert (Hf : f = None) by (vm_compute in E; congruence).
  subst f. split; [reflexivity |].
  destruct H as (_ & _ & _ & Hgone). apply (Hgone "abcdef"). reflexivity.
Defined.

Lemma create_tempfile_fails :
  forall env localpath p w,
    env_mkstemp env = None \/ env_fchmod_ok env = false
    \/ env_fdopen_ok env = false ->
    exists w',
      create_tempfile env localpath p w = (None, p, w')
      /\ dlcb_calls w' = dlcb_calls w /\ pm_errno w' = pm_errno w.
Proof.
  intros env localpath p w Hfail. unfold create_tempfile.
  destruct (env_mkstemp env); cbv zeta.
  - destruct Hfail as [Hmk | [Hch | Hfd]]; [discriminate | |].
    + rewrite Hch. cbn [negb orb]. eexists. split; [reflexivity |].
      record_cbn. auto.
    + rewrite Hfd, orb_true_r. eexists. split; [reflexivity |].
      record_cbn. auto.
  - eexists. split; [reflexivity |]. record_cbn. auto.
Qed.

(** X21.  A temporary file that cannot be created is an error without a
    code.  For a handle with a download callback (on this path the call at
    the end of [cleanup:] is the first one through [handle->dlcb], and the
    driver does not test the pointer): when the URL has a host but no file
    name, the payload has no name of its own, and [mkstemp], [fchmod] or
    [fdopen] fails, the single-transfer driver returns -1 with [pm_errno]
    at [ALPM_ERR_OK], and the one event it hands the front end is a
    [DOWNLOAD_COMPLETED] with the result -1 whose byte count is the value
    that [bytes_dl] held before any assignment. *)
Theorem tempfile_failure_has_no_error_code :
  forall h env t uninit want_file want_url localpath p w,
    dlcb h = true ->
    remote_name p = None ->
    curl_gethost (default "" (fileurl p)) HOSTNAME_SIZE <> None ->
    has_filename (Some (get_filename (default "" (fileurl p)))) = false ->
    env_mkstemp env = None \/ env_fchmod_ok env = false
    \/ env_fdopen_ok env = false ->
    let '(ret, final_file, final_url, p', w') :=
      curl_download_internal h env t uninit want_file want_url localpath p w
    in
    ret = -1 /\ pm_errno w' = ALPM_ERR_OK
    /\ final_file = None /\ final_url = None
    /\ dlcb_calls w'
       = dlcb_calls w
         ++ [(Some (get_filename (default "" (fileurl p))),
              ALPM_DOWNLOAD_COMPLETED uninit (-1))].
Proof.
  intros h env t uninit want_file want_url localpath p w
    _ Hname Hhost Hnofile Hfail.
  unfold curl_download_internal, curl_download_names. cbv zeta. record_cbn.
  rewrite Hname. record_cbn.
  destruct (curl_gethost (default "" (fileurl p)) HOSTNAME_SIZE)
    as [host |]; [clear Hhost | contradiction].
  rewrite Hnofile.
  match goal with
  | |- context [create_tempfile ?e ?l ?q ?v] =>
      destruct (create_tempfile_fails e l q v Hfail)
        as (w1 & -> & Hcalls & Herr)
  end.
  unfold curl_download_cleanup. cbv zeta. record_cbn.
  cbn [Z.eqb].
  break_all; record_cbn; rewrite ?Herr, ?Hcalls; splits; reflexivity.
Qed.

Definition env_no_mkstemp : sys_env :=
  {| env_useragent := None; env_now := 100; env_mkstemp := None;
     env_fchmod_ok := true; env_fdopen_ok := true; env_fopen_ok := true;
     env_rename_ok := true; env_ftruncate_ok := true; env_malloc_ok := true |}.

Lemma tempfile_failure_has_no_error_code_witness :
  let '(ret, _, _, _, w') :=
    curl_download_internal handle_dlcb env_no_mkstemp
      (transfer_438 "http://m/") 7 true true "/cache/"
      (payload_url "http://m/") world_zero in
  ret = -1 /\ pm_errno w' = ALPM_ERR_OK
  /\ dlcb_calls w' = [(Some "", ALPM_DOWNLOAD_COMPLETED 7 (-1))].
Proof.
  pose proof (tempfile_failure_has_no_error_code handle_dlcb env_no_mkstemp
                (transfer_438 "http://m/") 7 true true "/cache/"
                (payload_url "http://m/") world_zero eq_refl eq_refl) as H.
  destruct (curl_download_internal handle_dlcb env_no_mkstemp
              (transfer_438 "http://m/") 7 true true "/cache/"
              (payload_url "http://m/") world_zero)
    as [[[[ret ff] fu] p'] w'].
  destruct H as (Hret & Herr & _ & _ & Hcalls);
    [discriminate | reflexivity | left; reflexivity |].
  splits; [exact Hret | exact Herr | exact Hcalls].
Defined.

(** ** The options of a transfer *)

Ltac not_in_opts :=
  let opts := fresh "opts" in
  let Hcurl := fresh "Hcurl" in
  let Hin := fresh "Hin" in
  intros (opts & Hcurl & Hin); record_cbn; inversion Hcurl; subst;
  cbn [In app] in Hin;
  repeat (destruct Hin as [Hin | Hin];
          [first [discriminate Hin | inversion Hin; subst; tauto] |]);
  try contradiction.

(** X22.  What the configurator asks of libcurl, besides the resume and
    freshness options.  The URL of the transfer is [fileurl]; redirects
    are followed, ten at most, and the connection timeout is ten seconds.
    The size limit is given to libcurl exactly when [max_size] is not 0,
    and it is [max_size].  The low-speed abort (1 byte per second for 10
    seconds) is set exactly when the handle has not disabled the timeout.
    The user agent is the one of the environment, if any.  The
    configurator does not set where the body goes. *)
Theorem configurator_options :
  forall h useragent p w,
    let p' := fst (curl_set_handle_opts h useragent p w) in
    opt_set (CURLOPT_URL (fileurl p)) p'
    /\ opt_set (CURLOPT_FOLLOWLOCATION 1) p'
    /\ opt_set (CURLOPT_MAXREDIRS 10) p'
    /\ opt_set (CURLOPT_CONNECTTIMEOUT 10) p'
    /\ (forall n, opt_set (CURLOPT_MAXFILESIZE_LARGE n) p'
                  <-> max_size p <> 0 /\ n = max_size p)
    /\ (forall n, opt_set (CURLOPT_LOW_SPEED_LIMIT n) p'
                  <-> disable_dl_timeout h = false /\ n = 1)
    /\ (forall n, opt_set (CURLOPT_LOW_SPEED_TIME n) p'
                  <-> disable_dl_timeout h = false /\ n = 10)
    /\ (forall agent, opt_set (CURLOPT_USERAGENT agent) p'
                      <-> useragent = Some agent)
    /\ (forall path, ~ opt_set (CURLOPT_WRITEDATA path) p').
Proof.
  intros h useragent p w. cbv zeta. unfold curl_set_handle_opts.
  destruct (disable_dl_timeout h); cbn [negb];
    destruct (Z.eqb_spec (max_size p) 0) as [Hmax | Hmax]; cbn [negb];
    destruct useragent as [agent0 |];
    (destruct (if negb (allow_resume p) && negb (force p)
               then Fs.stat_of (w_fs _) (destfile_name p) else None)
       as [st |];
     [| destruct (Fs.stat_of (w_fs _) (tempfile_name p)) as [st |];
        [destruct (allow_resume p) |]]);
    cbn [fst app];
    (split; [opts_tac |]); (split; [opts_tac |]);
    (split; [opts_tac |]); (split; [opts_tac |]);
    (split; [intros n; split;
             [not_in_opts | intros [Hne ->]; try contradiction; opts_tac] |]);
    (split; [intros n; split;
             [not_in_opts | intros [Hne ->]; try discriminate; opts_tac] |]);
    (split; [intros n; split;
             [not_in_opts | intros [Hne ->]; try discriminate; opts_tac] |]);
    (split; [intros agent; split;
             [not_in_opts | intros Heq; try discriminate;
                            inversion Heq; subst; opts_tac] |]);
    intros path; not_in_opts.
Qed.

Lemma configurator_options_witness :
  opt_set (CURLOPT_MAXFILESIZE_LARGE 1024)
    (fst (curl_set_handle_opts handle_dlcb None payload_1k world_zero)).
Proof.
  apply (configurator_options handle_dlcb None payload_1k world_zero).
  split; [discriminate | reflexivity].
Defined.

(** ** Publishing the artifact *)

(** The modification time the artifact gets: the time the server reported,
    when the stream is open and the server reported one. *)
Definition published_mtime (stream : option FILE) (remote_time : Z)
    (st : stat) : Z :=
  match stream with
  | Some _ => if remote_time =? -1 then st_mtime st else remote_time
  | None => st_mtime st
  end.

Lemma publish_files :
  forall (stream : option FILE) remote_time temp dest st flag
         (fs : gmap string stat),
    temp <> dest ->
    fs !! temp = Some st ->
    let fs1 :=
      match stream with
      | Some _ =>
          if remote_time =? -1 then fs
          else Fs.utimes (Some temp) remote_time fs
      | None => fs
      end in
    exists fs2,
      Fs.rename true (Some temp) (Some dest) fs1 = Some fs2
      /\ (if flag : bool then Fs.unlink (Some temp) fs2 else fs2) !! temp
         = None
      /\ (if flag then Fs.unlink (Some temp) fs2 else fs2) !! dest
         = Some (mk_stat (st_size st)
                   (published_mtime stream remote_time st)).
Proof.
  intros stream remote_time temp dest st flag fs Hne Htemp. cbv zeta.
  unfold Fs.rename, Fs.utimes, Fs.unlink, published_mtime.
  assert (Hdest : forall st' (fs0 : gmap string stat),
             (if flag then delete temp (<[dest := st']> (delete temp fs0))
              else <[dest := st']> (delete temp fs0)) !! temp = None
             /\ (if flag then delete temp (<[dest := st']> (delete temp fs0))
                 else <[dest := st']> (delete temp fs0)) !! dest = Some st').
  { intros st' fs0. destruct flag.
    - rewrite lookup_delete_eq, lookup_delete_ne, lookup_insert_eq by auto.
      auto.
    - rewrite lookup_insert_ne, lookup_delete_eq, lookup_insert_eq by auto.
      auto. }
  destruct stream as [f |]; [destruct (remote_time =? -1) |].
  - rewrite Htemp. eexists. split; [reflexivity |].
    destruct st. apply Hdest.
  - rewrite lookup_alter_eq, Htemp. cbn [fmap option_fmap option_map].
    eexists. split; [reflexivity |]. apply Hdest.
  - rewrite Htemp. eexists. split; [reflexivity |].
    destruct st. apply Hdest.
Qed.

(** X23.  What the [cleanup:] labels of the two drivers publish.  When the
    transfer ended well, the temporary file exists, the destination has
    another name and the system lets the file be renamed, both drivers
    return 0 and leave no temporary file; the artifact at the destination
    has the size of the temporary file and, when the stream was open and
    the server reported a time, that time as its modification time.  The
    single-transfer driver stores the base name of the destination through
    [final_file] when the caller asked for it. *)
Theorem cleanup_publishes_artifact :
  forall env id want_file remote_time bytes_dl final_url stream p w
         temp dest st,
    tempfile_name p = Some temp ->
    destfile_name p = Some dest ->
    temp <> dest ->
    env_rename_ok env = true ->
    w_fs w !! temp = Some st ->
    (let '(ret, p', w') :=
       curl_multi_finished_cleanup env id
         (mk_finished 0 remote_time bytes_dl) p w in
     ret = 0 /\ w_fs w' !! temp = None
     /\ w_fs w' !! dest
        = Some (mk_stat (st_size st)
                  (published_mtime (localf p) remote_time st)))
    /\ (let '(ret, final_file, p', w') :=
          curl_download_cleanup env want_file
            (mk_locals 0 stream remote_time bytes_dl final_url) p w in
        ret = 0 /\ w_fs w' !! temp = None
        /\ w_fs w' !! dest
           = Some (mk_stat (st_size st)
                     (published_mtime stream remote_time st))
        /\ final_file
           = if want_file then Some (after_last_slash dest) else None).
Proof.
  intros env id want_file remote_time bytes_dl final_url stream p w
    temp dest st Htemp Hdest Hne Hrename Hfile.
  split.
  - unfold curl_multi_finished_cleanup, utimes_long. cbv zeta. record_cbn.
    rewrite Htemp, Hdest, Hrename.
    destruct (publish_files (localf p) remote_time temp dest st
                (negb (dload_interrupted w =? 0) && unlink_on_fail p)
                (w_fs w) Hne Hfile) as (fs2 & Hren & Hlook).
    cbv zeta in Hren.
    destruct (localf p) as [f |]; [destruct (remote_time =? -1) |];
      record_cbn; rewrite Hren; record_cbn; cbn [Z.eqb orb];
      rewrite andb_true_r;
      destruct (negb (dload_interrupted w =? 0) && unlink_on_fail p);
      destruct (signature p), (errors_ok p); record_cbn;
      unfold curl_multi_remove_handle; record_cbn;
      (split; [reflexivity | exact Hlook]).
  - unfold curl_download_cleanup, utimes_long. cbv zeta. record_cbn.
    rewrite Htemp, Hdest, Hrename.
    destruct (publish_files stream remote_time temp dest st
                (negb (dload_interrupted w =? 0) && unlink_on_fail p)
                (w_fs w) Hne Hfile) as (fs2 & Hren & Hlook1 & Hlook2).
    cbv zeta in Hren.
    destruct stream as [f |]; [destruct (remote_time =? -1) |];
      record_cbn; rewrite Hren; record_cbn; cbn [Z.eqb orb negb andb];
      rewrite andb_true_r;
      destruct (negb (dload_interrupted w =? 0) && unlink_on_fail p);
      destruct (dload_interrupted _ =? ABORT_SIGINT); record_cbn;
      (split; [reflexivity |]); (split; [exact Hlook1 |]);
      (split; [exact Hlook2 |]); destruct want_file; reflexivity.
Qed.

Lemma cleanup_publishes_artifact_witness :
  let '(ret, _, w') :=
    curl_multi_finished_cleanup env_ok 0 (mk_finished 0 77 9)
      (payload_mirrors 200) (world_transferring 9 0) in
  ret = 0 /\ w_fs w' !! "/cache/core.db.part" = None
  /\ w_fs w' !! "/cache/core.db" = Some (mk_stat 9 77).
Proof.
  destruct (cleanup_publishes_artifact env_ok 0 true 77 9 None None
              (payload_mirrors 200) (world_transferring 9 0)
              "/cache/core.db.part" "/cache/core.db" (mk_stat 9 100)
              eq_refl eq_refl)
    as [H _]; [discriminate | reflexivity | reflexivity |].
  exact H.
Defined.

(** ** The header sink and the interrupt *)

(** X24.  The header sink writes two fields of the payload and no other:
    [respcode], which is the response code of the handle when it returns,
    and [content_disp_name], which it leaves alone for every header line
    that does not hold [filename=]. *)
Theorem header_sink_frame :
  forall ptr code p,
    let p' := dload_parseheader_cb ptr code p in
    respcode p' = code
    /\ p' = set_content_disp_name (content_disp_name p')
              (set_respcode code p)
    /\ (CString.strstr ptr "filename=" = None ->
        content_disp_name p' = content_disp_name p).
Proof.
  intros ptr code p. cbv zeta. unfold dload_parseheader_cb. cbv zeta.
  destruct (_alpm_raw_ncmp _ ptr _ =? 0);
    [destruct (CString.strstr ptr "filename=") as [found |] |];
    record_cbn;
    (destruct (Z.eqb_spec (respcode p) code) as [<- | Hne]; record_cbn;
     splits; try reflexivity; intros; discriminate).
Qed.

Lemma header_sink_frame_witness :
  content_disp_name
    (dload_parseheader_cb "Content-Disposition: inline" 200 payload_zero)
  = None.
Proof.
  apply (header_sink_frame "Content-Disposition: inline" 200 payload_zero).
  reflexivity.
Defined.

(** X25.  The interrupt key during a blocking transfer.  The handler only
    sets the flag; the transfer ends, with [CURLE_ABORTED_BY_CALLBACK],
    at the next progress report of libcurl, and what libcurl would have
    done after it does not happen.  For a signature payload, and while the
    response code is 300 or more, the progress sink does not look at the
    flag, and the transfer goes on. *)
Theorem interrupt_aborts_at_next_progress :
  forall h now dltotal dlnow rest result stream p w,
    curl_easy_perform h now
      (SIGINT :: libcurl (curl_progress dltotal dlnow) :: rest) result
      stream p w
    = if signature p || (300 <=? respcode p)
      then curl_easy_perform h now rest result stream p
             (set_dload_interrupted ABORT_SIGINT w)
      else (CURLE_ABORTED_BY_CALLBACK, stream, p,
            set_dload_interrupted ABORT_SIGINT w).
Proof.
  intros h now dltotal dlnow rest result stream p w.
  cbn [curl_easy_perform run_callback]. unfold dload_progress_cb.
  destruct (signature p); [reflexivity |].
  destruct (300 <=? respcode p); [reflexivity |].
  record_cbn. reflexivity.
Qed.

(** X26.  How the single-transfer driver ends a transfer that the
    interrupt key aborted.  It returns -1, stores no file name, sets no
    error code and raises the interrupt again for the handler that was
    there before.  The temporary file is removed when [unlink_on_fail] is
    set; otherwise it stays as it is, for a later resume. *)
Theorem interrupted_transfer_keeps_part :
  forall env info uninit want_file want_url localpath stream p w temp,
    dload_interrupted w = ABORT_SIGINT ->
    tempfile_name p = Some temp ->
    let '(l, p1, w1) :=
      curl_download_finish info uninit want_url localpath
        CURLE_ABORTED_BY_CALLBACK stream p w in
    let '(ret, final_file, p', w') :=
      curl_download_cleanup env want_file l p1 w1 in
    ret = -1 /\ final_file = None
    /\ sigint_raised w' = true
    /\ pm_errno w' = pm_errno w
    /\ w_fs w' !! temp
       = if unlink_on_fail p then None else w_fs w !! temp.
Proof.
  intros env info uninit want_file want_url localpath stream p w temp
    Hflag Htemp.
  unfold curl_download_finish, curl_download_cleanup, utimes_long.
  cbv zeta. record_cbn. rewrite Hflag.
  unfold ABORT_SIGINT, ABORT_OVER_MAXFILESIZE in *. cbn [Z.eqb Pos.eqb].
  record_cbn. rewrite ?Hflag, ?Htemp. cbn [Z.eqb Pos.eqb negb orb andb].
  destruct stream as [f |]; destruct (unlink_on_fail p);
    do 3 (record_cbn; rewrite ?Hflag; cbn [Z.eqb Pos.eqb negb orb andb]);
    splits; try reflexivity;
    unfold Fs.unlink; apply lookup_delete_eq.
Qed.

Lemma interrupted_transfer_keeps_part_witness :
  let '(l, p1, w1) :=
    curl_download_finish (info_size 9) 0 true "/cache/"
      CURLE_ABORTED_BY_CALLBACK None (payload_mirrors 200)
      (world_transferring 9 ABORT_SIGINT) in
  let '(ret, _, _, w') := curl_download_cleanup env_ok true l p1 w1 in
  ret = -1
  /\ w_fs w' !! "/cache/core.db.part" = Some (mk_stat 9 100).
Proof.
  pose proof (interrupted_transfer_keeps_part env_ok (info_size 9) 0 true
                true "/cache/" None (payload_mirrors 200)
                (world_transferring 9 ABORT_SIGINT) "/cache/core.db.part"
                eq_refl eq_refl) as H.
  destruct (curl_download_finish (info_size 9) 0 true "/cache/"
              CURLE_ABORTED_BY_CALLBACK None (payload_mirrors 200)
              (world_transferring 9 ABORT_SIGINT)) as [[l p1] w1].
  destruct (curl_download_cleanup env_ok true l p1 w1)
    as [[[ret ff] p'] w'].
  destruct H as (Hret & _ & _ & _ & Hfile).
  split; [exact Hret | exact Hfile].
Defined.

(** ** The properties above, at concrete inputs *)

Lemma remote_name_stays_in_localpath_witness :
  trust_remote_name_block "/cache/" "http://m/foo.pkg" payload_zero
  = payload_zero.
Proof.
  apply (proj1 (remote_name_stays_in_localpath "/cache/" "http://m/foo.pkg"
                  payload_zero)).
  reflexivity.
Defined.


Lemma filecache_find_url_basename_witness :
  filecache_find_url find_in_cache world_zero "http://m/foo.pkg"
  = find_in_cache world_zero (Some "foo.pkg").
Proof.
  apply (proj2 (proj2 (filecache_find_url_basename find_in_cache world_zero))
           "http://m" "foo.pkg");
    [discriminate | reflexivity].
Defined.
